(** * Aquamarine: the BLE scanner session and its entity model

    A shallow embedding of [src/device.py] (Characteristic, Service, Device)
    and of the controller [ScannerApp] of [src/scanner.py]: the event
    handlers, the public GATT operations, the event loop, the boot watchdog
    and the steps their threads take in turn.

    Python objects are shared by reference: the widgets hand a [Device] and a
    [Characteristic] back to the controller, and the handlers mutate them in
    place.  The embedding therefore keeps an object store with one heap per
    class, and lists ([ScannerApp.devices], [Device.services],
    [Service.characteristics]) hold references into it.  Every handler is a
    computation in a small monad that threads the store, may raise a Python
    exception, and records the effects it performs, in order: the commands
    sent through the BGAPI library and the attribute writes. *)

From Stdlib Require Import List String Ascii ZArith NArith Bool Lia Permutation.
From Stdlib.Strings Require Import Byte.
From Equations Require Import Equations.
Import ListNotations.

(** ** Text and bytes *)

(** [str.upper()], on ASCII text (addresses and hexadecimal strings). *)
Definition upper_ascii (c : ascii) : ascii :=
  let n := nat_of_ascii c in
  if (97 <=? n)%nat && (n <=? 122)%nat then ascii_of_nat (n - 32) else c.

Fixpoint upper (s : string) : string :=
  match s with
  | EmptyString => EmptyString
  | String c rest => String (upper_ascii c) (upper rest)
  end.

Definition hex_digit (n : N) : ascii :=
  match n with
  | 0%N => "0" | 1%N => "1" | 2%N => "2" | 3%N => "3"
  | 4%N => "4" | 5%N => "5" | 6%N => "6" | 7%N => "7"
  | 8%N => "8" | 9%N => "9" | 10%N => "a" | 11%N => "b"
  | 12%N => "c" | 13%N => "d" | 14%N => "e" | _ => "f"
  end%char.

(** [bytes.hex()]: two lowercase hexadecimal digits per byte. *)
Fixpoint hex (bs : list byte) : string :=
  match bs with
  | [] => EmptyString
  | b :: rest =>
      let n := Byte.to_N b in
      String (hex_digit (n / 16)) (String (hex_digit (n mod 16)) (hex rest))
  end.

Definition hex_value (c : ascii) : option N :=
  let n := N_of_ascii c in
  if (48 <=? n)%N && (n <=? 57)%N then Some (n - 48)%N
  else if (97 <=? n)%N && (n <=? 102)%N then Some (n - 87)%N
  else if (65 <=? n)%N && (n <=? 70)%N then Some (n - 55)%N
  else None.

(** ASCII white space, which [bytes.fromhex] skips between bytes. *)
Definition is_space (c : ascii) : bool :=
  let n := N_of_ascii c in
  (n =? 32)%N || ((9 <=? n)%N && (n <=? 13)%N).

(** [bytes.fromhex(s)]: [None] stands for the [ValueError] it raises when a
    byte is not written as two adjacent hexadecimal digits. *)
Fixpoint fromhex (s : string) : option (list byte) :=
  match s with
  | EmptyString => Some []
  | String c rest =>
      if is_space c then fromhex rest
      else
        match rest with
        | EmptyString => None
        | String c' rest' =>
            match hex_value c, hex_value c' with
            | Some h, Some l =>
                match Byte.of_N (16 * h + l), fromhex rest' with
                | Some b, Some bs => Some (b :: bs)
                | _, _ => None
                end
            | _, _ => None
            end
        end
  end.

(** ** Entity model ([device.py]) *)

Inductive CharacteristicState :=
| NONE
| READING
| WRITING
| SUBSCRIBING_NOTIFICATION
| SUBSCRIBING_INDICATION.

Definition CharacteristicState_eqb (a b : CharacteristicState) : bool :=
  match a, b with
  | NONE, NONE | READING, READING | WRITING, WRITING
  | SUBSCRIBING_NOTIFICATION, SUBSCRIBING_NOTIFICATION
  | SUBSCRIBING_INDICATION, SUBSCRIBING_INDICATION => true
  | _, _ => false
  end.

Inductive ServiceState :=
| DISCOVERING
| DISCOVERED.

Definition ServiceState_eqb (a b : ServiceState) : bool :=
  match a, b with
  | DISCOVERING, DISCOVERING | DISCOVERED, DISCOVERED => true
  | _, _ => false
  end.

(** References to objects of the three classes. *)
Definition CharRef := nat.
Definition ServiceRef := nat.
Definition DeviceRef := nat.

Module Characteristic.

Record t := mk {
  uuid : string;
  handle : Z;
  properties : Z;
  state : CharacteristicState;
  packet : string }.

(** [Characteristic.__init__] *)
Definition init (uuid : string) (handle properties : Z) : t :=
  mk uuid handle properties NONE "".

Definition set_state (st : CharacteristicState) (c : t) : t :=
  mk (uuid c) (handle c) (properties c) st (packet c).

Definition set_packet (p : string) (c : t) : t :=
  mk (uuid c) (handle c) (properties c) (state c) p.

End Characteristic.

Module Service.

Record t := mk {
  uuid : string;
  handle : Z;
  state : ServiceState;
  characteristics : list CharRef }.

(** [Service.__init__] *)
Definition init (uuid : string) (handle : Z) : t :=
  mk uuid handle DISCOVERING [].

Definition set_state (st : ServiceState) (s : t) : t :=
  mk (uuid s) (handle s) st (characteristics s).

Definition append_characteristic (c : CharRef) (s : t) : t :=
  mk (uuid s) (handle s) (state s) (characteristics s ++ [c]).

End Service.

Module Device.

Record t := mk {
  address : string;
  handle : option Z;
  packet : string;
  is_connectable : bool;
  address_type : option Z;
  rssi : option Z;
  is_connected : bool;
  services : list ServiceRef }.

(** [Device.__init__] *)
Definition init (address : string) : t :=
  mk address None "" false None None false [].

Definition set_packet (p : string) (d : t) : t :=
  mk (address d) (handle d) p (is_connectable d) (address_type d) (rssi d)
     (is_connected d) (services d).

Definition set_is_connectable (b : bool) (d : t) : t :=
  mk (address d) (handle d) (packet d) b (address_type d) (rssi d)
     (is_connected d) (services d).

Definition set_address_type (a : option Z) (d : t) : t :=
  mk (address d) (handle d) (packet d) (is_connectable d) a (rssi d)
     (is_connected d) (services d).

Definition set_rssi (r : option Z) (d : t) : t :=
  mk (address d) (handle d) (packet d) (is_connectable d) (address_type d) r
     (is_connected d) (services d).

Definition set_handle (h : option Z) (d : t) : t :=
  mk (address d) h (packet d) (is_connectable d) (address_type d) (rssi d)
     (is_connected d) (services d).

Definition set_is_connected (b : bool) (d : t) : t :=
  mk (address d) (handle d) (packet d) (is_connectable d) (address_type d)
     (rssi d) b (services d).

Definition append_service (s : ServiceRef) (d : t) : t :=
  mk (address d) (handle d) (packet d) (is_connectable d) (address_type d)
     (rssi d) (is_connected d) (services d ++ [s]).

End Device.

(** ** The BGAPI library, as the controller sees it *)

(** Constants that [self.lib] publishes from the module's API description
    (res/sl_bt.xapi, which is not part of the sources): they are read as
    fields of the library object. *)
Record BGLib := mkBGLib {
  ATT_OPCODE_HANDLE_VALUE_INDICATION : Z;
  PHY_PHY_1M : Z;
  SCAN_PHY_SCAN_PHY_1M_AND_CODED : Z;
  DISCOVER_MODE_DISCOVER_GENERIC : Z }.

(** Commands sent to the radio module, with their arguments as passed.  A
    connection argument that is read from [device.handle] may be [None]. *)
Inductive Command :=
| bt_system_reboot
| bt_scanner_start (phy mode : Z)
| bt_connection_open (address : string) (address_type : option Z) (phy : Z)
| bt_connection_close (connection : Z)
| bt_gatt_discover_primary_services (connection : Z)
| bt_gatt_discover_characteristics (connection : option Z) (service : Z)
| bt_gatt_read_characteristic_value (connection : option Z) (characteristic : Z)
| bt_gatt_write_characteristic_value (connection : option Z) (characteristic : Z)
    (value : list byte)
| bt_gatt_set_characteristic_notification (connection : option Z)
    (characteristic : Z) (flags : Z)
| bt_gatt_send_characteristic_confirmation (connection : Z).

(** Events delivered by [lib.get_event]; [bt_evt_other] is any event the
    loop has no case for. *)
Inductive Event :=
| bt_evt_scanner_legacy_advertisement_report
    (address : string) (data : list byte) (event_flags address_type rssi : Z)
| bt_evt_system_boot
| bt_evt_connection_opened (address : string) (connection : Z)
| bt_evt_connection_closed (connection : Z)
| bt_evt_gatt_service (connection : Z) (uuid : list byte) (service : Z)
| bt_evt_gatt_characteristic
    (connection : Z) (uuid : list byte) (characteristic properties : Z)
| bt_evt_gatt_characteristic_value
    (connection characteristic att_opcode : Z) (value : list byte)
| bt_evt_gatt_procedure_completed (connection : Z)
| bt_evt_other (name : string).

(** ** The object store and the controller's own fields *)

Record World := mkWorld {
  characteristic_heap : CharRef -> Characteristic.t;
  service_heap : ServiceRef -> Service.t;
  device_heap : DeviceRef -> Device.t;
  next_characteristic : CharRef;
  next_service : ServiceRef;
  next_device : DeviceRef;
  devices : list DeviceRef;      (* ScannerApp.devices *)
  is_running : bool;             (* ScannerApp.is_running *)
  is_ready : bool;               (* ScannerApp.is_ready *)
  lib : BGLib }.

Definition update {T : Type} (h : nat -> T) (r : nat) (v : T) : nat -> T :=
  fun r' => if Nat.eqb r' r then v else h r'.

(** The objects and attributes a handler can write. *)
Inductive Object :=
| CharacteristicObject (r : CharRef)
| ServiceObject (r : ServiceRef)
| DeviceObject (r : DeviceRef)
| ScannerAppObject.

(** What a handler does, in the order it does it. *)
Inductive Effect :=
| Call (c : Command)                      (* a command sent through [self.lib] *)
| Create (o : Object)                     (* a constructor call *)
| Mutate (o : Object) (attribute : string) (* an attribute or list is changed *)
| Transport (operation : string).         (* [lib.open()] and [lib.close()] *)

Inductive Exception :=
| ValueError
| KeyboardInterrupt.

Inductive Result (A : Type) :=
| Ok (a : A)
| Raise (e : Exception).

Arguments Ok {A} a.
Arguments Raise {A} e.

(** A computation reads and changes the world, returns or raises, and
    leaves the list of its effects. *)
Definition M (A : Type) : Type := World -> Result A * World * list Effect.

Definition ret {A : Type} (a : A) : M A := fun w => (Ok a, w, []).

Definition bind {A B : Type} (m : M A) (k : A -> M B) : M B :=
  fun w =>
    match m w with
    | (Ok a, w1, t1) =>
        match k a w1 with
        | (r, w2, t2) => (r, w2, t1 ++ t2)
        end
    | (Raise e, w1, t1) => (Raise e, w1, t1)
    end.

Definition raise {A : Type} (e : Exception) : M A := fun w => (Raise e, w, []).

(** [try: body except KeyboardInterrupt: handler] *)
Definition try_except_KeyboardInterrupt (body handler : M unit) : M unit :=
  fun w =>
    match body w with
    | (Raise KeyboardInterrupt, w1, t1) =>
        match handler w1 with
        | (r, w2, t2) => (r, w2, t1 ++ t2)
        end
    | other => other
    end.

Definition gets {A : Type} (f : World -> A) : M A := fun w => (Ok (f w), w, []).

Declare Scope monad_scope.
Delimit Scope monad_scope with monad.
Notation "x <- m ;; k" := (bind m (fun x => k))
  (at level 61, m at next level, right associativity) : monad_scope.
Notation "m ;; k" := (bind m (fun _ => k))
  (at level 61, right associativity) : monad_scope.
Open Scope monad_scope.

Definition result {A : Type} (x : Result A * World * list Effect) : Result A :=
  fst (fst x).
Definition world {A : Type} (x : Result A * World * list Effect) : World :=
  snd (fst x).
Definition effects {A : Type} (x : Result A * World * list Effect) : list Effect :=
  snd x.

(** *** Primitive effects *)

Definition call (c : Command) : M unit := fun w => (Ok tt, w, [Call c]).

Definition transport (operation : string) : M unit :=
  fun w => (Ok tt, w, [Transport operation]).

Definition write_characteristic (r : CharRef) (attribute : string)
    (f : Characteristic.t -> Characteristic.t) : M unit :=
  fun w =>
    (Ok tt,
     mkWorld (update (characteristic_heap w) r (f (characteristic_heap w r)))
       (service_heap w) (device_heap w)
       (next_characteristic w) (next_service w) (next_device w)
       (devices w) (is_running w) (is_ready w) (lib w),
     [Mutate (CharacteristicObject r) attribute]).

Definition write_service (r : ServiceRef) (attribute : string)
    (f : Service.t -> Service.t) : M unit :=
  fun w =>
    (Ok tt,
     mkWorld (characteristic_heap w)
       (update (service_heap w) r (f (service_heap w r))) (device_heap w)
       (next_characteristic w) (next_service w) (next_device w)
       (devices w) (is_running w) (is_ready w) (lib w),
     [Mutate (ServiceObject r) attribute]).

Definition write_device (r : DeviceRef) (attribute : string)
    (f : Device.t -> Device.t) : M unit :=
  fun w =>
    (Ok tt,
     mkWorld (characteristic_heap w) (service_heap w)
       (update (device_heap w) r (f (device_heap w r)))
       (next_characteristic w) (next_service w) (next_device w)
       (devices w) (is_running w) (is_ready w) (lib w),
     [Mutate (DeviceObject r) attribute]).

Definition new_characteristic (c : Characteristic.t) : M CharRef :=
  fun w =>
    let r := next_characteristic w in
    (Ok r,
     mkWorld (update (characteristic_heap w) r c) (service_heap w) (device_heap w)
       (S r) (next_service w) (next_device w)
       (devices w) (is_running w) (is_ready w) (lib w),
     [Create (CharacteristicObject r)]).

Definition new_service (s : Service.t) : M ServiceRef :=
  fun w =>
    let r := next_service w in
    (Ok r,
     mkWorld (characteristic_heap w) (update (service_heap w) r s) (device_heap w)
       (next_characteristic w) (S r) (next_device w)
       (devices w) (is_running w) (is_ready w) (lib w),
     [Create (ServiceObject r)]).

Definition new_device (d : Device.t) : M DeviceRef :=
  fun w =>
    let r := next_device w in
    (Ok r,
     mkWorld (characteristic_heap w) (service_heap w) (update (device_heap w) r d)
       (next_characteristic w) (next_service w) (S r)
       (devices w) (is_running w) (is_ready w) (lib w),
     [Create (DeviceObject r)]).

(** [self.devices.append(device)] *)
Definition devices_append (d : DeviceRef) : M unit :=
  fun w =>
    (Ok tt,
     mkWorld (characteristic_heap w) (service_heap w) (device_heap w)
       (next_characteristic w) (next_service w) (next_device w)
       (devices w ++ [d]) (is_running w) (is_ready w) (lib w),
     [Mutate ScannerAppObject "devices"]).

(** [self.is_running.set()] and [self.is_running.clear()] *)
Definition set_is_running (b : bool) : M unit :=
  fun w =>
    (Ok tt,
     mkWorld (characteristic_heap w) (service_heap w) (device_heap w)
       (next_characteristic w) (next_service w) (next_device w)
       (devices w) b (is_ready w) (lib w),
     [Mutate ScannerAppObject "is_running"]).

(** [self.is_ready.set()] *)
Definition set_is_ready : M unit :=
  fun w =>
    (Ok tt,
     mkWorld (characteristic_heap w) (service_heap w) (device_heap w)
       (next_characteristic w) (next_service w) (next_device w)
       (devices w) (is_running w) true (lib w),
     [Mutate ScannerAppObject "is_ready"]).

(** The world right after [ScannerApp.__init__]. *)
Definition init (l : BGLib) : World :=
  mkWorld (fun _ => Characteristic.init "" 0 0) (fun _ => Service.init "" 0)
    (fun _ => Device.init "") 0 0 0 [] false false l.

(** ** Lookups ([device.py] and the end of [ScannerApp]) *)

Definition services_of (w : World) (d : DeviceRef) : list ServiceRef :=
  Device.services (device_heap w d).

(** [for service in self.services for characteristic in service.characteristics] *)
Definition characteristics_of (w : World) (d : DeviceRef) : list CharRef :=
  flat_map (fun s => Service.characteristics (service_heap w s)) (services_of w d).

Definition service_pending (w : World) (s : ServiceRef) : bool :=
  negb (ServiceState_eqb (Service.state (service_heap w s)) DISCOVERED).

Definition characteristic_pending (w : World) (c : CharRef) : bool :=
  negb (CharacteristicState_eqb (Characteristic.state (characteristic_heap w c)) NONE).

(** [Device.get_characteristic_by_handle] *)
Definition Device_get_characteristic_by_handle (w : World) (d : DeviceRef)
    (handle : Z) : option CharRef :=
  find (fun c => (Characteristic.handle (characteristic_heap w c) =? handle)%Z)
       (characteristics_of w d).

(** [Device.is_using_gatt_command] *)
Definition is_using_gatt_command (w : World) (d : DeviceRef) : bool :=
  existsb (service_pending w) (services_of w d)
  || existsb (characteristic_pending w) (characteristics_of w d).

(** [device.handle == handle], where [device.handle] may be [None] *)
Definition handle_eqb (h : option Z) (handle : Z) : bool :=
  match h with
  | Some x => (x =? handle)%Z
  | None => false
  end.

(** [ScannerApp.get_device_by_address] *)
Definition get_device_by_address (w : World) (address : string) : option DeviceRef :=
  find (fun d => String.eqb (Device.address (device_heap w d)) address) (devices w).

(** [ScannerApp.get_device_by_handle] *)
Definition get_device_by_handle (w : World) (handle : Z) : option DeviceRef :=
  find (fun d => handle_eqb (Device.handle (device_heap w d)) handle) (devices w).

(** [device.handle is not None and not device.is_connected] *)
Definition is_connecting (w : World) (d : DeviceRef) : bool :=
  match Device.handle (device_heap w d) with
  | Some _ => negb (Device.is_connected (device_heap w d))
  | None => false
  end.

(** [Service.get_characteristic_by_uuid] *)
Definition Service_get_characteristic_by_uuid (w : World) (s : ServiceRef)
    (uuid : string) : option CharRef :=
  find (fun c => String.eqb (Characteristic.uuid (characteristic_heap w c)) uuid)
       (Service.characteristics (service_heap w s)).

(** [Service.get_characteristic_by_handle] *)
Definition Service_get_characteristic_by_handle (w : World) (s : ServiceRef)
    (handle : Z) : option CharRef :=
  find (fun c => (Characteristic.handle (characteristic_heap w c) =? handle)%Z)
       (Service.characteristics (service_heap w s)).

(** [Device.get_service_by_uuid] *)
Definition Device_get_service_by_uuid (w : World) (d : DeviceRef)
    (uuid : string) : option ServiceRef :=
  find (fun s => String.eqb (Service.uuid (service_heap w s)) uuid) (services_of w d).

(** [Device.get_service_by_handle] *)
Definition Device_get_service_by_handle (w : World) (d : DeviceRef)
    (handle : Z) : option ServiceRef :=
  find (fun s => (Service.handle (service_heap w s) =? handle)%Z) (services_of w d).

(** [Device.get_characteristic_by_uuid] *)
Definition Device_get_characteristic_by_uuid (w : World) (d : DeviceRef)
    (uuid : string) : option CharRef :=
  find (fun c => String.eqb (Characteristic.uuid (characteristic_heap w c)) uuid)
       (characteristics_of w d).

(** ** Event handlers ([scanner.py]) *)

(** [Device.on_advertisement]: four attribute writes *)
Definition Device_on_advertisement (d : DeviceRef) (packet : string)
    (event_flags address_type rssi : Z) : M unit :=
  write_device d "packet" (Device.set_packet packet) ;;
  write_device d "is_connectable"
    (Device.set_is_connectable (negb (Z.land event_flags 1 =? 0)%Z)) ;;
  write_device d "address_type" (Device.set_address_type (Some address_type)) ;;
  write_device d "rssi" (Device.set_rssi (Some rssi)).

Definition on_advertisement (address : string) (data : list byte)
    (event_flags address_type rssi : Z) : M unit :=
  let address := upper address in
  let packet := upper (hex data) in
  found <- gets (fun w => get_device_by_address w address) ;;
  device <- match found with
            | Some d => ret d
            | None =>
                d <- new_device (Device.init address) ;;
                devices_append d ;;
                ret d
            end ;;
  Device_on_advertisement device packet event_flags address_type rssi.

Definition on_boot : M unit :=
  set_is_ready ;;
  l <- gets lib ;;
  call (bt_scanner_start (SCAN_PHY_SCAN_PHY_1M_AND_CODED l)
                         (DISCOVER_MODE_DISCOVER_GENERIC l)).

Definition on_connection_opened (address : string) (connection : Z) : M unit :=
  found <- gets (fun w => get_device_by_address w (upper address)) ;;
  match found with
  | Some device =>
      write_device device "is_connected" (Device.set_is_connected true) ;;
      call (bt_gatt_discover_primary_services connection)
  | None => ret tt
  end.

Definition on_connection_closed (connection : Z) : M unit :=
  found <- gets (fun w => get_device_by_handle w connection) ;;
  match found with
  | Some device =>
      write_device device "is_connected" (Device.set_is_connected false) ;;
      write_device device "handle" (Device.set_handle None)
  | None => ret tt
  end.

Definition on_characteristic_value (connection characteristic att_opcode : Z)
    (value : list byte) : M unit :=
  l <- gets lib ;;
  (if (att_opcode =? ATT_OPCODE_HANDLE_VALUE_INDICATION l)%Z
   then call (bt_gatt_send_characteristic_confirmation connection)
   else ret tt) ;;
  found <- gets (fun w => get_device_by_handle w connection) ;;
  match found with
  | Some device =>
      c <- gets (fun w => Device_get_characteristic_by_handle w device characteristic) ;;
      match c with
      | Some c => write_characteristic c "packet" (Characteristic.set_packet (hex value))
      | None => ret tt
      end
  | None => ret tt
  end.

Definition on_service (connection : Z) (uuid : list byte) (service : Z) : M unit :=
  found <- gets (fun w => get_device_by_handle w connection) ;;
  match found with
  | Some device =>
      let uuid := upper (hex (rev uuid)) in
      s <- new_service (Service.init uuid service) ;;
      write_device device "services" (Device.append_service s)
  | None => ret tt
  end.

(** The loop of [on_characteristic] over [device.services]. *)
Fixpoint on_characteristic_loop (services : list ServiceRef) (uuid : string)
    (characteristic properties : Z) : M unit :=
  match services with
  | [] => ret tt
  | service :: rest =>
      st <- gets (fun w => Service.state (service_heap w service)) ;;
      if ServiceState_eqb st DISCOVERING
      then
        c <- new_characteristic (Characteristic.init uuid characteristic properties) ;;
        write_service service "characteristics" (Service.append_characteristic c)
      else on_characteristic_loop rest uuid characteristic properties
  end.

Definition on_characteristic (connection : Z) (uuid : list byte)
    (characteristic properties : Z) : M unit :=
  found <- gets (fun w => get_device_by_handle w connection) ;;
  match found with
  | Some device =>
      let uuid := upper (hex (rev uuid)) in
      services <- gets (fun w => services_of w device) ;;
      on_characteristic_loop services uuid characteristic properties
  | None => ret tt
  end.

(** The inner loop of [update_services_and_characteristics]; the result says
    whether the function has returned. *)
Fixpoint update_characteristics (characteristics : list CharRef) : M bool :=
  match characteristics with
  | [] => ret false
  | characteristic :: rest =>
      st <- gets (fun w => Characteristic.state (characteristic_heap w characteristic)) ;;
      if negb (CharacteristicState_eqb st NONE)
      then
        write_characteristic characteristic "state" (Characteristic.set_state NONE) ;;
        ret true
      else update_characteristics rest
  end.

(** The outer loop of [update_services_and_characteristics]. *)
Fixpoint update_services (services : list ServiceRef) : M unit :=
  match services with
  | [] => ret tt
  | service :: rest =>
      st <- gets (fun w => Service.state (service_heap w service)) ;;
      if negb (ServiceState_eqb st DISCOVERED)
      then write_service service "state" (Service.set_state DISCOVERED)
      else
        characteristics <- gets (fun w => Service.characteristics (service_heap w service)) ;;
        returned <- update_characteristics characteristics ;;
        if returned then ret tt else update_services rest
  end.

Definition update_services_and_characteristics (device : DeviceRef) : M unit :=
  services <- gets (fun w => services_of w device) ;;
  update_services services.

(** The second loop of [on_procedure_completed], which ends at the first
    service still being discovered. *)
Fixpoint discover_next (device : DeviceRef) (services : list ServiceRef) : M unit :=
  match services with
  | [] => ret tt
  | service :: rest =>
      st <- gets (fun w => Service.state (service_heap w service)) ;;
      if ServiceState_eqb st DISCOVERING
      then
        h <- gets (fun w => Device.handle (device_heap w device)) ;;
        sh <- gets (fun w => Service.handle (service_heap w service)) ;;
        call (bt_gatt_discover_characteristics h sh)
      else discover_next device rest
  end.

Definition on_procedure_completed (connection : Z) : M unit :=
  found <- gets (fun w => get_device_by_handle w connection) ;;
  match found with
  | Some device =>
      update_services_and_characteristics device ;;
      services <- gets (fun w => services_of w device) ;;
      discover_next device services
  | None => ret tt
  end.

(** ** Public operations ([scanner.py]) *)

(** [connect_device]; [response_connection] is the connection handle in the
    module's response to the open command. *)
Definition connect_device (device : DeviceRef) (response_connection : Z) : M unit :=
  attempting <- gets (fun w => existsb (is_connecting w) (devices w)) ;;
  if attempting then ret tt
  else
    address <- gets (fun w => Device.address (device_heap w device)) ;;
    address_type <- gets (fun w => Device.address_type (device_heap w device)) ;;
    l <- gets lib ;;
    call (bt_connection_open address address_type (PHY_PHY_1M l)) ;;
    write_device device "handle" (Device.set_handle (Some response_connection)).

Definition disconnect_device (device : DeviceRef) : M unit :=
  h <- gets (fun w => Device.handle (device_heap w device)) ;;
  match h with
  | Some h => call (bt_connection_close h)
  | None => ret tt
  end.

Definition read_from_characteristic (device : DeviceRef) (characteristic : CharRef)
    : M unit :=
  busy <- gets (fun w => is_using_gatt_command w device) ;;
  if busy then ret tt
  else
    connected <- gets (fun w => Device.is_connected (device_heap w device)) ;;
    if connected
    then
      h <- gets (fun w => Device.handle (device_heap w device)) ;;
      ch <- gets (fun w => Characteristic.handle (characteristic_heap w characteristic)) ;;
      call (bt_gatt_read_characteristic_value h ch) ;;
      write_characteristic characteristic "state" (Characteristic.set_state READING)
    else ret tt.

Definition write_to_characteristic (device : DeviceRef) (characteristic : CharRef)
    (packet : string) : M unit :=
  busy <- gets (fun w => is_using_gatt_command w device) ;;
  if busy then ret tt
  else
    connected <- gets (fun w => Device.is_connected (device_heap w device)) ;;
    if connected
    then
      h <- gets (fun w => Device.handle (device_heap w device)) ;;
      ch <- gets (fun w => Characteristic.handle (characteristic_heap w characteristic)) ;;
      value <- match fromhex packet with
               | Some value => ret value
               | None => raise ValueError
               end ;;
      call (bt_gatt_write_characteristic_value h ch value) ;;
      write_characteristic characteristic "state" (Characteristic.set_state WRITING) ;;
      write_characteristic characteristic "packet" (Characteristic.set_packet packet)
    else ret tt.

Definition subscribe_to_notification (device : DeviceRef) (characteristic : CharRef)
    : M unit :=
  busy <- gets (fun w => is_using_gatt_command w device) ;;
  if busy then ret tt
  else
    connected <- gets (fun w => Device.is_connected (device_heap w device)) ;;
    if connected
    then
      h <- gets (fun w => Device.handle (device_heap w device)) ;;
      ch <- gets (fun w => Characteristic.handle (characteristic_heap w characteristic)) ;;
      call (bt_gatt_set_characteristic_notification h ch 1) ;;
      write_characteristic characteristic "state"
        (Characteristic.set_state SUBSCRIBING_NOTIFICATION)
    else ret tt.

Definition subscribe_to_indication (device : DeviceRef) (characteristic : CharRef)
    : M unit :=
  busy <- gets (fun w => is_using_gatt_command w device) ;;
  if busy then ret tt
  else
    connected <- gets (fun w => Device.is_connected (device_heap w device)) ;;
    if connected
    then
      h <- gets (fun w => Device.handle (device_heap w device)) ;;
      ch <- gets (fun w => Characteristic.handle (characteristic_heap w characteristic)) ;;
      call (bt_gatt_set_characteristic_notification h ch 2) ;;
      write_characteristic characteristic "state"
        (Characteristic.set_state SUBSCRIBING_INDICATION)
    else ret tt.

(** ** The event loop ([ScannerApp.run]) *)

(** What one call of [lib.get_event(timeout=0.1)] gives: an event, [None]
    after the timeout, or a keyboard interrupt. *)
Inductive Input :=
| Received (event : option Event)
| Interrupted.

Definition get_event (i : Input) : M (option Event) :=
  match i with
  | Received event => ret event
  | Interrupted => raise KeyboardInterrupt
  end.

(** [event == "bt_evt_system_boot"] *)
Definition is_boot (e : Event) : bool :=
  match e with
  | bt_evt_system_boot => true
  | _ => false
  end.

(** The [match event] statement. *)
Definition dispatch (e : Event) : M unit :=
  match e with
  | bt_evt_scanner_legacy_advertisement_report address data event_flags address_type rssi =>
      on_advertisement address data event_flags address_type rssi
  | bt_evt_system_boot => on_boot
  | bt_evt_connection_opened address connection =>
      on_connection_opened address connection
  | bt_evt_connection_closed connection => on_connection_closed connection
  | bt_evt_gatt_service connection uuid service => on_service connection uuid service
  | bt_evt_gatt_characteristic connection uuid characteristic properties =>
      on_characteristic connection uuid characteristic properties
  | bt_evt_gatt_characteristic_value connection characteristic att_opcode value =>
      on_characteristic_value connection characteristic att_opcode value
  | bt_evt_gatt_procedure_completed connection => on_procedure_completed connection
  | bt_evt_other _ => ret tt
  end.

(** The body of the [while] loop, with its [try] statement.  The loop also
    prints the events other than advertisements to the console, which is not
    part of the model. *)
Definition run_iteration (i : Input) : M unit :=
  try_except_KeyboardInterrupt
    (event <- get_event i ;;
     match event with
     | None => ret tt
     | Some e =>
         ready <- gets is_ready ;;
         if negb (ready || is_boot e) then ret tt else dispatch e
     end)
    (set_is_running false).

(** [ScannerApp.stop] *)
Definition stop : M unit := set_is_running false.

(** ** The boot watchdog ([ScannerApp.watchdog]) *)

Definition MAX_RETRY_ATTEMPTS : Z := 3.

(** [ScannerApp.reboot] *)
Definition reboot : M unit := call bt_system_reboot.

(** [self.is_ready.wait(timeout)]: whether the flag is seen set before the
    timeout is decided by the event-loop thread, so it is an input here. *)
Definition is_ready_wait (timeout : Z) (outcome : bool) : M bool := ret outcome.

(** Iterations the [while] loop has left. *)
Definition attempts_left (retry : Z) : nat := Z.to_nat (MAX_RETRY_ATTEMPTS - retry).

(** The [while retry < MAX_RETRY_ATTEMPTS] loop; [ready n] is the outcome of
    the wait that follows the [n]-th reboot, and the result says whether the
    watchdog has returned from inside the loop. *)
Equations? watchdog_loop (ready : Z -> bool) (retry : Z) : M bool
  by wf (attempts_left retry) lt :=
  watchdog_loop ready retry with Z_lt_dec retry MAX_RETRY_ATTEMPTS => {
    | left _ =>
        reboot ;;
        seen <- is_ready_wait 10 (ready (retry + 1)%Z) ;;
        if seen then ret true else watchdog_loop ready (retry + 1)%Z
    | right _ => ret false }.
Proof. unfold attempts_left, MAX_RETRY_ATTEMPTS in *. lia. Qed.

(** [ready 0] is the outcome of the first wait, before any reboot. *)
Definition watchdog (ready : Z -> bool) : M unit :=
  seen <- is_ready_wait 1 (ready 0%Z) ;;
  if seen then ret tt
  else
    returned <- watchdog_loop ready 0 ;;
    if returned then ret tt else stop.

(** ** The threads of a run ([ScannerApp.run], [ScannerWidget.closeEvent]) *)

(** [run] starts the watchdog in a thread of its own before it enters its
    loop, and the window's [closeEvent] calls [stop] from the thread of the
    user interface.  Between two steps of the event loop the watchdog thread
    is inside one of its waits, having sent [retry] reboots so far, or it has
    returned. *)
Inductive WatchdogThread :=
| Waiting (retry : Z)
| Returned.

(** The wait of the watchdog thread ends, and the thread runs on to its next
    wait or to its end.  [is_ready.wait] gives the ready flag as it is then:
    set, and the watchdog returns; unset, and the wait has timed out, so the
    [while] loop is entered once more (a reboot, and the next wait) or, with
    the retries used up, left for the call of [stop]. *)
Definition watchdog_wakes (t : WatchdogThread) : M WatchdogThread :=
  match t with
  | Returned => ret Returned
  | Waiting retry =>
      ready <- gets is_ready ;;
      seen <- is_ready_wait (if (retry =? 0)%Z then 1 else 10) ready ;;
      if seen then ret Returned
      else if (retry <? MAX_RETRY_ATTEMPTS)%Z
           then reboot ;; ret (Waiting (retry + 1))
           else stop ;; ret Returned
  end.

(** What happens next during a run: the event loop tests its flag and goes
    round once more, on what its call of [get_event] gives; or the wait of
    the watchdog thread ends; or [closeEvent] calls [stop]. *)
Inductive Step :=
| Loop (i : Input)
| WatchdogWakes
| StopCalled.

(** [while self.is_running.is_set()], with the steps the other threads take
    in between, in the order in which they happen; the result is where the
    watchdog thread is when the loop is left or the steps are used up. *)
Fixpoint run_loop (schedule : list Step) (t : WatchdogThread) : M WatchdogThread :=
  match schedule with
  | [] => ret t
  | Loop i :: rest =>
      running <- gets is_running ;;
      if running then run_iteration i ;; run_loop rest t else ret t
  | WatchdogWakes :: rest => t' <- watchdog_wakes t ;; run_loop rest t'
  | StopCalled :: rest => stop ;; run_loop rest t
  end.

(** [ScannerApp.run] over a finite sequence of steps: the transport is
    opened, the running flag set and the watchdog thread started; the
    transport is closed once the loop has seen the running flag cleared. *)
Definition run (schedule : list Step) : M unit :=
  transport "open" ;;
  set_is_running true ;;
  run_loop schedule (Waiting 0) ;;
  running <- gets is_running ;;
  if running then ret tt else transport "close".

(** ** The presentation layer's calls ([scanner.py], widgets) *)

(** [WriteDialog.on_accept]: the packet the dialog keeps for the text of its
    line edit. *)
Definition WriteDialog_on_accept (text : string) : string :=
  let packet := upper text in
  if negb (Nat.eqb (String.length packet mod 2) 0)
  then String "0" packet
  else packet.

(** The text of the button of [DeviceWidget.update_layout]. *)
Definition DeviceWidget_button_text (w : World) (device : DeviceRef) : string :=
  if Device.is_connected (device_heap w device) then "Disconnect"
  else
    match Device.handle (device_heap w device) with
    | Some _ => "Connecting..."
    | None => "Connect"
    end.

(** [ScannerWidget.on_connect_button], for the device of the clicked widget. *)
Definition on_connect_button (device : DeviceRef) (response_connection : Z) : M unit :=
  connected <- gets (fun w => Device.is_connected (device_heap w device)) ;;
  if connected then disconnect_device device
  else connect_device device response_connection.

(** [ScannerWidget.on_write_button]: [dialog] is the text the user accepted
    in the write dialog, or [None] when the dialog was closed without
    accepting. *)
Definition on_write_button (device : DeviceRef) (characteristic : CharRef)
    (dialog : option string) : M unit :=
  match dialog with
  | Some text =>
      write_to_characteristic device characteristic (WriteDialog_on_accept text)
  | None => ret tt
  end.

(** ** Vocabulary of the statements *)

(** The constants of the module firmware's API, used in the examples. *)
Definition example_lib : BGLib := mkBGLib 29 1 5 2.

(** The uppercase rendering of one byte, written out from the spec's words:
    two hexadecimal digits, most significant first, letters in capitals. *)
Definition HEX_DIGIT (n : N) : ascii :=
  match n with
  | 0%N => "0" | 1%N => "1" | 2%N => "2" | 3%N => "3"
  | 4%N => "4" | 5%N => "5" | 6%N => "6" | 7%N => "7"
  | 8%N => "8" | 9%N => "9" | 10%N => "A" | 11%N => "B"
  | 12%N => "C" | 13%N => "D" | 14%N => "E" | _ => "F"
  end%char.

Fixpoint uppercase_hex (bs : list byte) : string :=
  match bs with
  | [] => EmptyString
  | b :: rest =>
      String (HEX_DIGIT (Byte.to_N b / 16))
        (String (HEX_DIGIT (Byte.to_N b mod 16)) (uppercase_hex rest))
  end.

(** The characteristic a value report is about: the device that holds the
    connection handle, then the first of its characteristics with the
    reported handle. *)
Definition value_target (w : World) (connection characteristic : Z) : option CharRef :=
  match get_device_by_handle w connection with
  | Some device => Device_get_characteristic_by_handle w device characteristic
  | None => None
  end.

(** Reboot commands among the effects of a run. *)
Definition is_reboot (e : Effect) : bool :=
  match e with
  | Call bt_system_reboot => true
  | _ => false
  end.

Definition reboots (t : list Effect) : nat := List.length (filter is_reboot t).

(** The effect of [self.stop()]: the running flag is written. *)
Definition stop_effect : Effect := Mutate ScannerAppObject "is_running".

(** A step other than the event loop receiving a Boot event. *)
Definition not_boot (s : Step) : bool :=
  match s with
  | Loop (Received (Some e)) => negb (is_boot e)
  | _ => true
  end.

(** The number of times the wait of the watchdog thread ends. *)
Definition wakes (schedule : list Step) : nat :=
  List.length (filter (fun s => match s with WatchdogWakes => true | _ => false end)
                      schedule).

(** The steps up to the next test of the running flag by the event loop: the
    longest prefix in which only the other threads run. *)
Fixpoint until_next_test (schedule : list Step) : list Step :=
  match schedule with
  | [] => []
  | Loop _ :: _ => []
  | s :: rest => s :: until_next_test rest
  end.

(** A step that clears the running flag whatever the state: a keyboard
    interrupt in the event loop, or a call of [stop] by [closeEvent]. *)
Definition clears_flag (s : Step) : bool :=
  match s with
  | Loop Interrupted | StopCalled => true
  | _ => false
  end.

(** What the threads other than the event loop do: the watchdog's reboot
    commands and the writes of the running flag. *)
Definition other_thread (e : Effect) : Prop :=
  e = Call bt_system_reboot \/ e = stop_effect.

(** Effects that touch neither the radio module nor an entity: opening and
    closing the transport, and writing the controller's running flag. *)
Definition loop_control (e : Effect) : Prop :=
  match e with
  | Transport _ => True
  | Mutate ScannerAppObject attribute => attribute = "is_running"%string
  | _ => False
  end.

(** The devices and the three heaps of two worlds are the same. *)
Definition same_entities (w w' : World) : Prop :=
  devices w' = devices w
  /\ device_heap w' = device_heap w
  /\ service_heap w' = service_heap w
  /\ characteristic_heap w' = characteristic_heap w.

(** The pending-work markers of a device, in the order in which
    [update_services_and_characteristics] visits them: each service, followed
    by that service's characteristics. *)
Inductive Marker :=
| ServiceMarker (s : ServiceRef)
| CharacteristicMarker (c : CharRef).

Definition markers_of (w : World) (s : ServiceRef) : list Marker :=
  ServiceMarker s :: map CharacteristicMarker (Service.characteristics (service_heap w s)).

Definition scan_order (w : World) (d : DeviceRef) : list Marker :=
  flat_map (markers_of w) (services_of w d).

Definition marker_pending (w : World) (m : Marker) : bool :=
  match m with
  | ServiceMarker s => service_pending w s
  | CharacteristicMarker c => characteristic_pending w c
  end.

Definition first_pending_marker (w : World) (d : DeviceRef) : option Marker :=
  find (marker_pending w) (scan_order w d).

(** Advancing a marker: a service becomes Discovered, a characteristic Idle. *)
Definition advance (m : Marker) : M unit :=
  match m with
  | ServiceMarker s => write_service s "state" (Service.set_state DISCOVERED)
  | CharacteristicMarker c =>
      write_characteristic c "state" (Characteristic.set_state NONE)
  end.

(** The characteristic-discovery command for the first service of the device
    that is in Discovering state, if there is one. *)
Definition discovery_command (w : World) (d : DeviceRef) : list Effect :=
  match find (fun s => ServiceState_eqb (Service.state (service_heap w s)) DISCOVERING)
             (services_of w d) with
  | Some s => [Call (bt_gatt_discover_characteristics
                       (Device.handle (device_heap w d))
                       (Service.handle (service_heap w s)))]
  | None => []
  end.

(** A device advertises, is connected and reports two services and, for the
    second, one characteristic.  Afterwards the device is object 0, it is
    connected under handle 1 and it is not busy: its services, the objects 0
    and 1, are Discovered, and service 1 owns characteristic 0, with handle 3,
    which is Idle. *)
Definition discovery_session : M unit :=
  on_advertisement "00:11:22:33:44:55" [x12; x34] 1 1 (-100) ;;
  connect_device 0 1 ;;
  on_connection_opened "00:11:22:33:44:55" 1 ;;
  on_service 1 [x00; x18] 1 ;;
  on_service 1 [x0a; x18] 2 ;;
  on_procedure_completed 1 ;;
  on_characteristic 1 [x29; x2a] 3 2 ;;
  on_procedure_completed 1.

Definition discovered : World := world (discovery_session (init example_lib)).

(** The characteristic is then read. *)
Definition first_session : M unit :=
  discovery_session ;;
  read_from_characteristic 0 0.

(** A GATT operation has sent [cmd] and then put characteristic [c] in state
    [st], writing nothing else but [extra] and leaving every other object as
    it was in [w]. *)
Definition issues (x : Result unit * World * list Effect) (w : World)
    (c : CharRef) (cmd : Command) (st : CharacteristicState)
    (extra : list Effect) : Prop :=
  result x = Ok tt
  /\ effects x = Call cmd :: Mutate (CharacteristicObject c) "state" :: extra
  /\ Characteristic.state (characteristic_heap (world x) c) = st
  /\ (forall c', c' <> c ->
        characteristic_heap (world x) c' = characteristic_heap w c')
  /\ service_heap (world x) = service_heap w
  /\ device_heap (world x) = device_heap w
  /\ devices (world x) = devices w.

(** The connection is lost with the read outstanding, and the device is
    asked to connect again.  The device is object 0; its services are the
    objects 0 and 1, both Discovered, and service 1 owns characteristic 0,
    still Reading. *)
Definition reconnecting : World :=
  world ((first_session ;;
          on_connection_closed 1 ;;
          connect_device 0 1) (init example_lib)).

(** The connection opens again and the first service is reported once more:
    it is the new object 2, in Discovering state, after the services 0
    and 1. *)
Definition reconnected : World :=
  world ((on_connection_opened "00:11:22:33:44:55" 1 ;;
          on_service 1 [x00; x18] 1) reconnecting).

(** At most one device of the collection holds a connection handle without
    being connected. *)
Definition no_two_connecting (w : World) : Prop :=
  forall d1 d2 : DeviceRef,
    In d1 (devices w) -> In d2 (devices w) ->
    is_connecting w d1 = true -> is_connecting w d2 = true -> d1 = d2.

(** No device of the collection has started connecting between [w] and [w']. *)
Definition no_new_connecting (w w' : World) : Prop :=
  forall d : DeviceRef,
    In d (devices w') -> is_connecting w' d = true ->
    In d (devices w) /\ is_connecting w d = true.

(** What can happen to the controller: the event loop dispatches an event,
    or the presentation layer calls one of the public operations. *)
Inductive Action :=
| Deliver (e : Event)
| ConnectDevice (device : DeviceRef) (response_connection : Z)
| DisconnectDevice (device : DeviceRef)
| ReadFrom (device : DeviceRef) (characteristic : CharRef)
| WriteTo (device : DeviceRef) (characteristic : CharRef) (packet : string)
| SubscribeToNotification (device : DeviceRef) (characteristic : CharRef)
| SubscribeToIndication (device : DeviceRef) (characteristic : CharRef).

Definition perform (a : Action) : M unit :=
  match a with
  | Deliver e => dispatch e
  | ConnectDevice device response_connection =>
      connect_device device response_connection
  | DisconnectDevice device => disconnect_device device
  | ReadFrom device characteristic => read_from_characteristic device characteristic
  | WriteTo device characteristic packet =>
      write_to_characteristic device characteristic packet
  | SubscribeToNotification device characteristic =>
      subscribe_to_notification device characteristic
  | SubscribeToIndication device characteristic =>
      subscribe_to_indication device characteristic
  end.

(** The world after a sequence of actions; an exception raised by one of
    them goes to its caller and the session carries on. *)
Fixpoint perform_all (actions : list Action) (w : World) : World :=
  match actions with
  | [] => w
  | a :: rest => perform_all rest (world (perform a w))
  end.

(** The collection and the connecting devices are the same in [w] and [w']. *)
Definition same_connecting (w w' : World) : Prop :=
  devices w' = devices w
  /\ forall d : DeviceRef, is_connecting w' d = is_connecting w d.

(** The addresses of the devices of the collection, in order. *)
Definition addresses (w : World) : list string :=
  map (fun d => Device.address (device_heap w d)) (devices w).

(** Every device of the collection is an allocated object. *)
Definition devices_allocated (w : World) : Prop :=
  Forall (fun d => d < next_device w) (devices w).

(** The device carries the values of an advertisement report. *)
Definition advertised (x : Device.t) (data : list byte)
    (event_flags address_type rssi : Z) : Prop :=
  Device.packet x = uppercase_hex data
  /\ Device.is_connectable x = negb (Z.land event_flags 1 =? 0)%Z
  /\ Device.address_type x = Some address_type
  /\ Device.rssi x = Some rssi.

(** The collection, its addresses and the allocation mark of the device heap
    are the same in [w] and [w']. *)
Definition same_addresses (w w' : World) : Prop :=
  devices w' = devices w
  /\ next_device w' = next_device w
  /\ forall d : DeviceRef,
       Device.address (device_heap w' d) = Device.address (device_heap w d).

(** Address is the identity key: the devices of the collection are allocated
    objects with pairwise different addresses. *)
Definition unique_addresses (w : World) : Prop :=
  devices_allocated w /\ NoDup (addresses w).

(** Text made of hexadecimal digits only, which is what the validator of the
    write dialog lets the user type. *)
Definition is_hex_digit (c : ascii) : bool :=
  match hex_value c with
  | Some _ => true
  | None => false
  end.

Fixpoint all_hex (s : string) : bool :=
  match s with
  | EmptyString => true
  | String c rest => is_hex_digit c && all_hex rest
  end.

(** The action is a ConnectionOpened event whose address, or a
    ConnectionClosed event whose handle, resolves to device [A] in [w]. *)
Definition ends_attempt (a : Action) (w : World) (A : DeviceRef) : Prop :=
  match a with
  | Deliver (bt_evt_connection_opened address _) =>
      get_device_by_address w (upper address) = Some A
  | Deliver (bt_evt_connection_closed connection) =>
      get_device_by_handle w connection = Some A
  | _ => False
  end.

(** None of the actions, each taken in the world it runs in, ends the
    connection attempt of [A]. *)
Fixpoint attempt_goes_on (actions : list Action) (w : World) (A : DeviceRef) : Prop :=
  match actions with
  | [] => True
  | a :: rest =>
      ~ ends_attempt a w A /\ attempt_goes_on rest (world (perform a w)) A
  end.

(** The services of all devices of the collection, and the characteristics
    of all these services. *)
Definition all_services (w : World) : list ServiceRef :=
  flat_map (services_of w) (devices w).

Definition all_characteristics (w : World) : list CharRef :=
  flat_map (fun s => Service.characteristics (service_heap w s)) (all_services w).

(** The collection is a forest of allocated objects: no device is listed
    twice, no service is listed twice among the services of all devices, and
    no characteristic is listed twice among the characteristics of all
    services. *)
Definition store_wf (w : World) : Prop :=
  devices_allocated w
  /\ NoDup (devices w)
  /\ Forall (fun s => s < next_service w) (all_services w)
  /\ NoDup (all_services w)
  /\ Forall (fun c => c < next_characteristic w) (all_characteristics w)
  /\ NoDup (all_characteristics w).

(** Two worlds list the same objects in the same places. *)
Definition same_shape (w w' : World) : Prop :=
  devices w' = devices w
  /\ next_device w' = next_device w
  /\ next_service w' = next_service w
  /\ next_characteristic w' = next_characteristic w
  /\ (forall d, Device.services (device_heap w' d) = Device.services (device_heap w d))
  /\ (forall s, Service.characteristics (service_heap w' s)
                = Service.characteristics (service_heap w s)).

(** The number of pending markers of a device: services that are not
    Discovered and characteristics that are not Idle. *)
Definition pending (w : World) (d : DeviceRef) : nat :=
  List.length (filter (service_pending w) (services_of w d))
  + List.length (filter (characteristic_pending w) (characteristics_of w d)).

(** [n] ProcedureCompleted events for one connection. *)
Fixpoint completions (n : nat) (connection : Z) : M unit :=
  match n with
  | 0 => ret tt
  | S n' => on_procedure_completed connection ;; completions n' connection
  end.

(** The first result that is not [None]. *)
Fixpoint first_hit {A : Type} (l : list (option A)) : option A :=
  match l with
  | [] => None
  | Some a :: _ => Some a
  | None :: rest => first_hit rest
  end.

(** The addresses heard so far, each written in upper case and kept once, in
    the order in which they were first heard. *)
Definition record_address (seen : list string) (a : Action) : list string :=
  match a with
  | Deliver (bt_evt_scanner_legacy_advertisement_report address _ _ _ _) =>
      if existsb (String.eqb (upper address)) seen then seen
      else seen ++ [upper address]
  | _ => seen
  end.

(** The commands among the effects, in order. *)
Definition calls (t : list Effect) : list Command :=
  flat_map (fun e => match e with Call c => [c] | _ => [] end) t.

(** The CharacteristicDiscovered events of one discovery procedure, each given
    by its UUID bytes, handle and properties. *)
Fixpoint characteristic_reports (connection : Z)
    (reports : list (list byte * Z * Z)) : M unit :=
  match reports with
  | [] => ret tt
  | (uuid, characteristic, properties) :: rest =>
      on_characteristic connection uuid characteristic properties ;;
      characteristic_reports connection rest
  end.

(** A discovery round on one connection: procedure after procedure, the
    characteristics it reports and then its ProcedureCompleted event. *)
Fixpoint discovery_round (connection : Z)
    (procedures : list (list (list byte * Z * Z))) : M unit :=
  match procedures with
  | [] => ret tt
  | reports :: rest =>
      characteristic_reports connection reports ;;
      on_procedure_completed connection ;;
      discovery_round connection rest
  end.

(** The connection resolves to device [d], whose services are [done] followed
    by [todo], all different; those of [done] are Discovered, those of [todo]
    Discovering, and no characteristic of the device has a command
    outstanding. *)
Definition discovering (w : World) (connection : Z) (d : DeviceRef)
    (done todo : list ServiceRef) : Prop :=
  get_device_by_handle w connection = Some d
  /\ services_of w d = done ++ todo
  /\ NoDup (done ++ todo)
  /\ (forall s, In s done -> Service.state (service_heap w s) = DISCOVERED)
  /\ (forall s, In s todo -> Service.state (service_heap w s) = DISCOVERING)
  /\ (forall c, In c (characteristics_of w d) ->
                Characteristic.state (characteristic_heap w c) = NONE).

(** The action is a call of [connect_device] for device [d]. *)
Definition connects (a : Action) (d : DeviceRef) : Prop :=
  match a with
  | ConnectDevice device _ => device = d
  | _ => False
  end.

(** The device is marked connected and has no connection handle. *)
Definition connected_without_handle (w : World) (d : DeviceRef) : Prop :=
  Device.is_connected (device_heap w d) = true
  /\ Device.handle (device_heap w d) = None.

(** The outcome [x] of a computation that runs after the effects [t]. *)
Definition preceded_by {A : Type} (t : list Effect)
    (x : Result A * World * list Effect) : Result A * World * list Effect :=
  (result x, world x, t ++ effects x).

(** What a lookup by key returns from a list: the first element of [l]
    whose key is [k], and nothing exactly when no element of [l] has that
    key. *)
Definition first_with {A K : Type} (key : A -> K) (k : K) (l : list A)
    (r : option A) : Prop :=
  (forall a, r = Some a ->
     exists before after,
       l = before ++ a :: after
       /\ key a = k
       /\ forall b, In b before -> key b <> k)
  /\ (r = None <-> forall b, In b l -> key b <> k).

(** * Properties *)

(** ** Lists and text *)

Lemma find_app {A : Type} (f : A -> bool) (l1 l2 : list A) :
  find f (l1 ++ l2) =
  match find f l1 with
  | Some x => Some x
  | None => find f l2
  end.
Proof.
  induction l1 as [|a l1 IH]; simpl; [reflexivity|].
  destruct (f a); [reflexivity | exact IH].
Qed.

Lemma find_map {A B : Type} (f : B -> bool) (g : A -> B) (l : list A) :
  find f (map g l) = option_map g (find (fun a => f (g a)) l).
Proof.
  induction l as [|a l IH]; simpl; [reflexivity|].
  destruct (f (g a)); [reflexivity | exact IH].
Qed.

Lemma find_ext_in {A : Type} (f g : A -> bool) (l : list A) :
  (forall a, In a l -> f a = g a) -> find f l = find g l.
Proof.
  induction l as [|a l IH]; intros H; simpl; [reflexivity|].
  rewrite (H a (or_introl eq_refl)).
  destruct (g a); [reflexivity|].
  apply IH. intros b Hb. apply H. now right.
Qed.

Lemma find_existsb_false {A : Type} (f : A -> bool) (l : list A) :
  existsb f l = false -> find f l = None.
Proof.
  induction l as [|a l IH]; simpl; [reflexivity|].
  destruct (f a); simpl; [discriminate | exact IH].
Qed.

Lemma upper_hex (bs : list byte) : upper (hex bs) = uppercase_hex bs.
Proof.
  induction bs as [|b bs IH]; [reflexivity|].
  cbn [hex upper uppercase_hex]. rewrite IH.
  destruct b; reflexivity.
Qed.

(** The text kept for a value decodes back to the bytes it was made from. *)
Lemma fromhex_hex (bs : list byte) : fromhex (hex bs) = Some bs.
Proof.
  induction bs as [|b bs IH]; [reflexivity|].
  cbn [hex fromhex]. rewrite IH.
  destruct b; reflexivity.
Qed.

(** ** The object store *)

Lemma update_same {T : Type} (h : nat -> T) (r : nat) (v : T) :
  update h r v r = v.
Proof. unfold update. now rewrite Nat.eqb_refl. Qed.

Lemma update_other {T : Type} (h : nat -> T) (r r' : nat) (v : T) :
  r' <> r -> update h r v r' = h r'.
Proof.
  intros H. unfold update.
  destruct (Nat.eqb_spec r' r); [contradiction | reflexivity].
Qed.

(** ** Discovered services *)

(** C9. A discovered-service event that resolves to a device creates one
    Service and appends it to the device's services.  Its uuid is the event's
    UUID bytes in reverse order, two capital hexadecimal digits per byte; it
    is in Discovering state, carries the event's service handle and owns no
    characteristic yet.  The bytes CD AB give the uuid ABCD. *)
Theorem on_service_creates_discovering_service :
  forall (w : World) (connection : Z) (uuid : list byte) (service : Z)
         (device : DeviceRef),
    get_device_by_handle w connection = Some device ->
    let x := on_service connection uuid service w in
    let s := next_service w in
    result x = Ok tt
    /\ effects x = [Create (ServiceObject s); Mutate (DeviceObject device) "services"]
    /\ services_of (world x) device = services_of w device ++ [s]
    /\ Service.uuid (service_heap (world x) s) = uppercase_hex (rev uuid)
    /\ Service.state (service_heap (world x) s) = DISCOVERING
    /\ Service.handle (service_heap (world x) s) = service
    /\ Service.characteristics (service_heap (world x) s) = []
    /\ (uuid = [xcd; xab] -> Service.uuid (service_heap (world x) s) = "ABCD"%string).
Proof.
  intros w connection uuid service device Hdev x s.
  subst x s. unfold on_service, bind, gets, services_of. rewrite Hdev.
  cbn -[upper hex rev]. rewrite !update_same. cbn -[upper hex rev].
  rewrite upper_hex.
  repeat (split; [reflexivity|]).
  intros ->. reflexivity.
Qed.

Lemma on_service_creates_discovering_service_witness :
  let w := world ((on_advertisement "00:11:22:33:44:55" [] 1 1 (-100) ;;
                   connect_device 0 1) (init example_lib)) in
  let x := on_service 1 [xcd; xab] 1 w in
  get_device_by_handle w 1 = Some 0
  /\ services_of (world x) 0 = [0]
  /\ Service.uuid (service_heap (world x) 0) = "ABCD"%string
  /\ Service.state (service_heap (world x) 0) = DISCOVERING.
Proof.
  intros w x.
  assert (H : get_device_by_handle w 1 = Some 0) by reflexivity.
  destruct (on_service_creates_discovering_service w 1 [xcd; xab] 1 0 H)
    as (_ & _ & Hs & _ & Hst & _ & _ & Hu).
  split; [exact H|].
  split; [exact Hs|].
  split; [exact (Hu eq_refl) | exact Hst].
Defined.

(** ** Value reports *)

(** C6. A characteristic-value event sends one confirmation for its
    connection when its opcode is the indication opcode, and nothing
    otherwise; the confirmation comes before the only write the handler
    makes, which stores the delivered payload (as hexadecimal text) in the
    targeted characteristic.  No characteristic's command-state changes, and
    services and devices are left as they were. *)
Theorem on_characteristic_value_confirms_then_stores :
  forall (w : World) (connection characteristic att_opcode : Z) (value : list byte),
    let x := on_characteristic_value connection characteristic att_opcode value w in
    let confirmation :=
      if (att_opcode =? ATT_OPCODE_HANDLE_VALUE_INDICATION (lib w))%Z
      then [Call (bt_gatt_send_characteristic_confirmation connection)]
      else [] in
    result x = Ok tt
    /\ effects x =
       confirmation ++
       match value_target w connection characteristic with
       | Some c => [Mutate (CharacteristicObject c) "packet"]
       | None => []
       end
    /\ (forall c, value_target w connection characteristic = Some c ->
          Characteristic.packet (characteristic_heap (world x) c) = hex value
          /\ fromhex (Characteristic.packet (characteristic_heap (world x) c))
             = Some value)
    /\ (forall c, Characteristic.state (characteristic_heap (world x) c)
                  = Characteristic.state (characteristic_heap w c))
    /\ service_heap (world x) = service_heap w
    /\ device_heap (world x) = device_heap w.
Proof.
  intros w connection characteristic att_opcode value x confirmation.
  subst x confirmation.
  unfold on_characteristic_value, value_target, bind, gets.
  destruct (att_opcode =? ATT_OPCODE_HANDLE_VALUE_INDICATION (lib w))%Z;
    cbn -[hex fromhex];
    (destruct (get_device_by_handle w connection) as [device|]; cbn -[hex fromhex];
     [destruct (Device_get_characteristic_by_handle w device characteristic)
        as [c|]; cbn -[hex fromhex] |]);
    (split; [reflexivity|]); (split; [reflexivity|]);
    (split; [|split; [|split; reflexivity]]);
    try (intros c' [=]; fail);
    try (intros c'; reflexivity).
  all: try (intros c' [= <-]; rewrite update_same; cbn -[hex fromhex];
            split; [reflexivity | apply fromhex_hex]).
  all: intros c'; unfold update; destruct (Nat.eqb_spec c' c);
    [subst c'; reflexivity | reflexivity].
Qed.

Lemma on_characteristic_value_confirms_then_stores_witness :
  let w := world ((on_advertisement "00:11:22:33:44:55" [] 1 1 (-100) ;;
                   connect_device 0 1 ;;
                   on_service 1 [xcd; xab] 1 ;;
                   on_characteristic 1 [x01; x00] 2 32) (init example_lib)) in
  let x := on_characteristic_value 1 2 29 [x12; x34] w in
  value_target w 1 2 = Some 0
  /\ effects x = [Call (bt_gatt_send_characteristic_confirmation 1);
                  Mutate (CharacteristicObject 0) "packet"]
  /\ Characteristic.packet (characteristic_heap (world x) 0) = "1234"%string.
Proof.
  intros w x.
  assert (H : value_target w 1 2 = Some 0) by reflexivity.
  destruct (on_characteristic_value_confirms_then_stores w 1 2 29 [x12; x34])
    as (_ & He & Hp & _).
  split; [exact H|].
  split; [exact He | exact (proj1 (Hp 0 H))].
Defined.

(** ** The boot watchdog *)

Lemma watchdog_loop_retry (ready : Z -> bool) (retry : Z) (w : World) :
  (retry < MAX_RETRY_ATTEMPTS)%Z ->
  watchdog_loop ready retry w =
  if ready (retry + 1)%Z
  then (Ok true, w, [Call bt_system_reboot])
  else (result (watchdog_loop ready (retry + 1) w),
        world (watchdog_loop ready (retry + 1) w),
        Call bt_system_reboot :: effects (watchdog_loop ready (retry + 1) w)).
Proof.
  intros H. rewrite watchdog_loop_equation_1.
  destruct (Z_lt_dec retry MAX_RETRY_ATTEMPTS) as [Hlt|Hge]; [|contradiction].
  rewrite watchdog_loop_clause_1_equation_1.
  unfold reboot, is_ready_wait, bind, call, ret, result, world, effects.
  destruct (ready (retry + 1)%Z); [reflexivity|].
  destruct (watchdog_loop ready (retry + 1) w) as [[r w'] t]. reflexivity.
Qed.

Lemma watchdog_loop_exhausted (ready : Z -> bool) (retry : Z) (w : World) :
  (MAX_RETRY_ATTEMPTS <= retry)%Z ->
  watchdog_loop ready retry w = (Ok false, w, []).
Proof.
  intros H. rewrite watchdog_loop_equation_1.
  destruct (Z_lt_dec retry MAX_RETRY_ATTEMPTS) as [Hlt|Hge]; [lia|].
  simp watchdog_loop. reflexivity.
Qed.

(** What the watchdog does, by the first wait that sees the ready flag. *)
Lemma watchdog_cases (ready : Z -> bool) (w : World) :
  watchdog ready w =
  if ready 0%Z then (Ok tt, w, [])
  else if ready 1%Z then (Ok tt, w, [Call bt_system_reboot])
  else if ready 2%Z then (Ok tt, w, [Call bt_system_reboot; Call bt_system_reboot])
  else if ready 3%Z
       then (Ok tt, w, [Call bt_system_reboot; Call bt_system_reboot;
                        Call bt_system_reboot])
       else (Ok tt, world (stop w),
             [Call bt_system_reboot; Call bt_system_reboot;
              Call bt_system_reboot; stop_effect]).
Proof.
  unfold watchdog, is_ready_wait, bind, ret.
  destruct (ready 0%Z); [reflexivity|].
  rewrite (watchdog_loop_retry ready 0 w) by (unfold MAX_RETRY_ATTEMPTS; lia).
  change (0 + 1)%Z with 1%Z.
  destruct (ready 1%Z); [reflexivity|].
  rewrite (watchdog_loop_retry ready 1 w) by (unfold MAX_RETRY_ATTEMPTS; lia).
  change (1 + 1)%Z with 2%Z.
  destruct (ready 2%Z); [reflexivity|].
  rewrite (watchdog_loop_retry ready 2 w) by (unfold MAX_RETRY_ATTEMPTS; lia).
  change (2 + 1)%Z with 3%Z.
  destruct (ready 3%Z); [reflexivity|].
  rewrite (watchdog_loop_exhausted ready 3 w) by (unfold MAX_RETRY_ATTEMPTS; lia).
  reflexivity.
Qed.

(** C8. Whatever the waits observe, the watchdog returns after at most
    MAX_RETRY_ATTEMPTS = 3 reboot commands.  If a wait sees the ready flag
    (the first wait, or the wait after the n-th reboot), the watchdog returns
    at once: it has sent exactly the n reboots before that wait, it does
    nothing afterwards and it leaves the controller as it was.  It clears
    the running flag exactly when none of the four waits saw the flag, and
    then does so after the third reboot. *)
Theorem watchdog_bounded_reboots :
  forall (ready : Z -> bool) (w : World),
    let x := watchdog ready w in
    let never_ready := forall n : Z, (0 <= n <= MAX_RETRY_ATTEMPTS)%Z -> ready n = false in
    result x = Ok tt
    /\ (Z.of_nat (reboots (effects x)) <= MAX_RETRY_ATTEMPTS)%Z
    /\ (forall n : Z,
          (0 <= n <= MAX_RETRY_ATTEMPTS)%Z ->
          ready n = true ->
          (forall m : Z, (0 <= m < n)%Z -> ready m = false) ->
          effects x = repeat (Call bt_system_reboot) (Z.to_nat n) /\ world x = w)
    /\ (In stop_effect (effects x) <-> never_ready)
    /\ (never_ready ->
          effects x = repeat (Call bt_system_reboot) (Z.to_nat MAX_RETRY_ATTEMPTS)
                      ++ [stop_effect]
          /\ is_running (world x) = false)
    /\ (~ never_ready -> is_running (world x) = is_running w).
Proof.
  intros ready w x never_ready. subst x never_ready.
  rewrite watchdog_cases. unfold MAX_RETRY_ATTEMPTS.
  assert (Hn : forall n : Z, (0 <= n <= 3)%Z -> n = 0%Z \/ n = 1%Z \/ n = 2%Z \/ n = 3%Z)
    by (intros; lia).
  destruct (ready 0%Z) eqn:H0; [|destruct (ready 1%Z) eqn:H1;
    [|destruct (ready 2%Z) eqn:H2; [|destruct (ready 3%Z) eqn:H3]]];
    cbn [result world effects fst snd].
  all: split; [reflexivity|].
  all: split; [vm_compute; discriminate|].
  all: split;
    [intros n Hr Ht Hm;
     destruct (Hn n Hr) as [-> | [-> | [-> | ->]]];
     try (split; reflexivity);
     try congruence;
     try (rewrite (Hm 0%Z) in H0 by lia; discriminate);
     try (rewrite (Hm 1%Z) in H1 by lia; discriminate);
     try (rewrite (Hm 2%Z) in H2 by lia; discriminate)|].
  all: split;
    [split;
     [intros Hin; cbn in Hin;
      repeat (destruct Hin as [Hin|Hin]; [discriminate Hin|]);
      try contradiction
     |intros Hnever;
      try (rewrite (Hnever 0%Z) in H0 by lia; discriminate);
      try (rewrite (Hnever 1%Z) in H1 by lia; discriminate);
      try (rewrite (Hnever 2%Z) in H2 by lia; discriminate);
      try (rewrite (Hnever 3%Z) in H3 by lia; discriminate)]|].
  all: try (split;
    [intros Hnever;
      try (rewrite (Hnever 0%Z) in H0 by lia; discriminate);
      try (rewrite (Hnever 1%Z) in H1 by lia; discriminate);
      try (rewrite (Hnever 2%Z) in H2 by lia; discriminate);
      try (rewrite (Hnever 3%Z) in H3 by lia; discriminate)
    | intros _; reflexivity]).
  - intros n Hr. destruct (Hn n Hr) as [-> | [-> | [-> | ->]]]; assumption.
  - cbn. tauto.
  - split; [intros _; split; reflexivity|].
    intros Hnot. exfalso. apply Hnot.
    intros n Hr. destruct (Hn n Hr) as [-> | [-> | [-> | ->]]]; assumption.
Qed.

Lemma watchdog_bounded_reboots_witness :
  let ready := fun n : Z => (n =? 2)%Z in
  let x := watchdog ready (init example_lib) in
  effects x = [Call bt_system_reboot; Call bt_system_reboot]
  /\ world x = init example_lib.
Proof.
  intros ready x.
  destruct (watchdog_bounded_reboots ready (init example_lib))
    as (_ & _ & H & _).
  apply (H 2%Z).
  - unfold MAX_RETRY_ATTEMPTS. lia.
  - reflexivity.
  - intros m Hm. unfold ready. apply Z.eqb_neq. lia.
Defined.

(** ** The event loop before the module has booted *)

Lemma run_iteration_not_ready (w : World) (i : Input) :
  is_ready w = false ->
  not_boot (Loop i) = true ->
  let x := run_iteration i w in
  result x = Ok tt
  /\ same_entities w (world x)
  /\ is_ready (world x) = false
  /\ Forall loop_control (effects x).
Proof.
  intros Hready Hboot x. subst x.
  unfold run_iteration, try_except_KeyboardInterrupt, bind, gets.
  destruct i as [[e|]|]; cbn.
  - rewrite Hready. cbn in Hboot. cbn. rewrite Hboot. cbn.
    repeat split; auto.
  - repeat split; auto.
  - repeat split; auto. repeat constructor.
Qed.

Lemma watchdog_wakes_cases (t : WatchdogThread) (w : World) :
  watchdog_wakes t w =
  match t with
  | Returned => (Ok Returned, w, [])
  | Waiting retry =>
      if is_ready w then (Ok Returned, w, [])
      else if (retry <? MAX_RETRY_ATTEMPTS)%Z
           then (Ok (Waiting (retry + 1)), w, [Call bt_system_reboot])
           else (Ok Returned, world (stop w), [stop_effect])
  end.
Proof.
  destruct t as [retry|]; [|reflexivity].
  unfold watchdog_wakes, is_ready_wait, bind, gets, ret.
  destruct (is_ready w); [reflexivity|].
  destruct (retry <? MAX_RETRY_ATTEMPTS)%Z; reflexivity.
Qed.

Lemma reboots_app (t1 t2 : list Effect) : reboots (t1 ++ t2) = reboots t1 + reboots t2.
Proof. unfold reboots. now rewrite filter_app, length_app. Qed.

Lemma loop_control_no_reboot (t : list Effect) :
  Forall loop_control t -> reboots t = 0.
Proof.
  induction 1 as [|e t He _ IH]; [reflexivity|].
  change (e :: t) with ([e] ++ t). rewrite reboots_app, IH.
  destruct e as [c| | |]; try reflexivity. destruct He.
Qed.

Lemma no_reboot_loop_control (t : list Effect) :
  Forall (fun e => loop_control e \/ e = Call bt_system_reboot) t ->
  reboots t = 0 ->
  Forall loop_control t.
Proof.
  induction 1 as [|e t He _ IH]; intros Hn; [constructor|].
  change (e :: t) with ([e] ++ t) in Hn. rewrite reboots_app in Hn.
  destruct He as [He| ->]; [|discriminate Hn].
  constructor; [exact He|]. apply IH. lia.
Qed.

Lemma same_entities_trans (w1 w2 w3 : World) :
  same_entities w1 w2 -> same_entities w2 w3 -> same_entities w1 w3.
Proof.
  intros (A1 & A2 & A3 & A4) (B1 & B2 & B3 & B4).
  repeat split; congruence.
Qed.

(** Before a Boot event is handled nothing but the watchdog's reboots is
    sent, and of these no more than the watchdog thread has left. *)
Lemma run_loop_not_ready (schedule : list Step) :
  forall (w : World) (t : WatchdogThread),
    is_ready w = false ->
    forallb not_boot schedule = true ->
    let x := run_loop schedule t w in
    (exists t', result x = Ok t')
    /\ same_entities w (world x)
    /\ is_ready (world x) = false
    /\ Forall (fun e => loop_control e \/ e = Call bt_system_reboot) (effects x)
    /\ reboots (effects x) <= wakes schedule
    /\ reboots (effects x)
       <= match t with
          | Waiting retry => Z.to_nat (MAX_RETRY_ATTEMPTS - retry)
          | Returned => 0
          end.
Proof.
  induction schedule as [|s rest IH]; intros w t Hready Hboot.
  - cbn [run_loop]. unfold ret. cbn [result world effects fst snd].
    split; [now exists t|]. split; [repeat split|]. split; [exact Hready|].
    split; [constructor|]. change (reboots []) with 0. split; lia.
  - cbn [forallb] in Hboot. apply andb_prop in Hboot. destruct Hboot as [Hs Hrest].
    destruct s as [i| |]; cbn [run_loop].
    + unfold bind, gets. destruct (is_running w).
      * destruct (run_iteration_not_ready w i Hready Hs) as (Hr & He & Hy & Hf).
        destruct (run_iteration i w) as [[r w1] t1]. cbn in Hr, He, Hy, Hf. subst r.
        destruct (IH w1 t Hy Hrest) as (Hr2 & He2 & Hy2 & Hf2 & Hw2 & Hb2).
        destruct (run_loop rest t w1) as [[r2 w2] t2].
        cbn [result world effects fst snd app] in *.
        split; [exact Hr2|].
        split; [exact (same_entities_trans _ _ _ He He2)|].
        split; [exact Hy2|].
        split.
        { apply (proj2 (Forall_app _ t1 t2)). split; [|exact Hf2].
          eapply Forall_impl; [|exact Hf]. intros e H. now left. }
        rewrite reboots_app, (loop_control_no_reboot t1 Hf).
        unfold wakes in *. cbn [filter]. split; [exact Hw2 | exact Hb2].
      * unfold ret. cbn [result world effects fst snd app].
        split; [now exists t|]. split; [repeat split|]. split; [exact Hready|].
        split; [constructor|]. change (reboots []) with 0. split; lia.
    + unfold bind. rewrite watchdog_wakes_cases.
      destruct t as [retry|].
      * rewrite Hready. destruct (Z.ltb_spec retry MAX_RETRY_ATTEMPTS) as [Hlt|Hge].
        -- destruct (IH w (Waiting (retry + 1)) Hready Hrest)
             as (Hr2 & He2 & Hy2 & Hf2 & Hw2 & Hb2).
           destruct (run_loop rest (Waiting (retry + 1)) w) as [[r2 w2] t2].
           cbn [result world effects fst snd] in *.
           split; [exact Hr2|]. split; [exact He2|]. split; [exact Hy2|].
           split; [constructor; [now right | exact Hf2]|].
           change (Call bt_system_reboot :: t2) with ([Call bt_system_reboot] ++ t2).
           rewrite reboots_app. unfold wakes in *. cbn [filter List.length].
           change (reboots [Call bt_system_reboot]) with 1.
           unfold MAX_RETRY_ATTEMPTS in *. split; lia.
        -- destruct (IH (world (stop w)) Returned Hready Hrest)
             as (Hr2 & He2 & Hy2 & Hf2 & Hw2 & Hb2).
           destruct (run_loop rest Returned (world (stop w))) as [[r2 w2] t2].
           cbn [result world effects fst snd] in *.
           split; [exact Hr2|]. split; [exact He2|]. split; [exact Hy2|].
           split; [constructor; [left; reflexivity | exact Hf2]|].
           change (stop_effect :: t2) with ([stop_effect] ++ t2).
           rewrite reboots_app. change (reboots [stop_effect]) with 0.
           split; lia.
      * destruct (IH w Returned Hready Hrest) as (Hr2 & He2 & Hy2 & Hf2 & Hw2 & Hb2).
        destruct (run_loop rest Returned w) as [[r2 w2] t2].
        cbn [result world effects fst snd app] in *.
        split; [exact Hr2|]. split; [exact He2|]. split; [exact Hy2|].
        split; [exact Hf2|]. unfold wakes in *. cbn [filter List.length]. split; lia.
    + unfold bind. cbn [stop set_is_running].
      destruct (IH (world (stop w)) t Hready Hrest)
        as (Hr2 & He2 & Hy2 & Hf2 & Hw2 & Hb2).
      cbn [stop set_is_running world fst snd] in Hr2, He2, Hy2, Hf2, Hw2, Hb2.
      destruct (run_loop rest t _) as [[r2 w2] t2].
      cbn [result world effects fst snd app] in *.
      split; [exact Hr2|]. split; [exact He2|]. split; [exact Hy2|].
      split; [constructor; [left; reflexivity | exact Hf2]|].
      change (Mutate ScannerAppObject "is_running" :: t2)
        with ([stop_effect] ++ t2).
      rewrite reboots_app. change (reboots [stop_effect]) with 0.
      unfold wakes in *. cbn [filter]. split; lia.
Qed.

Lemma run_after_loop (schedule : list Step) (w : World) :
  let w0 := world ((transport "open" ;; set_is_running true) w) in
  let y := run_loop schedule (Waiting 0) w0 in
  (exists t', result y = Ok t') ->
  run schedule w =
  (Ok tt, world y,
   Transport "open" :: Mutate ScannerAppObject "is_running"
   :: effects y ++ (if is_running (world y) then [] else [Transport "close"])).
Proof.
  intros w0 y [t' Hr]. subst y. unfold run, bind, transport, gets.
  cbn [set_is_running]. fold w0.
  change (mkWorld (characteristic_heap w) (service_heap w) (device_heap w)
            (next_characteristic w) (next_service w) (next_device w) (devices w)
            true (is_ready w) (lib w)) with w0.
  destruct (run_loop schedule (Waiting 0) w0) as [[r w1] t1].
  cbn in Hr. subst r. cbn [result world effects fst snd].
  destruct (is_running w1); cbn; [now rewrite app_nil_r | reflexivity].
Qed.

(** C10. While the ready flag is unset, an iteration of the loop whose
    input is not a Boot event leaves every device, service and characteristic
    as it was and sends nothing.  Hence a run from the initial state in which
    the loop receives no Boot event, whatever else it receives and whatever
    the watchdog thread and the window do meanwhile, ends with an empty
    device collection and with the ready flag still unset; no entity is
    created or changed; its effects are on the transport and the running
    flag, and the reboot commands of the watchdog thread, at most one for
    each time its wait ends and at most MAX_RETRY_ATTEMPTS in all.  The event
    loop itself sends nothing: in a run during which the watchdog's wait
    never ends, no command is sent at all. *)
Theorem run_discards_events_before_boot :
  forall (l : BGLib) (schedule : list Step),
    forallb not_boot schedule = true ->
    let x := run schedule (init l) in
    result x = Ok tt
    /\ devices (world x) = []
    /\ same_entities (init l) (world x)
    /\ is_ready (world x) = false
    /\ Forall (fun e => loop_control e \/ e = Call bt_system_reboot) (effects x)
    /\ reboots (effects x) <= wakes schedule
    /\ (Z.of_nat (reboots (effects x)) <= MAX_RETRY_ATTEMPTS)%Z
    /\ (wakes schedule = 0 ->
        Forall loop_control (effects x)
        /\ forall c, ~ In (Call c) (effects x))
    /\ (forall (w : World) (e : Event),
          is_ready w = false -> is_boot e = false ->
          run_iteration (Received (Some e)) w = (Ok tt, w, [])).
Proof.
  intros l schedule Hboot x.
  set (w0 := world ((transport "open" ;; set_is_running true) (init l))).
  destruct (run_loop_not_ready schedule w0 (Waiting 0) eq_refl Hboot)
    as (Hr & He & Hy & Hf & Hw & Hb).
  assert (Hx : x = (Ok tt, world (run_loop schedule (Waiting 0) w0),
                    [Transport "open"; Mutate ScannerAppObject "is_running"]
                    ++ effects (run_loop schedule (Waiting 0) w0)
                    ++ (if is_running (world (run_loop schedule (Waiting 0) w0))
                        then [] else [Transport "close"])))
    by (subst x; now rewrite (run_after_loop schedule (init l) Hr)).
  set (y := run_loop schedule (Waiting 0) w0) in *.
  set (first := [Transport "open"; Mutate ScannerAppObject "is_running"]) in *.
  set (last := if is_running (world y) then [] else [Transport "close"]) in *.
  assert (Hfirst : Forall loop_control first) by (repeat constructor).
  assert (Hlast : Forall loop_control last)
    by (subst last; destruct (is_running (world y)); repeat constructor).
  assert (Hxf : Forall (fun e => loop_control e \/ e = Call bt_system_reboot)
                  (effects x)).
  { rewrite Hx. cbn [effects snd].
    apply (proj2 (Forall_app _ first (effects y ++ last))).
    split; [eapply Forall_impl; [|exact Hfirst]; intros e H; now left|].
    apply (proj2 (Forall_app _ (effects y) last)).
    split; [exact Hf|].
    eapply Forall_impl; [|exact Hlast]. intros e H. now left. }
  assert (Hxn : reboots (effects x) = reboots (effects y)).
  { rewrite Hx. cbn [effects snd].
    rewrite !reboots_app, (loop_control_no_reboot _ Hfirst),
      (loop_control_no_reboot _ Hlast). lia. }
  split; [now rewrite Hx|].
  split; [rewrite Hx; exact (proj1 He)|].
  split; [rewrite Hx; exact He|].
  split; [rewrite Hx; exact Hy|].
  split; [exact Hxf|].
  split; [rewrite Hxn; exact Hw|].
  split; [rewrite Hxn; unfold MAX_RETRY_ATTEMPTS in *; lia|].
  split.
  - intros Hnone.
    assert (Hlc : Forall loop_control (effects x))
      by (apply no_reboot_loop_control; [exact Hxf | lia]).
    split; [exact Hlc|].
    intros c Hin. rewrite Forall_forall in Hlc. exact (Hlc _ Hin).
  - intros w e Hready He'.
    unfold run_iteration, try_except_KeyboardInterrupt, bind, gets. cbn.
    rewrite Hready, He'. reflexivity.
Qed.

Lemma run_discards_events_before_boot_witness :
  let schedule :=
    [Loop (Received (Some (bt_evt_scanner_legacy_advertisement_report
                             "00:11:22:33:44:55" [x12; x34] 1 1 (-100))));
     Loop (Received None);
     Loop (Received (Some (bt_evt_connection_opened "00:11:22:33:44:55" 1)));
     Loop Interrupted] in
  let x := run schedule (init example_lib) in
  devices (world x) = [] /\ forall c, ~ In (Call c) (effects x).
Proof.
  intros schedule x.
  destruct (run_discards_events_before_boot example_lib schedule eq_refl)
    as (_ & Hd & _ & _ & _ & _ & _ & Hc & _).
  split; [exact Hd | exact (proj2 (Hc eq_refl))].
Defined.

(** ** Procedure completion *)

Lemma update_characteristics_first_pending (cs : list CharRef) (w : World) :
  update_characteristics cs w =
  match find (characteristic_pending w) cs with
  | Some c =>
      (Ok true, world (advance (CharacteristicMarker c) w),
       [Mutate (CharacteristicObject c) "state"])
  | None => (Ok false, w, [])
  end.
Proof.
  induction cs as [|c cs IH]; [reflexivity|].
  cbn [update_characteristics find]. unfold bind at 1, gets at 1.
  fold (characteristic_pending w c).
  destruct (characteristic_pending w c); [reflexivity|].
  rewrite IH. destruct (find (characteristic_pending w) cs); reflexivity.
Qed.

Lemma update_services_first_pending (ss : list ServiceRef) (w : World) :
  update_services ss w =
  match find (marker_pending w) (flat_map (markers_of w) ss) with
  | Some m => advance m w
  | None => (Ok tt, w, [])
  end.
Proof.
  induction ss as [|s ss IH]; [reflexivity|].
  cbn [update_services flat_map markers_of app find marker_pending].
  unfold bind at 1, gets at 1. fold (service_pending w s).
  destruct (service_pending w s); [reflexivity|].
  unfold bind, gets. rewrite update_characteristics_first_pending.
  rewrite find_app, find_map. cbn [marker_pending].
  change (fun a : CharRef => characteristic_pending w a)
    with (characteristic_pending w).
  destruct (find (characteristic_pending w) (Service.characteristics (service_heap w s)));
    [reflexivity|].
  cbn [option_map]. rewrite IH.
  destruct (find (marker_pending w) (flat_map (markers_of w) ss)) as [m|];
    [|reflexivity].
  destruct (advance m w) as [[r w'] t]. reflexivity.
Qed.

Lemma discover_next_first_discovering (d : DeviceRef) (ss : list ServiceRef) (w : World) :
  discover_next d ss w =
  (Ok tt, w,
   match find (fun s => ServiceState_eqb (Service.state (service_heap w s)) DISCOVERING) ss with
   | Some s => [Call (bt_gatt_discover_characteristics
                        (Device.handle (device_heap w d))
                        (Service.handle (service_heap w s)))]
   | None => []
   end).
Proof.
  induction ss as [|s ss IH]; [reflexivity|].
  cbn [discover_next find]. unfold bind at 1, gets at 1.
  destruct (ServiceState_eqb (Service.state (service_heap w s)) DISCOVERING);
    [reflexivity | rewrite IH; reflexivity].
Qed.

(** The markers of a device whose services are all Discovered: the first
    pending one is its first characteristic that is not Idle. *)
Lemma first_pending_marker_all_discovered (w : World) (d : DeviceRef) :
  existsb (service_pending w) (services_of w d) = false ->
  first_pending_marker w d =
  option_map CharacteristicMarker
    (find (characteristic_pending w) (characteristics_of w d)).
Proof.
  unfold first_pending_marker, scan_order, characteristics_of.
  induction (services_of w d) as [|s ss IH]; intros H; [reflexivity|].
  cbn [existsb] in H. apply orb_false_elim in H. destruct H as [Hs Hss].
  cbn [flat_map markers_of app find marker_pending]. rewrite Hs.
  rewrite !find_app, find_map. cbn [marker_pending].
  change (fun a : CharRef => characteristic_pending w a)
    with (characteristic_pending w).
  destruct (find (characteristic_pending w) (Service.characteristics (service_heap w s)));
    [reflexivity|].
  cbn [option_map]. exact (IH Hss).
Qed.

(** The markers of a device whose characteristics are all Idle: the first
    pending one is its first service that is not Discovered. *)
Lemma first_pending_marker_all_idle (w : World) (d : DeviceRef) :
  existsb (characteristic_pending w) (characteristics_of w d) = false ->
  first_pending_marker w d =
  option_map ServiceMarker (find (service_pending w) (services_of w d)).
Proof.
  unfold first_pending_marker, scan_order, characteristics_of.
  induction (services_of w d) as [|s ss IH]; intros H; [reflexivity|].
  cbn [flat_map] in H. rewrite existsb_app in H.
  apply orb_false_elim in H. destruct H as [Hs Hss].
  cbn [flat_map markers_of app find marker_pending].
  destruct (service_pending w s); [reflexivity|].
  rewrite find_app, find_map. cbn [marker_pending].
  change (fun a : CharRef => characteristic_pending w a)
    with (characteristic_pending w).
  rewrite (find_existsb_false _ _ Hs). cbn [option_map]. exact (IH Hss).
Qed.

Lemma no_pending_marker_no_discovery (w : World) (d : DeviceRef) :
  first_pending_marker w d = None -> discovery_command w d = [].
Proof.
  intros H. unfold discovery_command.
  destruct (find _ (services_of w d)) as [s|] eqn:Hs; [|reflexivity].
  apply find_some in Hs. destruct Hs as [Hin Hst].
  assert (Hp : marker_pending w (ServiceMarker s) = false).
  { apply (find_none _ _ H). unfold scan_order. apply in_flat_map.
    exists s. split; [exact Hin | now left]. }
  cbn in Hp. unfold service_pending in Hp.
  destruct (Service.state (service_heap w s)); discriminate.
Qed.

(** C1, as the code has it.  A ProcedureCompleted event that resolves to a
    device advances the first pending marker of one interleaved scan, and
    nothing else: the services are visited in insertion order, a visited
    service that is not Discovered is marked Discovered, and a visited service
    that is Discovered has its characteristics scanned for the first one that
    is not Idle, which is reset to Idle.  The scan stops at the first marker
    it advances; with no pending marker the event changes nothing.  When
    every service is Discovered the marker is the device's first non-Idle
    characteristic, and when every characteristic is Idle it is the first
    service that is not Discovered.  The handler then asks for the
    characteristics of the first service still Discovering. *)
Theorem on_procedure_completed_advances_first_pending_marker :
  forall (w : World) (connection : Z) (device : DeviceRef),
    get_device_by_handle w connection = Some device ->
    let x := on_procedure_completed connection w in
    let w' := world x in
    result x = Ok tt
    /\ devices w' = devices w
    /\ device_heap w' = device_heap w
    /\ match first_pending_marker w device with
       | Some (ServiceMarker s) =>
           service_heap w' =
             update (service_heap w) s (Service.set_state DISCOVERED (service_heap w s))
           /\ characteristic_heap w' = characteristic_heap w
           /\ effects x = Mutate (ServiceObject s) "state" :: discovery_command w' device
       | Some (CharacteristicMarker c) =>
           characteristic_heap w' =
             update (characteristic_heap w) c
                    (Characteristic.set_state NONE (characteristic_heap w c))
           /\ service_heap w' = service_heap w
           /\ effects x = Mutate (CharacteristicObject c) "state"
                          :: discovery_command w' device
       | None => w' = w /\ effects x = []
       end
    /\ (existsb (service_pending w) (services_of w device) = false ->
        first_pending_marker w device =
        option_map CharacteristicMarker
          (find (characteristic_pending w) (characteristics_of w device)))
    /\ (existsb (characteristic_pending w) (characteristics_of w device) = false ->
        first_pending_marker w device =
        option_map ServiceMarker (find (service_pending w) (services_of w device))).
Proof.
  intros w connection device Hdev x w'. subst w' x.
  unfold on_procedure_completed, update_services_and_characteristics, bind, gets.
  rewrite Hdev, update_services_first_pending.
  fold (scan_order w device). fold (first_pending_marker w device).
  split; [|split; [|split; [|split; [|split]]]];
    try apply first_pending_marker_all_discovered;
    try apply first_pending_marker_all_idle.
  - destruct (first_pending_marker w device) as [[s|c]|]; cbn;
      rewrite discover_next_first_discovering; reflexivity.
  - destruct (first_pending_marker w device) as [[s|c]|]; cbn;
      rewrite discover_next_first_discovering; reflexivity.
  - destruct (first_pending_marker w device) as [[s|c]|]; cbn;
      rewrite discover_next_first_discovering; reflexivity.
  - destruct (first_pending_marker w device) as [[s|c]|] eqn:Hm; cbn;
      rewrite discover_next_first_discovering; cbn.
    + repeat split.
    + repeat split.
    + split; [reflexivity|].
      exact (no_pending_marker_no_discovery w device Hm).
Qed.

Lemma on_procedure_completed_advances_first_pending_marker_witness :
  let x := on_procedure_completed 1 reconnected in
  first_pending_marker reconnected 0 = Some (CharacteristicMarker 0)
  /\ Characteristic.state (characteristic_heap (world x) 0) = NONE
  /\ service_heap (world x) = service_heap reconnected
  /\ effects x = [Mutate (CharacteristicObject 0) "state";
                  Call (bt_gatt_discover_characteristics (Some 1%Z) 1)].
Proof.
  intros x.
  assert (Hd : get_device_by_handle reconnected 1 = Some 0) by reflexivity.
  assert (Hm : first_pending_marker reconnected 0 = Some (CharacteristicMarker 0))
    by reflexivity.
  destruct (on_procedure_completed_advances_first_pending_marker reconnected 1 0 Hd)
    as (_ & _ & _ & H & _).
  rewrite Hm in H. destruct H as (Hc & Hs & He).
  split; [exact Hm|]. split; [|split; [exact Hs|]].
  - fold x in Hc. rewrite Hc. reflexivity.
  - fold x in He. rewrite He. reflexivity.
Defined.

(** C1 as stated fails after a reconnection: the device's first service
    that is not Discovered is service 2, yet the event leaves it Discovering
    and resets the Reading characteristic of service 1 instead. *)
Lemma procedure_completed_service_priority_fails :
  let w := reconnected in
  let w' := world (on_procedure_completed 1 w) in
  get_device_by_handle w 1 = Some 0
  /\ ~ (forall s : ServiceRef,
          find (service_pending w) (services_of w 0) = Some s ->
          Service.state (service_heap w' s) = DISCOVERED
          /\ forall c : CharRef,
               Characteristic.state (characteristic_heap w' c)
               = Characteristic.state (characteristic_heap w c)).
Proof.
  intros w w'. split; [reflexivity|].
  intros H. destruct (H 2 eq_refl) as [Hs _].
  vm_compute in Hs. discriminate Hs.
Qed.

(** ** Reconnection *)

Lemma get_device_by_handle_ext (w w' : World) :
  devices w' = devices w ->
  (forall d, Device.handle (device_heap w' d) = Device.handle (device_heap w d)) ->
  forall handle, get_device_by_handle w' handle = get_device_by_handle w handle.
Proof.
  intros Hd Hh handle. unfold get_device_by_handle. rewrite Hd.
  apply find_ext_in. intros d _. now rewrite Hh.
Qed.

(** C2, as the code has it.  A ConnectionOpened event that resolves to a
    device marks it connected and asks for its primary services; it does not
    touch the device's list of services, nor any service or characteristic.
    A ServiceDiscovered event of the new round then appends one new Service
    after the ones already listed, which stay as they were. *)
Theorem on_connection_opened_keeps_services :
  forall (w : World) (address : string) (connection : Z) (device : DeviceRef),
    get_device_by_address w (upper address) = Some device ->
    let x := on_connection_opened address connection w in
    result x = Ok tt
    /\ effects x = [Mutate (DeviceObject device) "is_connected";
                    Call (bt_gatt_discover_primary_services connection)]
    /\ Device.is_connected (device_heap (world x) device) = true
    /\ services_of (world x) device = services_of w device
    /\ service_heap (world x) = service_heap w
    /\ characteristic_heap (world x) = characteristic_heap w
    /\ forall (uuid : list byte) (service : Z),
         get_device_by_handle w connection = Some device ->
         let y := on_service connection uuid service (world x) in
         services_of (world y) device = services_of w device ++ [next_service w]
         /\ characteristic_heap (world y) = characteristic_heap w
         /\ forall s, s <> next_service w ->
              service_heap (world y) s = service_heap w s.
Proof.
  intros w address connection device Hdev x.
  assert (Hx : x = (Ok tt,
                    world (write_device device "is_connected"
                             (Device.set_is_connected true) w),
                    [Mutate (DeviceObject device) "is_connected";
                     Call (bt_gatt_discover_primary_services connection)])).
  { subst x. unfold on_connection_opened, bind, gets. rewrite Hdev. reflexivity. }
  rewrite Hx. clear Hx x.
  set (w1 := world (write_device device "is_connected"
                      (Device.set_is_connected true) w)).
  assert (Hheap : forall d, Device.handle (device_heap w1 d)
                            = Device.handle (device_heap w d)).
  { intros d. subst w1. cbn. unfold update.
    destruct (Nat.eqb_spec d device); [subst d|]; reflexivity. }
  cbn [result world effects fst snd].
  split; [reflexivity|]. split; [reflexivity|].
  split; [subst w1; cbn; now rewrite update_same|].
  split; [subst w1; unfold services_of; cbn; now rewrite update_same|].
  split; [reflexivity|]. split; [reflexivity|].
  intros uuid service Hh.
  unfold on_service, bind, gets.
  rewrite (get_device_by_handle_ext w w1 eq_refl Hheap), Hh.
  unfold services_of. subst w1.
  cbn -[upper hex rev]. rewrite !update_same. cbn -[upper hex rev].
  split; [reflexivity|]. split; [reflexivity|].
  intros s Hs. now apply update_other.
Qed.

Lemma on_connection_opened_keeps_services_witness :
  let x := on_connection_opened "00:11:22:33:44:55" 1 reconnecting in
  let y := on_service 1 [x00; x18] 1 (world x) in
  services_of (world x) 0 = [0; 1]
  /\ services_of (world y) 0 = [0; 1; 2].
Proof.
  intros x y.
  assert (Ha : get_device_by_address reconnecting (upper "00:11:22:33:44:55") = Some 0)
    by reflexivity.
  assert (Hh : get_device_by_handle reconnecting 1 = Some 0) by reflexivity.
  destruct (on_connection_opened_keeps_services reconnecting "00:11:22:33:44:55" 1 0 Ha)
    as (_ & _ & _ & Hs & _ & _ & Hy).
  split; [exact Hs|].
  exact (proj1 (Hy [x00; x18] 1%Z Hh)).
Defined.

(** C2 as stated fails: when the connection of device 0 opens again, its
    services 0 and 1 stay listed, and after the first ServiceDiscovered event
    of the new round service 1 and its characteristic 0 are still there. *)
Lemma reconnect_does_not_clear_services :
  let w := reconnecting in
  let w1 := world (on_connection_opened "00:11:22:33:44:55" 1 w) in
  let w2 := world (on_service 1 [x00; x18] 1 w1) in
  get_device_by_address w (upper "00:11:22:33:44:55") = Some 0
  /\ services_of w 0 = [0; 1]
  /\ services_of w1 0 <> []
  /\ In 1 (services_of w2 0)
  /\ In 0 (characteristics_of w2 0)
  /\ ~ (forall s, In s (services_of w 0) -> ~ In s (services_of w2 0)).
Proof.
  intros w w1 w2.
  split; [reflexivity|]. split; [reflexivity|].
  split; [vm_compute; discriminate|].
  split; [vm_compute; tauto|].
  split; [vm_compute; tauto|].
  intros H. apply (H 1); vm_compute; tauto.
Qed.

(** ** The GATT operations *)

Lemma issues_state_write (w : World) (c : CharRef) (cmd : Command)
    (st : CharacteristicState) :
  issues (Ok tt,
          world (write_characteristic c "state" (Characteristic.set_state st) w),
          [Call cmd; Mutate (CharacteristicObject c) "state"])
         w c cmd st [].
Proof.
  unfold issues. cbn. rewrite update_same. cbn.
  repeat (split; [reflexivity|]).
  split; [|repeat split].
  intros c' Hc. now apply update_other.
Qed.

(** ** Writing, then completion *)

Lemma on_procedure_completed_resolved (w : World) (connection : Z) (device : DeviceRef) :
  get_device_by_handle w connection = Some device ->
  on_procedure_completed connection w =
  match first_pending_marker w device with
  | Some m =>
      (Ok tt, world (advance m w),
       effects (advance m w) ++ discovery_command (world (advance m w)) device)
  | None => (Ok tt, w, discovery_command w device)
  end.
Proof.
  intros Hdev.
  unfold on_procedure_completed, update_services_and_characteristics, bind, gets.
  rewrite Hdev, update_services_first_pending.
  fold (scan_order w device). fold (first_pending_marker w device).
  destruct (first_pending_marker w device) as [[s|c]|]; cbn;
    rewrite discover_next_first_discovering; reflexivity.
Qed.

(** On a device whose only pending marker is characteristic [c], the scan
    finds [c]. *)
Lemma first_pending_marker_only (w : World) (d : DeviceRef) (c : CharRef) :
  existsb (service_pending w) (services_of w d) = false ->
  In c (characteristics_of w d) ->
  characteristic_pending w c = true ->
  (forall c', In c' (characteristics_of w d) -> c' <> c ->
              characteristic_pending w c' = false) ->
  first_pending_marker w d = Some (CharacteristicMarker c).
Proof.
  intros Hs Hin Hc Hothers.
  rewrite (first_pending_marker_all_discovered w d Hs).
  destruct (find (characteristic_pending w) (characteristics_of w d)) as [c'|] eqn:Hf.
  - apply find_some in Hf. destruct Hf as [Hin' Hp].
    destruct (Nat.eq_dec c' c) as [->|Hne]; [reflexivity|].
    rewrite (Hothers c' Hin' Hne) in Hp. discriminate.
  - rewrite (find_none _ _ Hf c Hin) in Hc. discriminate.
Qed.

(** C3. Writing the payload text ABCD to a characteristic of a connected
    device that is not busy sends the bytes AB CD, puts the characteristic in
    Writing state and keeps ABCD as its value.  A ProcedureCompleted event
    that then resolves to the device finds every service Discovered, resets
    that characteristic to Idle, leaves its value as it is and changes
    nothing else. *)
Theorem write_then_procedure_completed :
  forall (w : World) (d : DeviceRef) (c : CharRef) (connection : Z),
    is_using_gatt_command w d = false ->
    Device.is_connected (device_heap w d) = true ->
    In c (characteristics_of w d) ->
    let x1 := write_to_characteristic d c "ABCD" w in
    let w1 := world x1 in
    let x2 := on_procedure_completed connection w1 in
    let w2 := world x2 in
    result x1 = Ok tt
    /\ effects x1 =
       [Call (bt_gatt_write_characteristic_value
                (Device.handle (device_heap w d))
                (Characteristic.handle (characteristic_heap w c)) [xab; xcd]);
        Mutate (CharacteristicObject c) "state";
        Mutate (CharacteristicObject c) "packet"]
    /\ Characteristic.state (characteristic_heap w1 c) = WRITING
    /\ Characteristic.packet (characteristic_heap w1 c) = "ABCD"%string
    /\ fromhex (Characteristic.packet (characteristic_heap w1 c)) = Some [xab; xcd]
    /\ (get_device_by_handle w1 connection = Some d ->
        result x2 = Ok tt
        /\ existsb (service_pending w1) (services_of w1 d) = false
        /\ effects x2 = [Mutate (CharacteristicObject c) "state"]
        /\ Characteristic.state (characteristic_heap w2 c) = NONE
        /\ Characteristic.packet (characteristic_heap w2 c) = "ABCD"%string
        /\ (forall c', c' <> c -> characteristic_heap w2 c' = characteristic_heap w c')
        /\ service_heap w2 = service_heap w
        /\ device_heap w2 = device_heap w).
Proof.
  intros w d c connection Hbusy Hconn Hin x1 w1 x2 w2.
  assert (Hx1 : x1 = (Ok tt,
                      world ((write_characteristic c "state"
                                (Characteristic.set_state WRITING) ;;
                              write_characteristic c "packet"
                                (Characteristic.set_packet "ABCD")) w),
                      [Call (bt_gatt_write_characteristic_value
                               (Device.handle (device_heap w d))
                               (Characteristic.handle (characteristic_heap w c))
                               [xab; xcd]);
                       Mutate (CharacteristicObject c) "state";
                       Mutate (CharacteristicObject c) "packet"])).
  { subst x1. unfold write_to_characteristic, bind, gets.
    rewrite Hbusy, Hconn. reflexivity. }
  unfold is_using_gatt_command in Hbusy. apply orb_false_elim in Hbusy.
  destruct Hbusy as [Hservices Hidle].
  assert (Hs1 : service_heap w1 = service_heap w) by (subst w1; rewrite Hx1; reflexivity).
  assert (Hd1 : device_heap w1 = device_heap w) by (subst w1; rewrite Hx1; reflexivity).
  assert (Hc1 : characteristic_heap w1 c
                = Characteristic.set_packet "ABCD"
                    (Characteristic.set_state WRITING (characteristic_heap w c))).
  { subst w1. rewrite Hx1. cbn. now rewrite !update_same. }
  assert (Ho1 : forall c', c' <> c -> characteristic_heap w1 c' = characteristic_heap w c').
  { intros c' Hne. subst w1. rewrite Hx1. cbn. now rewrite !update_other. }
  assert (Hsv : services_of w1 d = services_of w d)
    by (unfold services_of; now rewrite Hd1).
  assert (Hcs : characteristics_of w1 d = characteristics_of w d)
    by (unfold characteristics_of; now rewrite Hsv, Hs1).
  split; [now rewrite Hx1|]. split; [now rewrite Hx1|].
  split; [now rewrite Hc1|]. split; [now rewrite Hc1|]. split; [now rewrite Hc1|].
  intros Hdev.
  assert (Hpending : existsb (service_pending w1) (services_of w1 d) = false).
  { rewrite Hsv. unfold service_pending. rewrite Hs1. exact Hservices. }
  assert (Hm : first_pending_marker w1 d = Some (CharacteristicMarker c)).
  { apply first_pending_marker_only.
    - exact Hpending.
    - now rewrite Hcs.
    - unfold characteristic_pending. now rewrite Hc1.
    - intros c' Hin' Hne. unfold characteristic_pending. rewrite (Ho1 c' Hne).
      rewrite Hcs in Hin'.
      destruct (existsb_exists (characteristic_pending w) (characteristics_of w d))
        as [_ Hex].
      destruct (characteristic_pending w c') eqn:Hp; [|exact Hp].
      rewrite Hex in Hidle; [discriminate|]. exists c'. now split. }
  assert (Hx2 : x2 = (Ok tt, world (advance (CharacteristicMarker c) w1),
                      effects (advance (CharacteristicMarker c) w1)
                      ++ discovery_command
                           (world (advance (CharacteristicMarker c) w1)) d)).
  { subst x2. rewrite (on_procedure_completed_resolved w1 connection d Hdev), Hm.
    reflexivity. }
  assert (Hnone : discovery_command (world (advance (CharacteristicMarker c) w1)) d = []).
  { unfold discovery_command, services_of. cbn [advance write_characteristic world fst snd
      device_heap service_heap].
    fold (services_of w1 d).
    destruct (find _ (services_of w1 d)) as [s|] eqn:Hf; [|reflexivity].
    apply find_some in Hf. destruct Hf as [Hins Hst].
    assert (Hp : service_pending w1 s = false).
    { destruct (existsb_exists (service_pending w1) (services_of w1 d)) as [_ Hex].
      destruct (service_pending w1 s) eqn:Hp; [|reflexivity].
      rewrite Hex in Hpending; [discriminate|]. exists s. now split. }
    unfold service_pending in Hp.
    destruct (Service.state (service_heap w1 s)); discriminate. }
  subst w2. rewrite Hx2, Hnone. cbn. rewrite update_same, Hc1. cbn.
  split; [reflexivity|]. split; [exact Hpending|].
  repeat (split; [reflexivity|]).
  split; [|split; assumption].
  intros c' Hne. rewrite update_other by exact Hne. now apply Ho1.
Qed.

Lemma write_then_procedure_completed_witness :
  let x1 := write_to_characteristic 0 0 "ABCD" discovered in
  let x2 := on_procedure_completed 1 (world x1) in
  Characteristic.state (characteristic_heap (world x1) 0) = WRITING
  /\ Characteristic.state (characteristic_heap (world x2) 0) = NONE
  /\ Characteristic.packet (characteristic_heap (world x2) 0) = "ABCD"%string.
Proof.
  intros x1 x2.
  assert (Hin : In 0 (characteristics_of discovered 0)) by (vm_compute; tauto).
  destruct (write_then_procedure_completed discovered 0 0 1 eq_refl eq_refl Hin)
    as (_ & _ & Hw & _ & _ & H2).
  destruct (H2 eq_refl) as (_ & _ & _ & Hn & Hp & _).
  split; [exact Hw|]. split; [exact Hn | exact Hp].
Defined.

(** ** One connection attempt at a time *)

Lemma no_new_connecting_same (w w' : World) :
  devices w' = devices w ->
  device_heap w' = device_heap w ->
  no_new_connecting w w'.
Proof.
  intros Hd Hh d Hin Hc. unfold is_connecting in *.
  rewrite Hd in Hin. rewrite Hh in Hc. now split.
Qed.

Lemma no_new_connecting_preserves (w w' : World) :
  no_new_connecting w w' -> no_two_connecting w -> no_two_connecting w'.
Proof.
  intros Hnew Hinv d1 d2 Hin1 Hin2 Hc1 Hc2.
  destruct (Hnew d1 Hin1 Hc1) as [Hin1' Hc1'].
  destruct (Hnew d2 Hin2 Hc2) as [Hin2' Hc2'].
  exact (Hinv d1 d2 Hin1' Hin2' Hc1' Hc2').
Qed.

Lemma on_characteristic_loop_devices (ss : list ServiceRef) (uuid : string)
    (characteristic properties : Z) (w : World) :
  devices (world (on_characteristic_loop ss uuid characteristic properties w))
  = devices w
  /\ device_heap (world (on_characteristic_loop ss uuid characteristic properties w))
     = device_heap w.
Proof.
  induction ss as [|s ss IH]; [split; reflexivity|].
  cbn [on_characteristic_loop]. unfold bind at 1 3, gets at 1 2.
  destruct (ServiceState_eqb (Service.state (service_heap w s)) DISCOVERING).
  - split; reflexivity.
  - destruct (on_characteristic_loop ss uuid characteristic properties w)
      as [[r w1] t1].
    exact IH.
Qed.

Lemma advance_devices (m : Marker) (w : World) :
  devices (world (advance m w)) = devices w
  /\ device_heap (world (advance m w)) = device_heap w.
Proof. destruct m; split; reflexivity. Qed.

Lemma same_connecting_no_new (w w' : World) :
  same_connecting w w' -> no_new_connecting w w'.
Proof.
  intros [Hd Hc] d Hin H. rewrite Hd in Hin. rewrite Hc in H. now split.
Qed.

Lemma same_connecting_trans (w1 w2 w3 : World) :
  same_connecting w1 w2 -> same_connecting w2 w3 -> same_connecting w1 w3.
Proof.
  intros [Hd1 Hc1] [Hd2 Hc2]. split; [congruence|].
  intros d. now rewrite Hc2, Hc1.
Qed.

Lemma no_new_connecting_then_same (w1 w2 w3 : World) :
  no_new_connecting w1 w2 -> same_connecting w2 w3 -> no_new_connecting w1 w3.
Proof.
  intros Hnew [Hd Hc] d Hin H. rewrite Hd in Hin. rewrite Hc in H.
  exact (Hnew d Hin H).
Qed.

(** Writing an attribute other than the handle and the connection flag. *)
Lemma write_device_same_connecting (d : DeviceRef) (attribute : string)
    (f : Device.t -> Device.t) (w : World) :
  (forall x, Device.handle (f x) = Device.handle x) ->
  (forall x, Device.is_connected (f x) = Device.is_connected x) ->
  same_connecting w (world (write_device d attribute f w)).
Proof.
  intros Hh Hc. split; [reflexivity|].
  intros d'. unfold is_connecting. cbn. unfold update.
  destruct (Nat.eqb_spec d' d) as [->|Hne]; [|reflexivity].
  now rewrite Hh, Hc.
Qed.

Lemma world_after_write_device (d : DeviceRef) (attribute : string)
    (f : Device.t -> Device.t) (k : M unit) (w : World) :
  world ((write_device d attribute f ;; k) w)
  = world (k (world (write_device d attribute f w))).
Proof.
  unfold bind. cbn. destruct (k _) as [[r w2] t2]. reflexivity.
Qed.

Lemma Device_on_advertisement_same_connecting (d : DeviceRef) (packet : string)
    (event_flags address_type rssi : Z) (w : World) :
  same_connecting w
    (world (Device_on_advertisement d packet event_flags address_type rssi w)).
Proof.
  unfold Device_on_advertisement.
  rewrite !world_after_write_device.
  do 3 (eapply same_connecting_trans;
        [|apply write_device_same_connecting; intros x; reflexivity]).
  apply write_device_same_connecting; intros x; reflexivity.
Qed.

Lemma on_advertisement_no_new_connecting (address : string) (data : list byte)
    (event_flags address_type rssi : Z) (w : World) :
  no_new_connecting w
    (world (on_advertisement address data event_flags address_type rssi w)).
Proof.
  unfold on_advertisement, bind at 1 2, gets, ret.
  destruct (get_device_by_address w (upper address)) as [d|].
  - set (x := Device_on_advertisement d _ _ _ _ w).
    assert (Hx := Device_on_advertisement_same_connecting d (upper (hex data))
                    event_flags address_type rssi w).
    fold x in Hx. destruct x as [[r w2] t2].
    apply same_connecting_no_new. exact Hx.
  - unfold bind, new_device, devices_append.
    set (w1 := mkWorld _ _ _ _ _ _ (devices _ ++ [next_device w]) _ _ _).
    set (x := Device_on_advertisement (next_device w) _ _ _ _ w1).
    assert (Hx := Device_on_advertisement_same_connecting (next_device w)
                    (upper (hex data)) event_flags address_type rssi w1).
    fold x in Hx. destruct x as [[r w2] t2].
    apply no_new_connecting_then_same with (w2 := w1); [|exact Hx].
    intros d Hin Hc. subst w1. unfold is_connecting in *. cbn in Hin, Hc.
    revert Hc. unfold update.
    destruct (Nat.eqb_spec d (next_device w)) as [->|Hne]; cbn; [discriminate|].
    intros Hc. split; [|exact Hc].
    apply in_app_or in Hin. destruct Hin as [Hin|[Hin|[]]]; [exact Hin|].
    now subst d.
Qed.

Lemma dispatch_no_new_connecting (e : Event) (w : World) :
  no_new_connecting w (world (dispatch e w)).
Proof.
  destruct e as [address data event_flags address_type rssi | | address connection
                | connection | connection uuid service
                | connection uuid characteristic properties
                | connection characteristic att_opcode value | connection | name];
    cbn [dispatch].
  - apply on_advertisement_no_new_connecting.
  - (* boot *)
    apply no_new_connecting_same; reflexivity.
  - (* connection opened *)
    unfold on_connection_opened, bind, gets.
    destruct (get_device_by_address w (upper address)) as [d|];
      [|apply no_new_connecting_same; reflexivity].
    intros d' Hin Hc. unfold is_connecting in *. cbn in Hin, Hc.
    split; [exact Hin|]. revert Hc. unfold update.
    destruct (Nat.eqb_spec d' d) as [->|Hne]; cbn; [|auto].
    destruct (Device.handle (device_heap w d)); discriminate.
  - (* connection closed *)
    unfold on_connection_closed, bind, gets.
    destruct (get_device_by_handle w connection) as [d|];
      [|apply no_new_connecting_same; reflexivity].
    intros d' Hin Hc. unfold is_connecting in *. cbn in Hin, Hc.
    split; [exact Hin|]. revert Hc. rewrite !update_same. unfold update.
    destruct (Nat.eqb_spec d' d) as [->|Hne]; cbn; [discriminate|auto].
  - (* service *)
    unfold on_service, bind, gets.
    destruct (get_device_by_handle w connection) as [d|];
      [|apply no_new_connecting_same; reflexivity].
    apply same_connecting_no_new.
    apply (write_device_same_connecting d "services"
             (Device.append_service (next_service w))
             (world (new_service (Service.init (upper (hex (rev uuid))) service) w)));
      intros x; reflexivity.
  - (* characteristic *)
    unfold on_characteristic, bind at 1 2, gets.
    destruct (get_device_by_handle w connection) as [d|];
      [|apply no_new_connecting_same; reflexivity].
    destruct (on_characteristic_loop_devices (services_of w d)
                (upper (hex (rev uuid))) characteristic properties w) as [Hd Hh].
    destruct (on_characteristic_loop _ _ _ _ w) as [[r w1] t1].
    apply no_new_connecting_same; assumption.
  - (* characteristic value *)
    unfold on_characteristic_value, bind, gets.
    destruct (att_opcode =? ATT_OPCODE_HANDLE_VALUE_INDICATION (lib w))%Z;
      cbn -[hex];
      (destruct (get_device_by_handle w connection) as [d|]; cbn -[hex];
       [destruct (Device_get_characteristic_by_handle w d characteristic); cbn -[hex]|]);
      apply no_new_connecting_same; reflexivity.
  - (* procedure completed *)
    destruct (get_device_by_handle w connection) as [d|] eqn:Hd.
    + rewrite (on_procedure_completed_resolved w connection d Hd).
      destruct (first_pending_marker w d) as [m|];
        [|apply no_new_connecting_same; reflexivity].
      destruct (advance_devices m w) as [H1 H2].
      apply no_new_connecting_same; assumption.
    + unfold on_procedure_completed, bind, gets. rewrite Hd.
      apply no_new_connecting_same; reflexivity.
  - apply no_new_connecting_same; reflexivity.
Qed.

Lemma connect_device_blocked (w : World) (A B : DeviceRef) (response_connection : Z) :
  In A (devices w) ->
  is_connecting w A = true ->
  connect_device B response_connection w = (Ok tt, w, []).
Proof.
  intros Hin Hc. unfold connect_device, bind, gets.
  assert (Hex : existsb (is_connecting w) (devices w) = true)
    by (apply existsb_exists; exists A; now split).
  now rewrite Hex.
Qed.

Lemma connect_device_preserves (w : World) (B : DeviceRef) (response_connection : Z) :
  no_two_connecting w ->
  no_two_connecting (world (connect_device B response_connection w)).
Proof.
  intros Hinv. unfold connect_device, bind, gets.
  destruct (existsb (is_connecting w) (devices w)) eqn:Hex; [exact Hinv|].
  assert (Hnone : forall d, In d (devices w) -> is_connecting w d = false).
  { intros d Hin. destruct (is_connecting w d) eqn:Hc; [|reflexivity].
    destruct (existsb_exists (is_connecting w) (devices w)) as [_ H].
    rewrite H in Hex; [discriminate|]. exists d. now split. }
  assert (Honly : forall d, In d (devices w) ->
            is_connecting (world (write_device B "handle"
                                    (Device.set_handle (Some response_connection)) w)) d
            = true -> d = B).
  { intros d Hin. unfold is_connecting. cbn. unfold update.
    destruct (Nat.eqb_spec d B) as [->|Hne]; [reflexivity|].
    intros Hc. specialize (Hnone d Hin). unfold is_connecting in Hnone.
    rewrite Hnone in Hc. discriminate. }
  intros d1 d2 Hin1 Hin2 Hc1 Hc2. cbn in Hin1, Hin2.
  rewrite (Honly d1 Hin1 Hc1), (Honly d2 Hin2 Hc2). reflexivity.
Qed.

Lemma perform_preserves (a : Action) (w : World) :
  no_two_connecting w -> no_two_connecting (world (perform a w)).
Proof.
  intros Hinv.
  destruct a as [e | device response | device | device c | device c packet
                | device c | device c]; cbn [perform].
  - exact (no_new_connecting_preserves _ _ (dispatch_no_new_connecting e w) Hinv).
  - now apply connect_device_preserves.
  - unfold disconnect_device, bind, gets.
    destruct (Device.handle (device_heap w device)); exact Hinv.
  - refine (no_new_connecting_preserves _ _ _ Hinv).
    unfold read_from_characteristic, bind, gets.
    destruct (is_using_gatt_command w device);
      [|destruct (Device.is_connected (device_heap w device))];
      apply no_new_connecting_same; reflexivity.
  - refine (no_new_connecting_preserves _ _ _ Hinv).
    unfold write_to_characteristic, bind, gets.
    destruct (is_using_gatt_command w device);
      [|destruct (Device.is_connected (device_heap w device));
        [destruct (fromhex packet)|]];
      apply no_new_connecting_same; reflexivity.
  - refine (no_new_connecting_preserves _ _ _ Hinv).
    unfold subscribe_to_notification, bind, gets.
    destruct (is_using_gatt_command w device);
      [|destruct (Device.is_connected (device_heap w device))];
      apply no_new_connecting_same; reflexivity.
  - refine (no_new_connecting_preserves _ _ _ Hinv).
    unfold subscribe_to_indication, bind, gets.
    destruct (is_using_gatt_command w device);
      [|destruct (Device.is_connected (device_heap w device))];
      apply no_new_connecting_same; reflexivity.
Qed.

Lemma perform_all_preserves (actions : list Action) :
  forall w : World, no_two_connecting w -> no_two_connecting (perform_all actions w).
Proof.
  induction actions as [|a rest IH]; intros w Hinv; [exact Hinv|].
  cbn [perform_all]. apply IH. now apply perform_preserves.
Qed.

(** C4. While a device A of the collection holds a connection handle and
    is not connected, connecting any device B sends no command and changes
    nothing, so B's handle stays as it was (unset, if it was unset).
    Consequently at most one device of the collection holds a handle while
    not connected: this is so initially, every event and every public
    operation keeps it so, and it therefore holds after any sequence of
    them. *)
Theorem connect_device_is_exclusive :
  (forall (w : World) (A B : DeviceRef) (response_connection : Z),
      In A (devices w) ->
      Device.handle (device_heap w A) <> None ->
      Device.is_connected (device_heap w A) = false ->
      let x := connect_device B response_connection w in
      x = (Ok tt, w, [])
      /\ (forall c, ~ In (Call c) (effects x))
      /\ Device.handle (device_heap (world x) B) = Device.handle (device_heap w B))
  /\ (forall (w : World) (a : Action),
        no_two_connecting w -> no_two_connecting (world (perform a w)))
  /\ (forall (l : BGLib) (actions : list Action),
        no_two_connecting (perform_all actions (init l))).
Proof.
  split; [|split].
  - intros w A B response_connection Hin Hh Hc x.
    assert (Hx : x = (Ok tt, w, [])).
    { apply (connect_device_blocked w A B response_connection Hin).
      unfold is_connecting. rewrite Hc.
      destruct (Device.handle (device_heap w A)); [reflexivity | contradiction]. }
    rewrite Hx. split; [reflexivity|]. split; [|reflexivity].
    intros c [].
  - intros w a. apply perform_preserves.
  - intros l actions. apply perform_all_preserves.
    intros d1 d2 [].
Qed.

Lemma connect_device_is_exclusive_witness :
  let w := world ((on_advertisement "00:11:22:33:44:55" [] 1 1 (-100) ;;
                   on_advertisement "66:77:88:99:AA:BB" [] 1 0 (-60) ;;
                   connect_device 0 1) (init example_lib)) in
  let x := connect_device 1 2 w in
  x = (Ok tt, w, [])
  /\ Device.handle (device_heap (world x) 1) = None.
Proof.
  intros w x.
  assert (Hin : In 0 (devices w)) by (vm_compute; tauto).
  assert (Hh : Device.handle (device_heap w 0) <> None) by (vm_compute; discriminate).
  destruct (proj1 connect_device_is_exclusive w 0 1 2%Z Hin Hh eq_refl)
    as (Hx & _ & Hb).
  split; [exact Hx|]. fold x in Hb. rewrite Hb. reflexivity.
Defined.

(** ** Advertisements *)

Lemma Device_on_advertisement_fields (d : DeviceRef) (packet : string)
    (event_flags address_type rssi : Z) (w : World) :
  let x := Device_on_advertisement d packet event_flags address_type rssi w in
  result x = Ok tt
  /\ effects x = [Mutate (DeviceObject d) "packet";
                  Mutate (DeviceObject d) "is_connectable";
                  Mutate (DeviceObject d) "address_type";
                  Mutate (DeviceObject d) "rssi"]
  /\ devices (world x) = devices w
  /\ device_heap (world x) d =
     Device.mk (Device.address (device_heap w d)) (Device.handle (device_heap w d))
       packet (negb (Z.land event_flags 1 =? 0)%Z) (Some address_type) (Some rssi)
       (Device.is_connected (device_heap w d)) (Device.services (device_heap w d))
  /\ (forall d', d' <> d -> device_heap (world x) d' = device_heap w d')
  /\ service_heap (world x) = service_heap w
  /\ characteristic_heap (world x) = characteristic_heap w.
Proof.
  unfold Device_on_advertisement, bind. cbn. rewrite !update_same. cbn.
  repeat (split; [reflexivity|]).
  split; [|split; reflexivity].
  intros d' Hne. now rewrite !update_other.
Qed.

Lemma on_advertisement_known (address : string) (data : list byte)
    (event_flags address_type rssi : Z) (w : World) (d : DeviceRef) :
  get_device_by_address w (upper address) = Some d ->
  on_advertisement address data event_flags address_type rssi w
  = Device_on_advertisement d (upper (hex data)) event_flags address_type rssi w.
Proof.
  intros H. unfold on_advertisement, bind at 1 2, gets, ret. rewrite H.
  destruct (Device_on_advertisement d _ _ _ _ w) as [[r w2] t2]. reflexivity.
Qed.

Lemma on_advertisement_unknown (address : string) (data : list byte)
    (event_flags address_type rssi : Z) (w : World) :
  get_device_by_address w (upper address) = None ->
  let r := next_device w in
  let w0 := world ((new_device (Device.init (upper address)) ;; devices_append r) w) in
  let y := Device_on_advertisement r (upper (hex data)) event_flags address_type rssi w0 in
  on_advertisement address data event_flags address_type rssi w
  = (result y, world y,
     Create (DeviceObject r) :: Mutate ScannerAppObject "devices" :: effects y).
Proof.
  intros H r w0 y. subst y w0 r.
  unfold on_advertisement, bind at 1 2, gets, ret. rewrite H.
  unfold bind at 2 3 4, new_device, devices_append. cbn -[upper hex Device_on_advertisement].
  destruct (Device_on_advertisement _ _ _ _ _ _) as [[r w2] t2]. reflexivity.
Qed.

Lemma addresses_ext (w w' : World) :
  devices w' = devices w ->
  (forall d, In d (devices w) ->
             Device.address (device_heap w' d) = Device.address (device_heap w d)) ->
  addresses w' = addresses w.
Proof.
  intros Hd Ha. unfold addresses. rewrite Hd. now apply map_ext_in.
Qed.

Lemma get_device_by_address_In (w : World) (a : string) (d : DeviceRef) :
  get_device_by_address w a = Some d ->
  In d (devices w) /\ Device.address (device_heap w d) = a /\ In a (addresses w).
Proof.
  intros H. apply find_some in H. destruct H as [Hin Heq].
  apply String.eqb_eq in Heq. split; [exact Hin|]. split; [exact Heq|].
  unfold addresses. rewrite <- Heq.
  exact (in_map (fun d => Device.address (device_heap w d)) _ _ Hin).
Qed.

Lemma get_device_by_address_not_In (w : World) (a : string) :
  get_device_by_address w a = None -> ~ In a (addresses w).
Proof.
  intros H Hin. unfold addresses in Hin. apply in_map_iff in Hin.
  destruct Hin as (d & Heq & Hd).
  assert (Hf := find_none _ _ H d Hd). cbn in Hf.
  rewrite Heq, String.eqb_refl in Hf. discriminate.
Qed.

Lemma on_advertisement_known_device (address : string) (data : list byte)
    (event_flags address_type rssi : Z) (w : World) (d : DeviceRef) :
  get_device_by_address w (upper address) = Some d ->
  let x := on_advertisement address data event_flags address_type rssi w in
  result x = Ok tt
  /\ (forall o, ~ In (Create o) (effects x))
  /\ devices (world x) = devices w
  /\ addresses (world x) = addresses w
  /\ get_device_by_address (world x) (upper address) = Some d
  /\ advertised (device_heap (world x) d) data event_flags address_type rssi
  /\ Device.address (device_heap (world x) d) = upper address
  /\ Device.handle (device_heap (world x) d) = Device.handle (device_heap w d)
  /\ Device.is_connected (device_heap (world x) d)
     = Device.is_connected (device_heap w d)
  /\ Device.services (device_heap (world x) d) = Device.services (device_heap w d)
  /\ (forall d', d' <> d -> device_heap (world x) d' = device_heap w d').
Proof.
  intros Hfound x. subst x. rewrite (on_advertisement_known _ _ _ _ _ _ _ Hfound).
  destruct (Device_on_advertisement_fields d (upper (hex data)) event_flags
              address_type rssi w) as (Hr & He & Hd & Hf & Ho & _ & _).
  destruct (get_device_by_address_In _ _ _ Hfound) as (Hin & Haddr & _).
  set (x := Device_on_advertisement d _ _ _ _ w) in *.
  assert (Hsame : forall d', Device.address (device_heap (world x) d')
                             = Device.address (device_heap w d')).
  { intros d'. destruct (Nat.eq_dec d' d) as [->|Hne].
    - rewrite Hf. reflexivity.
    - now rewrite Ho. }
  split; [exact Hr|].
  split; [intros o Hin'; rewrite He in Hin'; cbn in Hin';
          repeat (destruct Hin' as [Hin'|Hin']; [discriminate|]); exact Hin'|].
  split; [exact Hd|].
  split; [apply addresses_ext; [exact Hd | intros d' _; apply Hsame]|].
  split.
  { rewrite <- Hfound. unfold get_device_by_address. rewrite Hd.
    apply find_ext_in. intros d' _. now rewrite Hsame. }
  split; [rewrite Hf; unfold advertised; cbn; rewrite upper_hex; repeat split|].
  split; [rewrite Hsame; exact Haddr|].
  rewrite Hf. cbn. repeat (split; [reflexivity|]). exact Ho.
Qed.

Lemma on_advertisement_new_device (address : string) (data : list byte)
    (event_flags address_type rssi : Z) (w : World) :
  get_device_by_address w (upper address) = None ->
  devices_allocated w ->
  let x := on_advertisement address data event_flags address_type rssi w in
  let r := next_device w in
  result x = Ok tt
  /\ devices (world x) = devices w ++ [r]
  /\ addresses (world x) = addresses w ++ [upper address]
  /\ get_device_by_address (world x) (upper address) = Some r
  /\ advertised (device_heap (world x) r) data event_flags address_type rssi
  /\ (forall d', d' <> r -> device_heap (world x) d' = device_heap w d').
Proof.
  intros Hnone Halloc x r. subst x.
  rewrite (on_advertisement_unknown _ _ _ _ _ _ Hnone). cbn zeta.
  fold r.
  set (w0 := world ((new_device (Device.init (upper address)) ;; devices_append r) w)).
  destruct (Device_on_advertisement_fields r (upper (hex data)) event_flags
              address_type rssi w0) as (Hr & _ & Hd & Hf & Ho & _ & _).
  set (x := Device_on_advertisement r _ _ _ _ w0) in *.
  cbn [result world effects fst snd].
  assert (Hfresh : ~ In r (devices w)).
  { intros Hin. unfold devices_allocated in Halloc. rewrite Forall_forall in Halloc.
    specialize (Halloc r Hin). unfold r in Halloc. lia. }
  assert (Hd0 : devices w0 = devices w ++ [r]) by reflexivity.
  assert (Hr0 : device_heap w0 r = Device.init (upper address))
    by (subst w0; cbn; apply update_same).
  assert (Ho0 : forall d', d' <> r -> device_heap w0 d' = device_heap w d')
    by (intros d' Hne; subst w0; cbn; now apply update_other).
  assert (Hold : forall d', In d' (devices w) ->
                   device_heap (world x) d' = device_heap w d').
  { intros d' Hin. assert (Hne : d' <> r) by (intros ->; contradiction).
    now rewrite Ho, Ho0. }
  assert (Hnew : Device.address (device_heap (world x) r) = upper address)
    by (rewrite Hf, Hr0; reflexivity).
  split; [exact Hr|].
  split; [now rewrite Hd, Hd0|].
  split.
  { unfold addresses. rewrite Hd, Hd0, map_app. cbn [map]. rewrite Hnew.
    f_equal. apply map_ext_in. intros d' Hin. now rewrite Hold. }
  split.
  { unfold get_device_by_address. rewrite Hd, Hd0, find_app.
    rewrite (find_ext_in _ (fun d => String.eqb (Device.address (device_heap w d))
                                       (upper address)) (devices w))
      by (intros d' Hin; now rewrite Hold).
    unfold get_device_by_address in Hnone. rewrite Hnone.
    cbn [find]. now rewrite Hnew, String.eqb_refl. }
  split; [rewrite Hf; unfold advertised; cbn; rewrite upper_hex; repeat split|].
  intros d' Hne. now rewrite Ho, Ho0.
Qed.

Lemma same_addresses_same (w w' : World) :
  devices w' = devices w ->
  device_heap w' = device_heap w ->
  next_device w' = next_device w ->
  same_addresses w w'.
Proof.
  intros Hd Hh Hn. split; [exact Hd|]. split; [exact Hn|].
  intros d. now rewrite Hh.
Qed.

Lemma write_device_same_addresses (d : DeviceRef) (attribute : string)
    (f : Device.t -> Device.t) (w : World) :
  (forall x, Device.address (f x) = Device.address x) ->
  same_addresses w (world (write_device d attribute f w)).
Proof.
  intros Ha. split; [reflexivity|]. split; [reflexivity|].
  intros d'. cbn. unfold update.
  destruct (Nat.eqb_spec d' d) as [->|Hne]; [apply Ha | reflexivity].
Qed.

Lemma same_addresses_unique (w w' : World) :
  same_addresses w w' -> unique_addresses w -> unique_addresses w'.
Proof.
  intros (Hd & Hn & Ha) [Halloc Hnodup]. split.
  - unfold devices_allocated. now rewrite Hd, Hn.
  - rewrite (addresses_ext w w' Hd); [exact Hnodup|].
    intros d _. apply Ha.
Qed.

Lemma Device_on_advertisement_next_device (d : DeviceRef) (packet : string)
    (event_flags address_type rssi : Z) (w : World) :
  next_device (world (Device_on_advertisement d packet event_flags address_type rssi w))
  = next_device w.
Proof. reflexivity. Qed.

Lemma on_advertisement_unique_addresses (address : string) (data : list byte)
    (event_flags address_type rssi : Z) (w : World) :
  unique_addresses w ->
  unique_addresses
    (world (on_advertisement address data event_flags address_type rssi w)).
Proof.
  intros [Halloc Hnodup].
  destruct (get_device_by_address w (upper address)) as [d|] eqn:Hfound.
  - destruct (on_advertisement_known_device address data event_flags address_type
                rssi w d Hfound) as (_ & _ & Hd & Ha & _).
    split; [|now rewrite Ha].
    unfold devices_allocated. rewrite Hd.
    rewrite (on_advertisement_known _ _ _ _ _ _ _ Hfound).
    now rewrite Device_on_advertisement_next_device.
  - destruct (on_advertisement_new_device address data event_flags address_type
                rssi w Hfound Halloc) as (_ & Hd & Ha & _).
    split.
    + unfold devices_allocated. rewrite Hd.
      rewrite (on_advertisement_unknown _ _ _ _ _ _ Hfound). cbn zeta.
      cbn [world fst snd]. rewrite Device_on_advertisement_next_device.
      cbn [world bind new_device devices_append next_device fst snd].
      apply Forall_app. split.
      * unfold devices_allocated in Halloc.
        eapply Forall_impl; [|exact Halloc]. cbn. intros d' Hlt. lia.
      * constructor; [lia | constructor].
    + rewrite Ha. apply NoDup_app; [exact Hnodup | repeat constructor; intros [] |].
      intros a Hin [Heq|[]]. subst a.
      exact (get_device_by_address_not_In _ _ Hfound Hin).
Qed.

Lemma on_characteristic_loop_next_device (ss : list ServiceRef) (uuid : string)
    (characteristic properties : Z) (w : World) :
  next_device (world (on_characteristic_loop ss uuid characteristic properties w))
  = next_device w.
Proof.
  induction ss as [|s ss IH]; [reflexivity|].
  cbn [on_characteristic_loop]. unfold bind at 1, gets at 1.
  destruct (ServiceState_eqb (Service.state (service_heap w s)) DISCOVERING).
  - reflexivity.
  - destruct (on_characteristic_loop ss uuid characteristic properties w)
      as [[r w1] t1].
    exact IH.
Qed.

Lemma dispatch_unique_addresses (e : Event) (w : World) :
  unique_addresses w -> unique_addresses (world (dispatch e w)).
Proof.
  intros Hinv.
  destruct e as [address data event_flags address_type rssi | | address connection
                | connection | connection uuid service
                | connection uuid characteristic properties
                | connection characteristic att_opcode value | connection | name];
    cbn [dispatch].
  - now apply on_advertisement_unique_addresses.
  - exact Hinv.
  - refine (same_addresses_unique _ _ _ Hinv).
    unfold on_connection_opened, bind, gets.
    destruct (get_device_by_address w (upper address)) as [d|];
      [|apply same_addresses_same; reflexivity].
    apply (write_device_same_addresses d "is_connected"
             (Device.set_is_connected true) w). intros x; reflexivity.
  - refine (same_addresses_unique _ _ _ Hinv).
    unfold on_connection_closed, bind, gets.
    destruct (get_device_by_handle w connection) as [d|];
      [|apply same_addresses_same; reflexivity].
    split; [reflexivity|]. split; [reflexivity|].
    intros d'. cbn. rewrite update_same. unfold update.
    destruct (Nat.eqb_spec d' d) as [->|Hne]; reflexivity.
  - refine (same_addresses_unique _ _ _ Hinv).
    unfold on_service, bind, gets.
    destruct (get_device_by_handle w connection) as [d|];
      [|apply same_addresses_same; reflexivity].
    apply (write_device_same_addresses d "services"
             (Device.append_service (next_service w))
             (world (new_service (Service.init (upper (hex (rev uuid))) service) w))).
    intros x; reflexivity.
  - refine (same_addresses_unique _ _ _ Hinv).
    unfold on_characteristic, bind at 1 2, gets.
    destruct (get_device_by_handle w connection) as [d|];
      [|apply same_addresses_same; reflexivity].
    destruct (on_characteristic_loop_devices (services_of w d)
                (upper (hex (rev uuid))) characteristic properties w) as [Hd Hh].
    assert (Hn := on_characteristic_loop_next_device (services_of w d)
                    (upper (hex (rev uuid))) characteristic properties w).
    destruct (on_characteristic_loop _ _ _ _ w) as [[r w1] t1].
    apply same_addresses_same; assumption.
  - refine (same_addresses_unique _ _ _ Hinv).
    unfold on_characteristic_value, bind, gets.
    destruct (att_opcode =? ATT_OPCODE_HANDLE_VALUE_INDICATION (lib w))%Z;
      cbn -[hex];
      (destruct (get_device_by_handle w connection) as [d|]; cbn -[hex];
       [destruct (Device_get_characteristic_by_handle w d characteristic); cbn -[hex]|]);
      apply same_addresses_same; reflexivity.
  - refine (same_addresses_unique _ _ _ Hinv).
    destruct (get_device_by_handle w connection) as [d|] eqn:Hd.
    + rewrite (on_procedure_completed_resolved w connection d Hd).
      destruct (first_pending_marker w d) as [[s|c]|];
        apply same_addresses_same; reflexivity.
    + unfold on_procedure_completed, bind, gets. rewrite Hd.
      apply same_addresses_same; reflexivity.
  - exact Hinv.
Qed.

Lemma perform_unique_addresses (a : Action) (w : World) :
  unique_addresses w -> unique_addresses (world (perform a w)).
Proof.
  intros Hinv.
  destruct a as [e | device response | device | device c | device c packet
                | device c | device c]; cbn [perform].
  - now apply dispatch_unique_addresses.
  - refine (same_addresses_unique _ _ _ Hinv).
    unfold connect_device, bind, gets.
    destruct (existsb (is_connecting w) (devices w));
      [apply same_addresses_same; reflexivity|].
    apply (write_device_same_addresses device "handle"
             (Device.set_handle (Some response)) w). intros x; reflexivity.
  - unfold disconnect_device, bind, gets.
    destruct (Device.handle (device_heap w device)); exact Hinv.
  - refine (same_addresses_unique _ _ _ Hinv).
    unfold read_from_characteristic, bind, gets.
    destruct (is_using_gatt_command w device);
      [|destruct (Device.is_connected (device_heap w device))];
      apply same_addresses_same; reflexivity.
  - refine (same_addresses_unique _ _ _ Hinv).
    unfold write_to_characteristic, bind, gets.
    destruct (is_using_gatt_command w device);
      [|destruct (Device.is_connected (device_heap w device));
        [destruct (fromhex packet)|]];
      apply same_addresses_same; reflexivity.
  - refine (same_addresses_unique _ _ _ Hinv).
    unfold subscribe_to_notification, bind, gets.
    destruct (is_using_gatt_command w device);
      [|destruct (Device.is_connected (device_heap w device))];
      apply same_addresses_same; reflexivity.
  - refine (same_addresses_unique _ _ _ Hinv).
    unfold subscribe_to_indication, bind, gets.
    destruct (is_using_gatt_command w device);
      [|destruct (Device.is_connected (device_heap w device))];
      apply same_addresses_same; reflexivity.
Qed.

Lemma perform_all_unique_addresses (actions : list Action) :
  forall w : World, unique_addresses w -> unique_addresses (perform_all actions w).
Proof.
  induction actions as [|a rest IH]; intros w Hinv; [exact Hinv|].
  cbn [perform_all]. apply IH. now apply perform_unique_addresses.
Qed.

(** Two identical advertisement reports, from a world whose devices are
    allocated objects. *)
Lemma on_advertisement_twice :
  forall (w : World) (address : string) (data : list byte)
         (event_flags address_type rssi : Z),
    devices_allocated w ->
    let a := upper address in
    let x1 := on_advertisement address data event_flags address_type rssi w in
    let x2 := on_advertisement address data event_flags address_type rssi (world x1) in
    addresses (world x1) =
      match get_device_by_address w a with
      | Some _ => addresses w
      | None => addresses w ++ [a]
      end
    /\ devices (world x2) = devices (world x1)
    /\ addresses (world x2) = addresses (world x1)
    /\ (forall o, ~ In (Create o) (effects x2))
    /\ (exists d,
          get_device_by_address (world x2) a = Some d
          /\ In d (devices (world x2))
          /\ Device.address (device_heap (world x2) d) = a
          /\ advertised (device_heap (world x2) d) data event_flags address_type rssi)
    /\ (count_occ string_dec (addresses w) a <= 1 ->
        count_occ string_dec (addresses (world x2)) a = 1)
    /\ (devices w = [] -> List.length (devices (world x2)) = 1)
    /\ (forall d, get_device_by_address w a = Some d ->
          devices (world x1) = devices w
          /\ (forall o, ~ In (Create o) (effects x1))
          /\ advertised (device_heap (world x1) d) data event_flags address_type rssi
          /\ Device.handle (device_heap (world x1) d) = Device.handle (device_heap w d)
          /\ Device.is_connected (device_heap (world x1) d)
             = Device.is_connected (device_heap w d)
          /\ Device.services (device_heap (world x1) d)
             = Device.services (device_heap w d)
          /\ forall d', d' <> d -> device_heap (world x1) d' = device_heap w d').
Proof.
  intros w address data event_flags address_type rssi Halloc a x1 x2.
  assert (H1 : exists d,
             get_device_by_address (world x1) a = Some d
             /\ addresses (world x1) =
                match get_device_by_address w a with
                | Some _ => addresses w
                | None => addresses w ++ [a]
                end
             /\ devices (world x1) =
                match get_device_by_address w a with
                | Some _ => devices w
                | None => devices w ++ [next_device w]
                end).
  { destruct (get_device_by_address w a) as [d|] eqn:Hfound.
    - destruct (on_advertisement_known_device address data event_flags address_type
                  rssi w d Hfound) as (_ & _ & Hd & Ha & Hg & _).
      exists d. repeat split; assumption.
    - destruct (on_advertisement_new_device address data event_flags address_type
                  rssi w Hfound Halloc) as (_ & Hd & Ha & Hg & _).
      exists (next_device w). repeat split; assumption. }
  destruct H1 as (d & Hg1 & Ha1 & Hd1).
  destruct (on_advertisement_known_device address data event_flags address_type
              rssi (world x1) d Hg1) as (_ & Hc2 & Hd2 & Ha2 & Hg2 & Hadv2 & Haddr2 & _).
  fold x2 in Hc2, Hd2, Ha2, Hg2, Hadv2, Haddr2.
  split; [exact Ha1|]. split; [exact Hd2|]. split; [exact Ha2|].
  split; [exact Hc2|].
  split.
  { exists d. split; [exact Hg2|]. split; [|split; assumption].
    exact (proj1 (get_device_by_address_In _ _ _ Hg2)). }
  split.
  { intros Hcount. rewrite Ha2, Ha1.
    destruct (get_device_by_address w a) as [d0|] eqn:Hfound.
    - destruct (get_device_by_address_In _ _ _ Hfound) as (_ & _ & Hin).
      apply (count_occ_In string_dec) in Hin. lia.
    - apply get_device_by_address_not_In in Hfound.
      apply (count_occ_not_In string_dec) in Hfound.
      rewrite count_occ_app, Hfound. cbn.
      destruct (string_dec a a); [reflexivity | contradiction]. }
  split.
  { intros Hempty. rewrite Hd2, Hd1.
    unfold get_device_by_address. rewrite Hempty. reflexivity. }
  intros d0 Hfound.
  destruct (on_advertisement_known_device address data event_flags address_type
              rssi w d0 Hfound) as (_ & Hc & Hd & _ & _ & Hadv & _ & Hh & Hi & Hs & Ho).
  fold x1 in Hc, Hd, Hadv, Hh, Hi, Hs, Ho.
  split; [exact Hd|]. split; [exact Hc|]. split; [exact Hadv|].
  split; [exact Hh|]. split; [exact Hi|]. split; [exact Hs | exact Ho].
Qed.

(** C7. After two identical advertisement reports the collection holds a
    device for the (uppercased) address that carries the packet, the
    connectable flag, the address-type and the RSSI of the report.  The first
    report adds the address to the collection's addresses only if it is not
    yet there; the second creates nothing and leaves the collection and its
    addresses as they are.  So an address that occurred at most once occurs
    exactly once afterwards, and from an empty collection there is exactly
    one device.  A report for a known address only overwrites the four fields
    of the existing device.  In every state the controller can reach from its
    initial one the addresses of the collection are pairwise different, so
    there two identical reports leave exactly one device with the address. *)
Theorem on_advertisement_is_idempotent :
  (forall (w : World) (address : string) (data : list byte)
          (event_flags address_type rssi : Z),
    devices_allocated w ->
    let a := upper address in
    let x1 := on_advertisement address data event_flags address_type rssi w in
    let x2 := on_advertisement address data event_flags address_type rssi (world x1) in
    addresses (world x1) =
      match get_device_by_address w a with
      | Some _ => addresses w
      | None => addresses w ++ [a]
      end
    /\ devices (world x2) = devices (world x1)
    /\ addresses (world x2) = addresses (world x1)
    /\ (forall o, ~ In (Create o) (effects x2))
    /\ (exists d,
          get_device_by_address (world x2) a = Some d
          /\ In d (devices (world x2))
          /\ Device.address (device_heap (world x2) d) = a
          /\ advertised (device_heap (world x2) d) data event_flags address_type rssi)
    /\ (count_occ string_dec (addresses w) a <= 1 ->
        count_occ string_dec (addresses (world x2)) a = 1)
    /\ (devices w = [] -> List.length (devices (world x2)) = 1)
    /\ (forall d, get_device_by_address w a = Some d ->
          devices (world x1) = devices w
          /\ (forall o, ~ In (Create o) (effects x1))
          /\ advertised (device_heap (world x1) d) data event_flags address_type rssi
          /\ Device.handle (device_heap (world x1) d) = Device.handle (device_heap w d)
          /\ Device.is_connected (device_heap (world x1) d)
             = Device.is_connected (device_heap w d)
          /\ Device.services (device_heap (world x1) d)
             = Device.services (device_heap w d)
          /\ forall d', d' <> d -> device_heap (world x1) d' = device_heap w d'))
  /\ (forall (l : BGLib) (actions : list Action),
        unique_addresses (perform_all actions (init l)))
  /\ (forall (l : BGLib) (actions : list Action) (address : string)
             (data : list byte) (event_flags address_type rssi : Z),
        let w := perform_all actions (init l) in
        let x1 := on_advertisement address data event_flags address_type rssi w in
        let x2 := on_advertisement address data event_flags address_type rssi (world x1) in
        NoDup (addresses (world x2))
        /\ count_occ string_dec (addresses (world x2)) (upper address) = 1).
Proof.
  assert (Hreach : forall (l : BGLib) (actions : list Action),
             unique_addresses (perform_all actions (init l))).
  { intros l actions. apply perform_all_unique_addresses.
    split; constructor. }
  split; [exact on_advertisement_twice|]. split; [exact Hreach|].
  intros l actions address data event_flags address_type rssi w x1 x2.
  assert (Hw : unique_addresses w) by apply Hreach.
  assert (H2 : unique_addresses (world x2))
    by (do 2 apply on_advertisement_unique_addresses; exact Hw).
  split; [exact (proj2 H2)|].
  destruct (on_advertisement_twice w address data event_flags address_type rssi
              (proj1 Hw)) as (_ & _ & _ & _ & _ & Hcount & _).
  apply Hcount.
  apply (proj1 (NoDup_count_occ string_dec (addresses w)) (proj2 Hw)).
Qed.

Lemma on_advertisement_is_idempotent_witness :
  let x1 := on_advertisement "00:11:22:33:44:55" [x12; x34] 1 1 (-100)
              (init example_lib) in
  let x2 := on_advertisement "00:11:22:33:44:55" [x12; x34] 1 1 (-100) (world x1) in
  List.length (devices (world x2)) = 1
  /\ addresses (world x2) = ["00:11:22:33:44:55"%string].
Proof.
  intros x1 x2.
  assert (Halloc : devices_allocated (init example_lib)) by constructor.
  destruct (proj1 on_advertisement_is_idempotent (init example_lib)
              "00:11:22:33:44:55"%string [x12; x34] 1%Z 1%Z (-100)%Z Halloc)
    as (Ha1 & _ & Ha2 & _ & _ & _ & Hlen & _).
  split; [exact (Hlen eq_refl)|].
  fold x1 x2 in Ha2. rewrite Ha2. fold x1 in Ha1. rewrite Ha1. reflexivity.
Defined.

(** * Further properties of the code *)

(** ** Hexadecimal text *)

Lemma hex_value_upper_ascii (c : ascii) : hex_value (upper_ascii c) = hex_value c.
Proof.
  destruct c as [b0 b1 b2 b3 b4 b5 b6 b7].
  destruct b0, b1, b2, b3, b4, b5, b6, b7; reflexivity.
Qed.

Lemma is_space_upper_ascii (c : ascii) : is_space (upper_ascii c) = is_space c.
Proof.
  destruct c as [b0 b1 b2 b3 b4 b5 b6 b7].
  destruct b0, b1, b2, b3, b4, b5, b6, b7; reflexivity.
Qed.

Lemma upper_ascii_idempotent (c : ascii) : upper_ascii (upper_ascii c) = upper_ascii c.
Proof.
  destruct c as [b0 b1 b2 b3 b4 b5 b6 b7].
  destruct b0, b1, b2, b3, b4, b5, b6, b7; reflexivity.
Qed.

Lemma upper_idempotent (s : string) : upper (upper s) = upper s.
Proof.
  induction s as [|c s IH]; [reflexivity|].
  cbn [upper]. now rewrite upper_ascii_idempotent, IH.
Qed.

Lemma upper_length (s : string) : String.length (upper s) = String.length s.
Proof. induction s as [|c s IH]; [reflexivity | cbn; now rewrite IH]. Qed.

Lemma hex_digit_not_space (c : ascii) : is_hex_digit c = true -> is_space c = false.
Proof.
  destruct c as [b0 b1 b2 b3 b4 b5 b6 b7].
  destruct b0, b1, b2, b3, b4, b5, b6, b7; cbn; intros H;
    reflexivity || discriminate H.
Qed.

Lemma hex_value_digit (c : ascii) (h : N) :
  hex_value c = Some h -> (h < 16)%N /\ upper_ascii (hex_digit h) = upper_ascii c.
Proof.
  destruct c as [b0 b1 b2 b3 b4 b5 b6 b7].
  destruct b0, b1, b2, b3, b4, b5, b6, b7; cbn; intros H;
    try discriminate H; injection H as <-; split; reflexivity.
Qed.

Lemma byte_of_digits (h l : N) :
  (h < 16)%N -> (l < 16)%N ->
  exists b, Byte.of_N (16 * h + l) = Some b
            /\ (Byte.to_N b / 16 = h)%N /\ (Byte.to_N b mod 16 = l)%N.
Proof.
  intros Hh Hl.
  destruct (Byte.of_N (16 * h + l)) as [b|] eqn:Hb.
  - exists b. split; [reflexivity|].
    apply Byte.to_of_N in Hb. rewrite Hb.
    split.
    + symmetry. apply (N.div_unique _ 16 h l); lia.
    + symmetry. apply (N.mod_unique _ 16 h l); lia.
  - apply Byte.of_N_None_iff in Hb. lia.
Qed.

(** Decoding does not look at the case of the letters. *)
Lemma fromhex_upper_bounded (n : nat) :
  forall s : string, String.length s <= n -> fromhex (upper s) = fromhex s.
Proof.
  induction n as [|n IH]; intros s Hlen.
  - destruct s; [reflexivity | cbn in Hlen; lia].
  - destruct s as [|c rest]; [reflexivity|].
    cbn [upper fromhex]. rewrite is_space_upper_ascii.
    cbn in Hlen.
    destruct (is_space c); [apply IH; lia|].
    destruct rest as [|c' rest']; [reflexivity|].
    cbn [upper]. rewrite !hex_value_upper_ascii.
    cbn in Hlen. rewrite (IH rest') by lia. reflexivity.
Qed.

(** Text of an even number of hexadecimal digits decodes to half as many
    bytes, and these bytes print back as the same text in capitals. *)
Lemma fromhex_all_hex_bounded (n : nat) :
  forall s : string,
    String.length s <= n ->
    all_hex s = true ->
    Nat.even (String.length s) = true ->
    exists bs, fromhex s = Some bs
               /\ 2 * List.length bs = String.length s
               /\ upper (hex bs) = upper s.
Proof.
  induction n as [|n IH]; intros s Hlen Hhex Heven.
  - destruct s; [exists []; repeat split | cbn in Hlen; lia].
  - destruct s as [|c rest]; [exists []; repeat split|].
    destruct rest as [|c' rest']; [discriminate Heven|].
    cbn [all_hex] in Hhex.
    apply andb_prop in Hhex. destruct Hhex as [Hc Hhex].
    apply andb_prop in Hhex. destruct Hhex as [Hc' Hhex].
    cbn in Hlen. cbn [String.length] in Heven.
    change (Nat.even (S (S (String.length rest')))) with
      (Nat.even (String.length rest')) in Heven.
    destruct (IH rest' ltac:(lia) Hhex Heven) as (bs & Hbs & Hl & Hu).
    cbn [fromhex]. rewrite (hex_digit_not_space c Hc).
    unfold is_hex_digit in Hc, Hc'.
    destruct (hex_value c) as [h|] eqn:Hh; [|discriminate].
    destruct (hex_value c') as [l|] eqn:Hlo; [|discriminate].
    destruct (hex_value_digit c h Hh) as [Hh16 Hhu].
    destruct (hex_value_digit c' l Hlo) as [Hl16 Hlu].
    destruct (byte_of_digits h l Hh16 Hl16) as (b & Hb & Hdiv & Hmod).
    rewrite Hb, Hbs. exists (b :: bs).
    split; [reflexivity|]. split; [cbn; lia|].
    cbn [hex upper]. rewrite Hdiv, Hmod, Hhu, Hlu, Hu. reflexivity.
Qed.

Lemma all_hex_upper (s : string) : all_hex (upper s) = all_hex s.
Proof.
  induction s as [|c s IH]; [reflexivity|].
  cbn [upper all_hex]. unfold is_hex_digit.
  now rewrite hex_value_upper_ascii, IH.
Qed.

Lemma even_mod_2 (n : nat) : Nat.even n = Nat.eqb (n mod 2) 0.
Proof.
  rewrite <- Nat.bit0_mod, Nat.bit0_odd, <- Nat.negb_even.
  destruct (Nat.even n); reflexivity.
Qed.

Lemma WriteDialog_on_accept_shape (text : string) :
  all_hex text = true ->
  all_hex (WriteDialog_on_accept text) = true
  /\ Nat.even (String.length (WriteDialog_on_accept text)) = true
  /\ upper (WriteDialog_on_accept text) = WriteDialog_on_accept text
  /\ String.length (WriteDialog_on_accept text)
     = String.length text + String.length text mod 2.
Proof.
  intros Hhex. unfold WriteDialog_on_accept.
  rewrite upper_length, <- even_mod_2.
  assert (Hmod : String.length text mod 2
                 = if Nat.even (String.length text) then 0 else 1).
  { rewrite <- Nat.bit0_mod, Nat.bit0_odd, <- Nat.negb_even.
    destruct (Nat.even (String.length text)); reflexivity. }
  rewrite Hmod.
  destruct (Nat.even (String.length text)) eqn:Heven; cbn [negb].
  - rewrite all_hex_upper, upper_length, upper_idempotent.
    repeat split; auto.
  - cbn [all_hex upper String.length]. rewrite all_hex_upper, upper_length, upper_idempotent.
    split; [exact Hhex|]. split; [|split; [reflexivity | lia]].
    rewrite Nat.even_succ, <- Nat.negb_even, Heven. reflexivity.
Qed.

(** ** The gate of the GATT operations *)

(** C5. Each of the four operations does nothing at all when the device is
    busy or not connected: it returns normally, sends no command and leaves
    the world as it is, whatever the characteristic and the payload.  When
    the device is connected and not busy, reading and subscribing send their
    command with the device's and the characteristic's handles and set the
    characteristic's command-state, and so does writing, with the bytes its
    payload decodes to.  The payload always decodes: the operation is called
    by the write button with the packet of the write dialog, which for every
    text of hexadecimal digits, the only text the dialog's validator lets
    through, is valid hexadecimal; so the write issued from the button sends
    its command and sets the state as well. *)
Theorem gatt_operations_are_gated :
  forall (w : World) (device : DeviceRef) (characteristic : CharRef)
         (packet text : string),
    let h := Device.handle (device_heap w device) in
    let ch := Characteristic.handle (characteristic_heap w characteristic) in
    (is_using_gatt_command w device = true
     \/ Device.is_connected (device_heap w device) = false ->
       read_from_characteristic device characteristic w = (Ok tt, w, [])
       /\ write_to_characteristic device characteristic packet w = (Ok tt, w, [])
       /\ on_write_button device characteristic (Some text) w = (Ok tt, w, [])
       /\ subscribe_to_notification device characteristic w = (Ok tt, w, [])
       /\ subscribe_to_indication device characteristic w = (Ok tt, w, []))
    /\ (is_using_gatt_command w device = false ->
        Device.is_connected (device_heap w device) = true ->
        issues (read_from_characteristic device characteristic w) w characteristic
               (bt_gatt_read_characteristic_value h ch) READING []
        /\ issues (subscribe_to_notification device characteristic w) w characteristic
                  (bt_gatt_set_characteristic_notification h ch 1)
                  SUBSCRIBING_NOTIFICATION []
        /\ issues (subscribe_to_indication device characteristic w) w characteristic
                  (bt_gatt_set_characteristic_notification h ch 2)
                  SUBSCRIBING_INDICATION []
        /\ (forall value, fromhex packet = Some value ->
              issues (write_to_characteristic device characteristic packet w) w
                     characteristic
                     (bt_gatt_write_characteristic_value h ch value) WRITING
                     [Mutate (CharacteristicObject characteristic) "packet"])
        /\ (all_hex text = true ->
            exists value,
              fromhex (WriteDialog_on_accept text) = Some value
              /\ issues (on_write_button device characteristic (Some text) w) w
                        characteristic
                        (bt_gatt_write_characteristic_value h ch value) WRITING
                        [Mutate (CharacteristicObject characteristic) "packet"])).
Proof.
  intros w device characteristic packet text h ch. subst h ch.
  assert (Hwrite : forall p value, fromhex p = Some value ->
            is_using_gatt_command w device = false ->
            Device.is_connected (device_heap w device) = true ->
            issues (write_to_characteristic device characteristic p w) w
              characteristic
              (bt_gatt_write_characteristic_value
                 (Device.handle (device_heap w device))
                 (Characteristic.handle (characteristic_heap w characteristic)) value)
              WRITING [Mutate (CharacteristicObject characteristic) "packet"]).
  { intros p value Hvalue Hbusy Hconn.
    unfold write_to_characteristic, bind, gets. rewrite Hbusy, Hconn, Hvalue.
    unfold issues. cbn. rewrite !update_same. cbn.
    repeat (split; [reflexivity|]).
    split; [|repeat split].
    intros c' Hc. rewrite !update_other by exact Hc. reflexivity. }
  split.
  - intros Hgate.
    unfold on_write_button, read_from_characteristic, write_to_characteristic,
      subscribe_to_notification, subscribe_to_indication, bind, gets.
    destruct (is_using_gatt_command w device); [repeat split|].
    destruct Hgate as [Hbusy|Hconn]; [discriminate|].
    rewrite Hconn. repeat split.
  - intros Hbusy Hconn.
    split; [|split; [|split; [|split]]].
    + unfold read_from_characteristic, bind, gets. rewrite Hbusy, Hconn.
      apply issues_state_write.
    + unfold subscribe_to_notification, bind, gets. rewrite Hbusy, Hconn.
      apply issues_state_write.
    + unfold subscribe_to_indication, bind, gets. rewrite Hbusy, Hconn.
      apply issues_state_write.
    + intros value Hvalue. now apply Hwrite.
    + intros Hhex.
      destruct (WriteDialog_on_accept_shape text Hhex) as (Hall & Heven & _).
      destruct (fromhex_all_hex_bounded _ (WriteDialog_on_accept text) (le_n _)
                  Hall Heven) as (value & Hvalue & _).
      exists value. split; [exact Hvalue|].
      unfold on_write_button. now apply Hwrite.
Qed.

Lemma gatt_operations_are_gated_witness :
  issues (read_from_characteristic 0 0 discovered) discovered 0
         (bt_gatt_read_characteristic_value (Some 1%Z) 3) READING []
  /\ read_from_characteristic 0 0 (world (read_from_characteristic 0 0 discovered))
     = (Ok tt, world (read_from_characteristic 0 0 discovered), [])
  /\ exists value,
       fromhex (WriteDialog_on_accept "abc") = Some value
       /\ issues (on_write_button 0 0 (Some "abc"%string) discovered) discovered 0
                 (bt_gatt_write_characteristic_value (Some 1%Z) 3 value) WRITING
                 [Mutate (CharacteristicObject 0) "packet"].
Proof.
  split; [|split].
  - exact (proj1 (proj2 (gatt_operations_are_gated discovered 0 0 "" "abc")
                    eq_refl eq_refl)).
  - exact (proj1 (proj1 (gatt_operations_are_gated
                           (world (read_from_characteristic 0 0 discovered)) 0 0
                           "" "abc")
                        (or_introl eq_refl))).
  - destruct (proj2 (gatt_operations_are_gated discovered 0 0 "" "abc")
                eq_refl eq_refl) as (_ & _ & _ & _ & Hw).
    exact (Hw eq_refl).
Defined.



Lemma fromhex_upper (s : string) : fromhex (upper s) = fromhex s.
Proof. exact (fromhex_upper_bounded (String.length s) s (le_n _)). Qed.

Lemma hex_length (bs : list byte) : String.length (hex bs) = 2 * List.length bs.
Proof.
  induction bs as [|b bs IH]; [reflexivity|].
  cbn [hex String.length List.length]. rewrite IH. lia.
Qed.

Lemma on_characteristic_value_target (w : World) (connection characteristic att_opcode : Z)
    (value : list byte) (c : CharRef) :
  value_target w connection characteristic = Some c ->
  world (on_characteristic_value connection characteristic att_opcode value w)
  = world (write_characteristic c "packet" (Characteristic.set_packet (hex value)) w).
Proof.
  unfold value_target, on_characteristic_value, bind, gets. intros H.
  destruct (att_opcode =? ATT_OPCODE_HANDLE_VALUE_INDICATION (lib w))%Z;
    cbn -[hex];
    (destruct (get_device_by_handle w connection) as [d|]; [|discriminate]);
    cbn -[hex]; rewrite H; reflexivity.
Qed.

(** X2. The text a value report leaves in the targeted characteristic
    decodes to the reported bytes, also after the write dialog has put it in
    capitals (the decoder does not look at the case of the letters).  Writing
    that text back to the characteristic, on a connected device that is not
    busy, therefore sends exactly the bytes that were reported. *)
Theorem reported_value_writes_back :
  forall (w : World) (connection characteristic att_opcode : Z) (value : list byte)
         (c : CharRef) (device : DeviceRef),
    value_target w connection characteristic = Some c ->
    let w1 := world (on_characteristic_value connection characteristic att_opcode value w) in
    let text := Characteristic.packet (characteristic_heap w1 c) in
    fromhex text = Some value
    /\ fromhex (WriteDialog_on_accept text) = Some value
    /\ (forall s : string, fromhex (upper s) = fromhex s)
    /\ (is_using_gatt_command w1 device = false ->
        Device.is_connected (device_heap w1 device) = true ->
        effects (write_to_characteristic device c text w1) =
        [Call (bt_gatt_write_characteristic_value
                 (Device.handle (device_heap w1 device))
                 (Characteristic.handle (characteristic_heap w c)) value);
         Mutate (CharacteristicObject c) "state";
         Mutate (CharacteristicObject c) "packet"]).
Proof.
  intros w connection characteristic att_opcode value c device Htarget w1 text.
  assert (Htext : text = hex value).
  { subst text w1. rewrite (on_characteristic_value_target _ _ _ _ _ _ Htarget).
    cbn. now rewrite update_same. }
  assert (Hhandle : Characteristic.handle (characteristic_heap w1 c)
                    = Characteristic.handle (characteristic_heap w c)).
  { subst w1. rewrite (on_characteristic_value_target _ _ _ _ _ _ Htarget).
    cbn. now rewrite update_same. }
  split; [rewrite Htext; apply fromhex_hex|].
  split.
  { rewrite Htext. unfold WriteDialog_on_accept.
    rewrite upper_length, hex_length, Nat.mul_comm, Nat.Div0.mod_mul. cbn [Nat.eqb negb].
    rewrite fromhex_upper. apply fromhex_hex. }
  split; [exact fromhex_upper|].
  intros Hbusy Hconn.
  unfold write_to_characteristic, bind, gets.
  rewrite Hbusy, Hconn, Hhandle, Htext, fromhex_hex. reflexivity.
Qed.

Lemma reported_value_writes_back_witness :
  let w1 := world (on_characteristic_value 1 3 29 [x12; xab] discovered) in
  fromhex (Characteristic.packet (characteristic_heap w1 0)) = Some [x12; xab]
  /\ fromhex (WriteDialog_on_accept (Characteristic.packet (characteristic_heap w1 0)))
     = Some [x12; xab].
Proof.
  intros w1.
  destruct (reported_value_writes_back discovered 1 3 29 [x12; xab] 0 0 eq_refl)
    as (H1 & H2 & _).
  split; [exact H1 | exact H2].
Defined.

(** ** Events that match nothing *)

Lemma on_characteristic_loop_first_discovering (ss : list ServiceRef) (uuid : string)
    (characteristic properties : Z) (w : World) :
  on_characteristic_loop ss uuid characteristic properties w =
  match find (fun s => ServiceState_eqb (Service.state (service_heap w s)) DISCOVERING) ss with
  | Some s =>
      (c <- new_characteristic (Characteristic.init uuid characteristic properties) ;;
       write_service s "characteristics" (Service.append_characteristic c)) w
  | None => (Ok tt, w, [])
  end.
Proof.
  induction ss as [|s ss IH]; [reflexivity|].
  cbn [on_characteristic_loop find]. unfold bind at 1, gets at 1.
  destruct (ServiceState_eqb (Service.state (service_heap w s)) DISCOVERING).
  - reflexivity.
  - rewrite IH. destruct (find _ ss); [|reflexivity].
    cbn -[upper hex]. reflexivity.
Qed.

(** X3. An event whose connection handle no device of the collection holds
    is dropped: a ServiceDiscovered, CharacteristicDiscovered,
    ProcedureCompleted or ConnectionClosed event returns normally, sends
    nothing and leaves the world as it is, and so does a ConnectionOpened
    event whose address no device has.  A value report that resolves to no
    characteristic (unknown connection, or unknown characteristic handle)
    changes nothing either, but an indication is still confirmed.  A device
    that holds no handle is never the one an event resolves to. *)
Theorem unmatched_events_are_dropped :
  forall (w : World) (connection : Z),
    (get_device_by_handle w connection = None ->
       (forall uuid service, on_service connection uuid service w = (Ok tt, w, []))
       /\ (forall uuid characteristic properties,
             on_characteristic connection uuid characteristic properties w
             = (Ok tt, w, []))
       /\ on_procedure_completed connection w = (Ok tt, w, [])
       /\ on_connection_closed connection w = (Ok tt, w, []))
    /\ (forall address,
          get_device_by_address w (upper address) = None ->
          on_connection_opened address connection w = (Ok tt, w, []))
    /\ (forall characteristic att_opcode value,
          value_target w connection characteristic = None ->
          on_characteristic_value connection characteristic att_opcode value w
          = (Ok tt, w,
             if (att_opcode =? ATT_OPCODE_HANDLE_VALUE_INDICATION (lib w))%Z
             then [Call (bt_gatt_send_characteristic_confirmation connection)]
             else []))
    /\ (forall d, get_device_by_handle w connection = Some d ->
          In d (devices w) /\ Device.handle (device_heap w d) = Some connection)
    /\ (get_device_by_handle w connection = None <->
        forall d, In d (devices w) ->
                  Device.handle (device_heap w d) <> Some connection).
Proof.
  intros w connection. split; [|split; [|split; [|split]]].
  - intros Hnone.
    unfold on_service, on_characteristic, on_procedure_completed,
      on_connection_closed, bind, gets.
    rewrite Hnone. repeat split.
  - intros address Hnone. unfold on_connection_opened, bind, gets.
    now rewrite Hnone.
  - intros characteristic att_opcode value Hnone.
    unfold value_target in Hnone.
    unfold on_characteristic_value, bind, gets.
    destruct (att_opcode =? ATT_OPCODE_HANDLE_VALUE_INDICATION (lib w))%Z;
      cbn -[hex];
      (destruct (get_device_by_handle w connection) as [d|];
       [rewrite Hnone|]; reflexivity).
  - intros d Hd. apply find_some in Hd. destruct Hd as [Hin Hh].
    split; [exact Hin|].
    destruct (Device.handle (device_heap w d)) as [h|]; [|discriminate].
    cbn in Hh. apply Z.eqb_eq in Hh. now subst h.
  - split.
    + intros Hnone d Hin Hh.
      assert (Hf := find_none _ _ Hnone d Hin). cbn in Hf.
      rewrite Hh in Hf. cbn in Hf. rewrite Z.eqb_refl in Hf. discriminate.
    + intros Hall.
      destruct (get_device_by_handle w connection) as [d|] eqn:Hd; [|reflexivity].
      apply find_some in Hd. destruct Hd as [Hin Hh]. exfalso.
      apply (Hall d Hin).
      destruct (Device.handle (device_heap w d)) as [h|]; [|discriminate].
      cbn in Hh. apply Z.eqb_eq in Hh. now subst h.
Qed.

Lemma unmatched_events_are_dropped_witness :
  on_procedure_completed 7 discovered = (Ok tt, discovered, [])
  /\ on_characteristic_value 1 99 29 [x01] discovered
     = (Ok tt, discovered, [Call (bt_gatt_send_characteristic_confirmation 1)]).
Proof.
  destruct (unmatched_events_are_dropped discovered 7) as (H & _).
  destruct (unmatched_events_are_dropped discovered 1) as (_ & _ & Hv & _).
  split; [exact (proj1 (proj2 (proj2 (H eq_refl))))|].
  exact (Hv 99%Z 29%Z [x01] eq_refl).
Defined.

(** ** Discovered characteristics *)

(** X4. A CharacteristicDiscovered event that resolves to a device creates
    one Characteristic and appends it to the first of the device's services
    that is in Discovering state, whatever services come after it; the new
    characteristic has the event's UUID bytes reversed in capital hexadecimal,
    the event's handle and properties, is Idle and has an empty value, and
    nothing else changes.  When no service of the device is Discovering the
    event is dropped. *)
Theorem on_characteristic_appends_to_first_discovering :
  forall (w : World) (connection : Z) (uuid : list byte)
         (characteristic properties : Z) (device : DeviceRef),
    get_device_by_handle w connection = Some device ->
    let x := on_characteristic connection uuid characteristic properties w in
    let c := next_characteristic w in
    match find (fun s => ServiceState_eqb (Service.state (service_heap w s)) DISCOVERING)
               (services_of w device) with
    | Some s =>
        result x = Ok tt
        /\ effects x = [Create (CharacteristicObject c);
                        Mutate (ServiceObject s) "characteristics"]
        /\ Service.characteristics (service_heap (world x) s)
           = Service.characteristics (service_heap w s) ++ [c]
        /\ Service.state (service_heap (world x) s) = DISCOVERING
        /\ characteristic_heap (world x) c
           = Characteristic.mk (uppercase_hex (rev uuid)) characteristic properties NONE ""
        /\ (forall s', s' <> s -> service_heap (world x) s' = service_heap w s')
        /\ (forall c', c' <> c -> characteristic_heap (world x) c' = characteristic_heap w c')
        /\ device_heap (world x) = device_heap w
        /\ next_characteristic (world x) = S c
    | None => x = (Ok tt, w, [])
    end.
Proof.
  intros w connection uuid characteristic properties device Hdev x c.
  assert (Hx : x = on_characteristic_loop (services_of w device)
                     (upper (hex (rev uuid))) characteristic properties w).
  { subst x. unfold on_characteristic, bind, gets. rewrite Hdev.
    destruct (on_characteristic_loop _ _ _ _ w) as [[r w1] t1]. reflexivity. }
  rewrite Hx, on_characteristic_loop_first_discovering. clear Hx x. subst c.
  destruct (find _ (services_of w device)) as [s|] eqn:Hfind; [|reflexivity].
  apply find_some in Hfind. destruct Hfind as [_ Hst].
  unfold bind. cbn -[upper hex rev]. rewrite !update_same. cbn -[upper hex rev].
  rewrite upper_hex.
  split; [reflexivity|]. split; [reflexivity|]. split; [reflexivity|].
  split; [destruct (Service.state (service_heap w s)); [reflexivity | discriminate]|].
  split; [reflexivity|].
  split; [intros s' Hne; now apply update_other|].
  split; [intros c' Hne; now apply update_other|].
  split; reflexivity.
Qed.

Lemma on_characteristic_appends_to_first_discovering_witness :
  let x := on_characteristic 1 [x00; x2a] 5 10 reconnected in
  Service.characteristics (service_heap (world x) 2) = [1]
  /\ characteristic_heap (world x) 1 = Characteristic.mk "2A00" 5 10 NONE "".
Proof.
  intros x.
  assert (H := on_characteristic_appends_to_first_discovering reconnected 1
                 [x00; x2a] 5 10 0 eq_refl).
  cbn zeta in H.
  change (find _ (services_of reconnected 0)) with (Some 2) in H.
  destruct H as (_ & _ & Hs & _ & Hc & _).
  split; [exact Hs | exact Hc].
Defined.

(** ** The life of a connection *)

Lemma find_only {A : Type} (f : A -> bool) (l : list A) (a : A) :
  In a l -> f a = true ->
  (forall b, In b l -> f b = true -> b = a) ->
  find f l = Some a.
Proof.
  intros Hin Ha Honly.
  destruct (find f l) as [b|] eqn:Hf.
  - apply find_some in Hf. destruct Hf as [Hb Hfb].
    now rewrite (Honly b Hb Hfb).
  - rewrite (find_none _ _ Hf a Hin) in Ha. discriminate.
Qed.

Lemma find_all_false {A : Type} (f : A -> bool) (l : list A) :
  (forall b, In b l -> f b = false) -> find f l = None.
Proof.
  intros H. destruct (find f l) as [b|] eqn:Hf; [|reflexivity].
  apply find_some in Hf. destruct Hf as [Hb Hfb].
  rewrite (H b Hb) in Hfb. discriminate.
Qed.

Lemma existsb_all_false {A : Type} (f : A -> bool) (l : list A) :
  (forall b, In b l -> f b = false) -> existsb f l = false.
Proof.
  intros H. destruct (existsb f l) eqn:He; [|reflexivity].
  apply existsb_exists in He. destruct He as (b & Hb & Hfb).
  rewrite (H b Hb) in Hfb. discriminate.
Qed.

Lemma existsb_false_In {A : Type} (f : A -> bool) (l : list A) (a : A) :
  existsb f l = false -> In a l -> f a = false.
Proof.
  intros He Hin. destruct (f a) eqn:Hfa; [|reflexivity].
  assert (H : existsb f l = true) by (apply existsb_exists; exists a; now split).
  rewrite H in He. discriminate.
Qed.

Lemma handle_eqb_true (h : option Z) (handle : Z) :
  handle_eqb h handle = true <-> h = Some handle.
Proof.
  destruct h as [x|]; cbn; [|split; discriminate].
  rewrite Z.eqb_eq. split; [now intros -> | now intros [= ->]].
Qed.

(** X5. One connection, from request to close.  With no connection attempt
    in flight, connecting a device of the collection sends one open command
    with the device's address, its address-type and the 1M PHY, and stores
    the handle of the response without touching the connection flag.  The
    ConnectionOpened event for the device's address then marks it connected
    and asks for its primary services; the device's button reads Disconnect,
    and disconnecting sends one close command for the handle and changes
    nothing.  If no other device holds that handle, the ConnectionClosed
    event clears the flag and the handle and keeps the services; afterwards
    disconnecting does nothing, no event for the old handle resolves to a
    device any more, and no attempt is in flight, so a new connection can be
    requested. *)
Theorem connection_round_trip :
  forall (w : World) (d : DeviceRef) (address : string) (h : Z),
    get_device_by_address w (upper address) = Some d ->
    existsb (is_connecting w) (devices w) = false ->
    (forall d', In d' (devices w) -> d' <> d ->
                Device.handle (device_heap w d') <> Some h) ->
    let x1 := connect_device d h w in
    let w1 := world x1 in
    let x2 := on_connection_opened address h w1 in
    let w2 := world x2 in
    let x3 := on_connection_closed h w2 in
    let w3 := world x3 in
    effects x1 =
      [Call (bt_connection_open (Device.address (device_heap w d))
                                (Device.address_type (device_heap w d))
                                (PHY_PHY_1M (lib w)));
       Mutate (DeviceObject d) "handle"]
    /\ Device.handle (device_heap w1 d) = Some h
    /\ Device.is_connected (device_heap w1 d) = Device.is_connected (device_heap w d)
    /\ effects x2 = [Mutate (DeviceObject d) "is_connected";
                     Call (bt_gatt_discover_primary_services h)]
    /\ Device.is_connected (device_heap w2 d) = true
    /\ DeviceWidget_button_text w2 d = "Disconnect"%string
    /\ disconnect_device d w2 = (Ok tt, w2, [Call (bt_connection_close h)])
    /\ effects x3 = [Mutate (DeviceObject d) "is_connected";
                     Mutate (DeviceObject d) "handle"]
    /\ Device.handle (device_heap w3 d) = None
    /\ Device.is_connected (device_heap w3 d) = false
    /\ services_of w3 d = services_of w d
    /\ DeviceWidget_button_text w3 d = "Connect"%string
    /\ disconnect_device d w3 = (Ok tt, w3, [])
    /\ get_device_by_handle w3 h = None
    /\ existsb (is_connecting w3) (devices w3) = false.
Proof.
  intros w d address h Haddr Hnone Hothers x1 w1 x2 w2 x3 w3.
  destruct (get_device_by_address_In _ _ _ Haddr) as (Hin & _ & _).
  (* the connection request *)
  assert (Hx1 : x1 = (Ok tt,
                      world (write_device d "handle" (Device.set_handle (Some h)) w),
                      [Call (bt_connection_open (Device.address (device_heap w d))
                                                (Device.address_type (device_heap w d))
                                                (PHY_PHY_1M (lib w)));
                       Mutate (DeviceObject d) "handle"])).
  { subst x1. unfold connect_device, bind, gets. rewrite Hnone. reflexivity. }
  assert (Hd1 : device_heap w1 d = Device.set_handle (Some h) (device_heap w d))
    by (subst w1; rewrite Hx1; cbn; apply update_same).
  assert (Ho1 : forall d', d' <> d -> device_heap w1 d' = device_heap w d')
    by (intros d' Hne; subst w1; rewrite Hx1; cbn; now apply update_other).
  assert (Hl1 : devices w1 = devices w) by (subst w1; rewrite Hx1; reflexivity).
  (* the connection opens *)
  assert (Haddr1 : get_device_by_address w1 (upper address) = Some d).
  { rewrite <- Haddr. unfold get_device_by_address. rewrite Hl1.
    apply find_ext_in. intros d' _.
    destruct (Nat.eq_dec d' d) as [->|Hne]; [now rewrite Hd1 | now rewrite Ho1]. }
  assert (Hx2 : x2 = (Ok tt,
                      world (write_device d "is_connected"
                               (Device.set_is_connected true) w1),
                      [Mutate (DeviceObject d) "is_connected";
                       Call (bt_gatt_discover_primary_services h)])).
  { subst x2. unfold on_connection_opened, bind, gets. rewrite Haddr1. reflexivity. }
  assert (Hd2 : device_heap w2 d
                = Device.set_is_connected true (Device.set_handle (Some h) (device_heap w d)))
    by (subst w2; rewrite Hx2; cbn; rewrite update_same; now rewrite Hd1).
  assert (Ho2 : forall d', d' <> d -> device_heap w2 d' = device_heap w d').
  { intros d' Hne. subst w2. rewrite Hx2. cbn. rewrite update_other by exact Hne.
    now apply Ho1. }
  assert (Hl2 : devices w2 = devices w) by (subst w2; rewrite Hx2; exact Hl1).
  (* the connection closes *)
  assert (Hh2 : get_device_by_handle w2 h = Some d).
  { unfold get_device_by_handle. rewrite Hl2. apply find_only.
    - exact Hin.
    - rewrite Hd2. cbn. apply Z.eqb_refl.
    - intros d' Hin' Hh'. destruct (Nat.eq_dec d' d) as [->|Hne]; [reflexivity|].
      rewrite (Ho2 d' Hne) in Hh'. apply handle_eqb_true in Hh'.
      exfalso. exact (Hothers d' Hin' Hne Hh'). }
  assert (Hx3 : x3 = (Ok tt,
                      world ((write_device d "is_connected"
                                (Device.set_is_connected false) ;;
                              write_device d "handle" (Device.set_handle None)) w2),
                      [Mutate (DeviceObject d) "is_connected";
                       Mutate (DeviceObject d) "handle"])).
  { subst x3. unfold on_connection_closed, bind, gets. rewrite Hh2. reflexivity. }
  assert (Hd3 : device_heap w3 d
                = Device.set_handle None
                    (Device.set_is_connected false (device_heap w2 d)))
    by (subst w3; rewrite Hx3; cbn; now rewrite !update_same).
  assert (Ho3 : forall d', d' <> d -> device_heap w3 d' = device_heap w d').
  { intros d' Hne. subst w3. rewrite Hx3. cbn. rewrite !update_other by exact Hne.
    now apply Ho2. }
  assert (Hl3 : devices w3 = devices w) by (subst w3; rewrite Hx3; exact Hl2).
  split; [now rewrite Hx1|]. split; [now rewrite Hd1|]. split; [now rewrite Hd1|].
  split; [now rewrite Hx2|]. split; [now rewrite Hd2|].
  split; [unfold DeviceWidget_button_text; now rewrite Hd2|].
  split; [unfold disconnect_device, bind, gets; now rewrite Hd2|].
  split; [now rewrite Hx3|]. split; [now rewrite Hd3|]. split; [now rewrite Hd3|].
  split; [unfold services_of; now rewrite Hd3, Hd2|].
  split; [unfold DeviceWidget_button_text; now rewrite Hd3|].
  split; [unfold disconnect_device, bind, gets; now rewrite Hd3|].
  split.
  - unfold get_device_by_handle. rewrite Hl3. apply find_all_false.
    intros d' Hin'. destruct (Nat.eq_dec d' d) as [->|Hne]; [now rewrite Hd3|].
    rewrite (Ho3 d' Hne).
    destruct (handle_eqb (Device.handle (device_heap w d')) h) eqn:E; [|reflexivity].
    apply handle_eqb_true in E. exfalso. exact (Hothers d' Hin' Hne E).
  - rewrite Hl3. apply existsb_all_false.
    intros d' Hin'. unfold is_connecting.
    destruct (Nat.eq_dec d' d) as [->|Hne]; [now rewrite Hd3|].
    rewrite (Ho3 d' Hne). exact (existsb_false_In _ _ _ Hnone Hin').
Qed.

Lemma connection_round_trip_witness :
  let w := world (on_advertisement "00:11:22:33:44:55" [] 1 1 (-100) (init example_lib)) in
  let w1 := world (connect_device 0 4 w) in
  let w2 := world (on_connection_opened "00:11:22:33:44:55" 4 w1) in
  let w3 := world (on_connection_closed 4 w2) in
  disconnect_device 0 w2 = (Ok tt, w2, [Call (bt_connection_close 4)])
  /\ Device.handle (device_heap w3 0) = None
  /\ get_device_by_handle w3 4 = None.
Proof.
  intros w w1 w2 w3.
  assert (Ha : get_device_by_address w (upper "00:11:22:33:44:55") = Some 0)
    by reflexivity.
  assert (Ho : forall d', In d' (devices w) -> d' <> 0 ->
                          Device.handle (device_heap w d') <> Some 4%Z).
  { intros d' [<-|[]] Hne. now elim Hne. }
  destruct (connection_round_trip w 0 "00:11:22:33:44:55" 4 Ha eq_refl Ho)
    as (_ & _ & _ & _ & _ & _ & Hdis & _ & Hh & _ & _ & _ & _ & Hg & _).
  split; [exact Hdis|]. split; [exact Hh | exact Hg].
Defined.

(** ** A connection attempt that is never answered *)

Lemma perform_keeps_attempt (a : Action) (w : World) (A : DeviceRef) :
  In A (devices w) ->
  devices_allocated w ->
  is_connecting w A = true ->
  ~ ends_attempt a w A ->
  In A (devices (world (perform a w)))
  /\ is_connecting (world (perform a w)) A = true.
Proof.
  intros Hin Halloc Hc Hends.
  assert (Hsame : forall w', devices w' = devices w -> device_heap w' = device_heap w ->
                             In A (devices w') /\ is_connecting w' A = true).
  { intros w' Hd Hh. rewrite Hd. split; [exact Hin|].
    unfold is_connecting in *. now rewrite Hh. }
  destruct a as [e | device response | device | device c | device c packet
                | device c | device c]; cbn [perform].
  - destruct e as [address data event_flags address_type rssi | | address connection
                  | connection | connection uuid service
                  | connection uuid characteristic properties
                  | connection characteristic att_opcode value | connection | name];
      cbn [dispatch].
    + (* advertisement *)
      destruct (get_device_by_address w (upper address)) as [d|] eqn:Hfound.
      * destruct (on_advertisement_known_device address data event_flags address_type
                    rssi w d Hfound) as (_ & _ & Hd & _ & _ & _ & _ & Hh & Hi & _ & Ho).
        rewrite Hd. split; [exact Hin|].
        unfold is_connecting in *.
        destruct (Nat.eq_dec A d) as [->|Hne]; [now rewrite Hh, Hi | now rewrite Ho].
      * destruct (on_advertisement_new_device address data event_flags address_type
                    rssi w Hfound Halloc) as (_ & Hd & _ & _ & _ & Ho).
        rewrite Hd. split; [apply in_or_app; now left|].
        unfold is_connecting in *. rewrite Ho; [exact Hc|].
        unfold devices_allocated in Halloc. rewrite Forall_forall in Halloc.
        specialize (Halloc A Hin). lia.
    + apply Hsame; reflexivity.
    + (* connection opened *)
      cbn in Hends. unfold on_connection_opened, bind, gets.
      destruct (get_device_by_address w (upper address)) as [d|];
        [|apply Hsame; reflexivity].
      assert (Hne : A <> d) by (intros ->; now elim Hends).
      split; [exact Hin|].
      unfold is_connecting in *. cbn.
      rewrite !update_other by exact Hne. exact Hc.
    + (* connection closed *)
      cbn in Hends. unfold on_connection_closed, bind, gets.
      destruct (get_device_by_handle w connection) as [d|];
        [|apply Hsame; reflexivity].
      assert (Hne : A <> d) by (intros ->; now elim Hends).
      split; [exact Hin|].
      unfold is_connecting in *. cbn.
      rewrite !update_other by exact Hne. exact Hc.
    + (* service *)
      unfold on_service, bind, gets.
      destruct (get_device_by_handle w connection) as [d|];
        [|apply Hsame; reflexivity].
      split; [exact Hin|].
      unfold is_connecting in *. cbn -[upper hex rev]. unfold update.
      destruct (Nat.eqb_spec A d) as [->|Hne]; exact Hc.
    + (* characteristic *)
      unfold on_characteristic, bind, gets.
      destruct (get_device_by_handle w connection) as [d|];
        [|apply Hsame; reflexivity].
      destruct (on_characteristic_loop_devices (services_of w d)
                  (upper (hex (rev uuid))) characteristic properties w) as [Hd Hh].
      destruct (on_characteristic_loop _ _ _ _ w) as [[r w1] t1].
      apply Hsame; assumption.
    + (* characteristic value *)
      unfold on_characteristic_value, bind, gets.
      destruct (att_opcode =? ATT_OPCODE_HANDLE_VALUE_INDICATION (lib w))%Z;
        cbn -[hex];
        (destruct (get_device_by_handle w connection) as [d|]; cbn -[hex];
         [destruct (Device_get_characteristic_by_handle w d characteristic);
          cbn -[hex]|]);
        (split; [exact Hin | exact Hc]).
    + (* procedure completed *)
      destruct (get_device_by_handle w connection) as [d|] eqn:Hd.
      * rewrite (on_procedure_completed_resolved w connection d Hd).
        destruct (first_pending_marker w d) as [[s|c]|]; apply Hsame; reflexivity.
      * unfold on_procedure_completed, bind, gets. rewrite Hd.
        apply Hsame; reflexivity.
    + apply Hsame; reflexivity.
  - rewrite (connect_device_blocked w A device response Hin Hc). now split.
  - unfold disconnect_device, bind, gets.
    destruct (Device.handle (device_heap w device)); now split.
  - unfold read_from_characteristic, bind, gets.
    destruct (is_using_gatt_command w device);
      [|destruct (Device.is_connected (device_heap w device))];
      apply Hsame; reflexivity.
  - unfold write_to_characteristic, bind, gets.
    destruct (is_using_gatt_command w device);
      [|destruct (Device.is_connected (device_heap w device));
        [destruct (fromhex packet)|]];
      apply Hsame; reflexivity.
  - unfold subscribe_to_notification, bind, gets.
    destruct (is_using_gatt_command w device);
      [|destruct (Device.is_connected (device_heap w device))];
      apply Hsame; reflexivity.
  - unfold subscribe_to_indication, bind, gets.
    destruct (is_using_gatt_command w device);
      [|destruct (Device.is_connected (device_heap w device))];
      apply Hsame; reflexivity.
Qed.

(** X6. A connection attempt is only ended by the module: while a device of
    the collection holds a handle without being connected, every event and
    every public operation leaves it so, except a ConnectionOpened event
    that resolves to it by address and a ConnectionClosed event that resolves
    to it by handle.  Until one of these arrives its button reads
    Connecting... and every connection request, for any device, is refused
    without a command: nothing in the controller times the attempt out. *)
Theorem unanswered_attempt_blocks_connecting :
  forall (actions : list Action) (w : World) (A : DeviceRef),
    unique_addresses w ->
    In A (devices w) ->
    is_connecting w A = true ->
    attempt_goes_on actions w A ->
    let w' := perform_all actions w in
    In A (devices w')
    /\ is_connecting w' A = true
    /\ DeviceWidget_button_text w' A = "Connecting..."%string
    /\ forall (B : DeviceRef) (response_connection : Z),
         connect_device B response_connection w' = (Ok tt, w', [])
         /\ on_connect_button A response_connection w' = (Ok tt, w', []).
Proof.
  induction actions as [|a rest IH]; intros w A Hinv Hin Hc Hgoes.
  - cbn. split; [exact Hin|]. split; [exact Hc|].
    unfold is_connecting in Hc.
    assert (Htext : DeviceWidget_button_text w A = "Connecting..."%string).
    { unfold DeviceWidget_button_text.
      destruct (Device.handle (device_heap w A)); [|discriminate].
      destruct (Device.is_connected (device_heap w A)); [discriminate | reflexivity]. }
    split; [exact Htext|].
    intros B response.
    assert (Hblocked : forall B', connect_device B' response w = (Ok tt, w, [])).
    { intros B'. apply (connect_device_blocked w A B' response Hin).
      unfold is_connecting. exact Hc. }
    split; [apply Hblocked|].
    unfold on_connect_button.
    assert (E : Device.is_connected (device_heap w A) = false).
    { destruct (Device.handle (device_heap w A)); [|discriminate].
      destruct (Device.is_connected (device_heap w A)); [discriminate | reflexivity]. }
    unfold bind, gets. rewrite E, (Hblocked A). reflexivity.
  - cbn [attempt_goes_on] in Hgoes. destruct Hgoes as [Hnot Hrest].
    destruct (perform_keeps_attempt a w A Hin (proj1 Hinv) Hc Hnot) as [Hin' Hc'].
    cbn [perform_all].
    exact (IH _ A (perform_unique_addresses a w Hinv) Hin' Hc' Hrest).
Qed.

Lemma unanswered_attempt_blocks_connecting_witness :
  let w := perform_all
             [Deliver (bt_evt_scanner_legacy_advertisement_report
                         "00:11:22:33:44:55" [] 1 1 (-100));
              Deliver (bt_evt_scanner_legacy_advertisement_report
                         "66:77:88:99:AA:BB" [] 1 0 (-60));
              ConnectDevice 0 1] (init example_lib) in
  let w' := perform_all [ConnectDevice 1 2;
                         Deliver (bt_evt_connection_opened "66:77:88:99:aa:bb" 2);
                         Deliver (bt_evt_gatt_procedure_completed 1);
                         DisconnectDevice 0] w in
  is_connecting w' 0 = true
  /\ connect_device 1 5 w' = (Ok tt, w', []).
Proof.
  intros w w'.
  assert (Hinv : unique_addresses w).
  { apply perform_all_unique_addresses. split; constructor. }
  assert (Hin : In 0 (devices w)) by (vm_compute; tauto).
  assert (Hc0 : is_connecting w 0 = true) by (vm_compute; reflexivity).
  assert (Hgoes : attempt_goes_on
                    [ConnectDevice 1 2;
                     Deliver (bt_evt_connection_opened "66:77:88:99:aa:bb" 2);
                     Deliver (bt_evt_gatt_procedure_completed 1);
                     DisconnectDevice 0] w 0).
  { cbn [attempt_goes_on ends_attempt]. repeat split; try tauto.
    vm_compute. discriminate. }
  destruct (unanswered_attempt_blocks_connecting _ w 0 Hinv Hin Hc0 Hgoes)
    as (_ & Hc & _ & Hb).
  split; [exact Hc | exact (proj1 (Hb 1 5%Z))].
Defined.

(** ** The collection is a forest *)

Lemma flat_map_ext_in {A B : Type} (f g : A -> list B) (l : list A) :
  (forall a, In a l -> f a = g a) -> flat_map f l = flat_map g l.
Proof.
  induction l as [|a l IH]; intros H; [reflexivity|].
  cbn [flat_map]. rewrite (H a (or_introl eq_refl)). f_equal.
  apply IH. intros b Hb. apply H. now right.
Qed.

Lemma flat_map_update_perm {A B : Type} (f f' : A -> list B) (l : list A) (a : A)
    (xs : list B) :
  NoDup l -> In a l ->
  f' a = f a ++ xs ->
  (forall b, In b l -> b <> a -> f' b = f b) ->
  Permutation (flat_map f' l) (flat_map f l ++ xs).
Proof.
  induction l as [|b l IH]; intros Hnd Hin Ha Hother; [contradiction|].
  apply NoDup_cons_iff in Hnd. destruct Hnd as [Hb Hnd].
  cbn [flat_map]. destruct Hin as [->|Hin].
  - rewrite Ha.
    assert (Hrest : flat_map f' l = flat_map f l).
    { apply flat_map_ext_in. intros b Hbin. apply Hother; [now right|].
      intros ->. contradiction. }
    rewrite Hrest, <- !app_assoc. apply Permutation_app_head.
    apply Permutation_app_comm.
  - assert (Hne : b <> a) by (intros ->; contradiction).
    rewrite (Hother b (or_introl eq_refl) Hne), <- app_assoc.
    apply Permutation_app_head. apply IH; auto.
    intros b' Hb' Hne'. apply Hother; [now right | exact Hne'].
Qed.

Lemma flat_map_flat_map {A B C : Type} (f : A -> list B) (g : B -> list C) (l : list A) :
  flat_map g (flat_map f l) = flat_map (fun a => flat_map g (f a)) l.
Proof.
  induction l as [|a l IH]; [reflexivity|].
  cbn [flat_map]. now rewrite flat_map_app, IH.
Qed.

Lemma NoDup_flat_map_part {A B : Type} (f : A -> list B) (l : list A) (a : A) :
  NoDup (flat_map f l) -> In a l -> NoDup (f a).
Proof.
  induction l as [|b l IH]; intros Hnd Hin; [contradiction|].
  cbn [flat_map] in Hnd. destruct Hin as [->|Hin].
  - exact (NoDup_app_remove_r _ _ Hnd).
  - apply IH; [exact (NoDup_app_remove_l _ _ Hnd) | exact Hin].
Qed.

Lemma NoDup_app_disjoint {B : Type} (l1 l2 : list B) (x : B) :
  NoDup (l1 ++ l2) -> In x l1 -> In x l2 -> False.
Proof.
  induction l1 as [|b l1 IH]; intros Hnd H1 H2; [contradiction|].
  cbn in Hnd. apply NoDup_cons_iff in Hnd. destruct Hnd as [Hb Hnd].
  destruct H1 as [->|H1].
  - apply Hb. apply in_or_app. now right.
  - exact (IH Hnd H1 H2).
Qed.

Lemma NoDup_flat_map_owner {A B : Type} (f : A -> list B) (l : list A) (a b : A) (x : B) :
  NoDup l -> NoDup (flat_map f l) ->
  In a l -> In b l -> In x (f a) -> In x (f b) -> a = b.
Proof.
  induction l as [|c l IH]; intros Hl Hnd Ha Hb Hxa Hxb; [contradiction|].
  apply NoDup_cons_iff in Hl. destruct Hl as [Hc Hl].
  cbn [flat_map] in Hnd.
  assert (Hcross : forall e, In e l -> In x (f c) -> In x (f e) -> False).
  { intros e He H1 H2. apply (NoDup_app_disjoint _ _ x Hnd H1).
    apply in_flat_map. exists e. now split. }
  destruct Ha as [->|Ha], Hb as [->|Hb].
  - reflexivity.
  - exfalso. exact (Hcross b Hb Hxa Hxb).
  - exfalso. exact (Hcross a Ha Hxb Hxa).
  - exact (IH Hl (NoDup_app_remove_l _ _ Hnd) Ha Hb Hxa Hxb).
Qed.

Lemma same_shape_lists (w w' : World) :
  same_shape w w' ->
  all_services w' = all_services w
  /\ all_characteristics w' = all_characteristics w
  /\ forall d, services_of w' d = services_of w d
               /\ characteristics_of w' d = characteristics_of w d.
Proof.
  intros (Hd & _ & _ & _ & Hs & Hc).
  assert (Hsv : forall d, services_of w' d = services_of w d)
    by (intros d; apply Hs).
  assert (Hall : all_services w' = all_services w).
  { unfold all_services. rewrite Hd. apply flat_map_ext. exact Hsv. }
  split; [exact Hall|]. split.
  - unfold all_characteristics. rewrite Hall. apply flat_map_ext. exact Hc.
  - intros d. split; [apply Hsv|].
    unfold characteristics_of. rewrite Hsv. apply flat_map_ext. exact Hc.
Qed.

Lemma same_shape_store_wf (w w' : World) :
  same_shape w w' -> store_wf w -> store_wf w'.
Proof.
  intros Hshape (H1 & H2 & H3 & H4 & H5 & H6).
  destruct (same_shape_lists w w' Hshape) as (Hs & Hc & _).
  destruct Hshape as (Hd & Hnd & Hns & Hnc & _ & _).
  unfold store_wf, devices_allocated. rewrite Hd, Hnd, Hns, Hnc, Hs, Hc.
  repeat split; assumption.
Qed.

Lemma same_shape_refl (w : World) : same_shape w w.
Proof. repeat split. Qed.

Lemma same_shape_trans (w1 w2 w3 : World) :
  same_shape w1 w2 -> same_shape w2 w3 -> same_shape w1 w3.
Proof.
  intros (A1 & A2 & A3 & A4 & A5 & A6) (B1 & B2 & B3 & B4 & B5 & B6).
  repeat split; try congruence.
  all: intros x; first [now rewrite B5 | now rewrite B6].
Qed.

Lemma write_device_same_shape (d : DeviceRef) (attribute : string)
    (f : Device.t -> Device.t) (w : World) :
  (forall x, Device.services (f x) = Device.services x) ->
  same_shape w (world (write_device d attribute f w)).
Proof.
  intros Hf. repeat split.
  intros d'. cbn. unfold update.
  destruct (Nat.eqb_spec d' d) as [->|Hne]; [apply Hf | reflexivity].
Qed.

Lemma write_service_same_shape (s : ServiceRef) (attribute : string)
    (f : Service.t -> Service.t) (w : World) :
  (forall x, Service.characteristics (f x) = Service.characteristics x) ->
  same_shape w (world (write_service s attribute f w)).
Proof.
  intros Hf. repeat split.
  intros s'. cbn. unfold update.
  destruct (Nat.eqb_spec s' s) as [->|Hne]; [apply Hf | reflexivity].
Qed.

Lemma write_characteristic_same_shape (c : CharRef) (attribute : string)
    (f : Characteristic.t -> Characteristic.t) (w : World) :
  same_shape w (world (write_characteristic c attribute f w)).
Proof. repeat split. Qed.

Lemma Device_on_advertisement_same_shape (d : DeviceRef) (packet : string)
    (event_flags address_type rssi : Z) (w : World) :
  same_shape w
    (world (Device_on_advertisement d packet event_flags address_type rssi w)).
Proof.
  unfold Device_on_advertisement.
  rewrite !world_after_write_device.
  do 3 (eapply same_shape_trans;
        [|apply write_device_same_shape; intros x; reflexivity]).
  apply write_device_same_shape; intros x; reflexivity.
Qed.

Lemma on_advertisement_store_wf (address : string) (data : list byte)
    (event_flags address_type rssi : Z) (w : World) :
  store_wf w ->
  store_wf (world (on_advertisement address data event_flags address_type rssi w)).
Proof.
  intros Hwf.
  destruct (get_device_by_address w (upper address)) as [d|] eqn:Hfound.
  - rewrite (on_advertisement_known _ _ _ _ _ _ _ Hfound).
    exact (same_shape_store_wf _ _ (Device_on_advertisement_same_shape _ _ _ _ _ w) Hwf).
  - rewrite (on_advertisement_unknown _ _ _ _ _ _ Hfound). cbn zeta.
    cbn [world fst snd].
    set (r := next_device w).
    set (w0 := world ((new_device (Device.init (upper address)) ;; devices_append r) w)).
    apply (same_shape_store_wf w0); [apply Device_on_advertisement_same_shape|].
    destruct Hwf as (H1 & H2 & H3 & H4 & H5 & H6).
    assert (Hfresh : ~ In r (devices w)).
    { intros Hin. unfold devices_allocated in H1. rewrite Forall_forall in H1.
      specialize (H1 r Hin). unfold r in H1. lia. }
    assert (Hold : forall d, In d (devices w) -> services_of w0 d = services_of w d).
    { intros d Hin. unfold services_of. subst w0. cbn.
      rewrite update_other; [reflexivity|]. intros ->. contradiction. }
    assert (Hall : all_services w0 = all_services w).
    { unfold all_services. change (devices w0) with (devices w ++ [r]).
      rewrite flat_map_app. cbn [flat_map].
      assert (Hr : services_of w0 r = []).
      { unfold services_of. subst w0. cbn. now rewrite update_same. }
      rewrite Hr, !app_nil_r. now apply flat_map_ext_in. }
    assert (Hallc : all_characteristics w0 = all_characteristics w).
    { unfold all_characteristics. now rewrite Hall. }
    unfold store_wf. rewrite Hall, Hallc.
    split; [|split; [|repeat split; assumption]].
    + unfold devices_allocated. change (devices w0) with (devices w ++ [r]).
      change (next_device w0) with (S r). apply Forall_app. split.
      * eapply Forall_impl; [|exact H1]. cbn. intros d Hlt. unfold r. lia.
      * constructor; [lia | constructor].
    + change (devices w0) with (devices w ++ [r]).
      apply NoDup_app; [exact H2 | repeat constructor; intros [] |].
      intros d Hin [<-|[]]. contradiction.
Qed.

Lemma on_service_store_wf (connection : Z) (uuid : list byte) (service : Z) (w : World) :
  store_wf w ->
  store_wf (world (on_service connection uuid service w)).
Proof.
  intros Hwf. unfold on_service, bind at 1, gets at 1.
  destruct (get_device_by_handle w connection) as [d|] eqn:Hdev; [|exact Hwf].
  apply find_some in Hdev. destruct Hdev as [Hin _].
  destruct Hwf as (H1 & H2 & H3 & H4 & H5 & H6).
  set (s := next_service w).
  set (w' := world _).
  assert (Hd : devices w' = devices w) by reflexivity.
  assert (Hsd : services_of w' d = services_of w d ++ [s]).
  { unfold services_of. subst w'. unfold bind. cbn -[upper hex rev].
    now rewrite update_same. }
  assert (Hso : forall d', d' <> d -> services_of w' d' = services_of w d').
  { intros d' Hne. unfold services_of. subst w'. unfold bind. cbn -[upper hex rev].
    now rewrite update_other. }
  assert (Hcs : Service.characteristics (service_heap w' s) = []).
  { subst w'. unfold bind. cbn -[upper hex rev]. now rewrite update_same. }
  assert (Hco : forall s', s' <> s ->
                  Service.characteristics (service_heap w' s')
                  = Service.characteristics (service_heap w s')).
  { intros s' Hne. subst w'. unfold bind. cbn -[upper hex rev].
    now rewrite update_other. }
  assert (Hfresh : ~ In s (all_services w)).
  { intros Hs. rewrite Forall_forall in H3. specialize (H3 s Hs). unfold s in H3. lia. }
  assert (Hperm : Permutation (all_services w') (all_services w ++ [s])).
  { unfold all_services. rewrite Hd.
    apply (flat_map_update_perm (services_of w) (services_of w') (devices w) d [s]);
      auto. }
  assert (Hpermc : Permutation (all_characteristics w') (all_characteristics w)).
  { unfold all_characteristics.
    rewrite (Permutation_flat_map _ Hperm), flat_map_app. cbn [flat_map].
    rewrite Hcs, !app_nil_r.
    assert (Heq : flat_map (fun s0 => Service.characteristics (service_heap w' s0))
                    (all_services w)
                  = flat_map (fun s0 => Service.characteristics (service_heap w s0))
                      (all_services w)).
    { apply flat_map_ext_in. intros s' Hs'. apply Hco. intros ->. contradiction. }
    now rewrite Heq. }
  unfold store_wf.
  split; [exact H1|]. split; [rewrite Hd; exact H2|].
  split.
  { apply (Permutation_Forall (Permutation_sym Hperm)).
    change (next_service w') with (S s). apply Forall_app. split.
    - eapply Forall_impl; [|exact H3]. cbn. intros s' Hlt. unfold s. lia.
    - constructor; [lia | constructor]. }
  split.
  { apply (Permutation_NoDup (Permutation_sym Hperm)).
    apply NoDup_app; [exact H4 | repeat constructor; intros [] |].
    intros s' Hs' [<-|[]]. contradiction. }
  split.
  - apply (Permutation_Forall (Permutation_sym Hpermc)). exact H5.
  - apply (Permutation_NoDup (Permutation_sym Hpermc)). exact H6.
Qed.

Lemma on_characteristic_store_wf (connection : Z) (uuid : list byte)
    (characteristic properties : Z) (w : World) :
  store_wf w ->
  store_wf (world (on_characteristic connection uuid characteristic properties w)).
Proof.
  intros Hwf.
  destruct (get_device_by_handle w connection) as [d|] eqn:Hdev.
  - assert (Hx : on_characteristic connection uuid characteristic properties w
                 = on_characteristic_loop (services_of w d)
                     (upper (hex (rev uuid))) characteristic properties w).
    { unfold on_characteristic, bind, gets. rewrite Hdev.
      destruct (on_characteristic_loop _ _ _ _ w) as [[r w1] t1]. reflexivity. }
    rewrite Hx, on_characteristic_loop_first_discovering.
    apply find_some in Hdev. destruct Hdev as [Hin _].
    destruct (find _ (services_of w d)) as [s|] eqn:Hfind; [|exact Hwf].
    apply find_some in Hfind. destruct Hfind as [Hs _].
    destruct Hwf as (H1 & H2 & H3 & H4 & H5 & H6).
    set (c := next_characteristic w).
    set (w' := world _).
    assert (Hall : all_services w' = all_services w) by reflexivity.
    assert (Hsin : In s (all_services w)).
    { unfold all_services. apply in_flat_map. exists d. now split. }
    assert (Hcs : Service.characteristics (service_heap w' s)
                  = Service.characteristics (service_heap w s) ++ [c]).
    { subst w'. unfold bind. cbn -[upper hex rev]. now rewrite !update_same. }
    assert (Hco : forall s', s' <> s ->
                    Service.characteristics (service_heap w' s')
                    = Service.characteristics (service_heap w s')).
    { intros s' Hne. subst w'. unfold bind. cbn -[upper hex rev].
      now rewrite update_other. }
    assert (Hfresh : ~ In c (all_characteristics w)).
    { intros Hc. rewrite Forall_forall in H5. specialize (H5 c Hc).
      unfold c in H5. lia. }
    assert (Hperm : Permutation (all_characteristics w') (all_characteristics w ++ [c])).
    { unfold all_characteristics. rewrite Hall.
      apply (flat_map_update_perm
               (fun s0 => Service.characteristics (service_heap w s0))
               (fun s0 => Service.characteristics (service_heap w' s0))
               (all_services w) s [c]); auto. }
    unfold store_wf. rewrite Hall.
    split; [exact H1|]. split; [exact H2|]. split; [exact H3|]. split; [exact H4|].
    split.
    + apply (Permutation_Forall (Permutation_sym Hperm)).
      change (next_characteristic w') with (S c). apply Forall_app. split.
      * eapply Forall_impl; [|exact H5]. cbn. intros c' Hlt. unfold c. lia.
      * constructor; [lia | constructor].
    + apply (Permutation_NoDup (Permutation_sym Hperm)).
      apply NoDup_app; [exact H6 | repeat constructor; intros [] |].
      intros c' Hc' [<-|[]]. contradiction.
  - unfold on_characteristic, bind, gets. rewrite Hdev. exact Hwf.
Qed.

Lemma advance_same_shape (m : Marker) (w : World) :
  same_shape w (world (advance m w)).
Proof.
  destruct m as [s|c]; cbn [advance].
  - apply write_service_same_shape. intros x; reflexivity.
  - apply write_characteristic_same_shape.
Qed.

Lemma dispatch_store_wf (e : Event) (w : World) :
  store_wf w -> store_wf (world (dispatch e w)).
Proof.
  intros Hwf.
  destruct e as [address data event_flags address_type rssi | | address connection
                | connection | connection uuid service
                | connection uuid characteristic properties
                | connection characteristic att_opcode value | connection | name];
    cbn [dispatch].
  - now apply on_advertisement_store_wf.
  - exact Hwf.
  - refine (same_shape_store_wf _ _ _ Hwf).
    unfold on_connection_opened, bind, gets.
    destruct (get_device_by_address w (upper address)) as [d|];
      [|apply same_shape_refl].
    apply (write_device_same_shape d "is_connected" (Device.set_is_connected true) w).
    intros x; reflexivity.
  - refine (same_shape_store_wf _ _ _ Hwf).
    unfold on_connection_closed, bind, gets.
    destruct (get_device_by_handle w connection) as [d|];
      [|apply same_shape_refl].
    eapply same_shape_trans.
    + apply (write_device_same_shape d "is_connected" (Device.set_is_connected false) w).
      intros x; reflexivity.
    + apply (write_device_same_shape d "handle" (Device.set_handle None)).
      intros x; reflexivity.
  - now apply on_service_store_wf.
  - now apply on_characteristic_store_wf.
  - refine (same_shape_store_wf _ _ _ Hwf).
    unfold on_characteristic_value, bind, gets.
    destruct (att_opcode =? ATT_OPCODE_HANDLE_VALUE_INDICATION (lib w))%Z;
      cbn -[hex];
      (destruct (get_device_by_handle w connection) as [d|]; cbn -[hex];
       [destruct (Device_get_characteristic_by_handle w d characteristic);
        cbn -[hex]|]);
      repeat split.
  - refine (same_shape_store_wf _ _ _ Hwf).
    destruct (get_device_by_handle w connection) as [d|] eqn:Hd.
    + rewrite (on_procedure_completed_resolved w connection d Hd).
      destruct (first_pending_marker w d) as [m|]; [|apply same_shape_refl].
      apply advance_same_shape.
    + unfold on_procedure_completed, bind, gets. rewrite Hd. apply same_shape_refl.
  - exact Hwf.
Qed.

Lemma perform_store_wf (a : Action) (w : World) :
  store_wf w -> store_wf (world (perform a w)).
Proof.
  intros Hwf.
  destruct a as [e | device response | device | device c | device c packet
                | device c | device c]; cbn [perform].
  - now apply dispatch_store_wf.
  - refine (same_shape_store_wf _ _ _ Hwf).
    unfold connect_device, bind, gets.
    destruct (existsb (is_connecting w) (devices w)); [apply same_shape_refl|].
    apply (write_device_same_shape device "handle" (Device.set_handle (Some response)) w).
    intros x; reflexivity.
  - unfold disconnect_device, bind, gets.
    destruct (Device.handle (device_heap w device)); exact Hwf.
  - refine (same_shape_store_wf _ _ _ Hwf).
    unfold read_from_characteristic, bind, gets.
    destruct (is_using_gatt_command w device);
      [|destruct (Device.is_connected (device_heap w device))];
      repeat split.
  - refine (same_shape_store_wf _ _ _ Hwf).
    unfold write_to_characteristic, bind, gets.
    destruct (is_using_gatt_command w device);
      [|destruct (Device.is_connected (device_heap w device));
        [destruct (fromhex packet)|]];
      repeat split.
  - refine (same_shape_store_wf _ _ _ Hwf).
    unfold subscribe_to_notification, bind, gets.
    destruct (is_using_gatt_command w device);
      [|destruct (Device.is_connected (device_heap w device))];
      repeat split.
  - refine (same_shape_store_wf _ _ _ Hwf).
    unfold subscribe_to_indication, bind, gets.
    destruct (is_using_gatt_command w device);
      [|destruct (Device.is_connected (device_heap w device))];
      repeat split.
Qed.

Lemma perform_all_store_wf (actions : list Action) :
  forall w : World, store_wf w -> store_wf (perform_all actions w).
Proof.
  induction actions as [|a rest IH]; intros w Hwf; [exact Hwf|].
  cbn [perform_all]. apply IH. now apply perform_store_wf.
Qed.

Lemma init_store_wf (l : BGLib) : store_wf (init l).
Proof. repeat split; constructor. Qed.

Lemma all_characteristics_by_device (w : World) :
  all_characteristics w = flat_map (characteristics_of w) (devices w).
Proof. unfold all_characteristics, all_services. apply flat_map_flat_map. Qed.

Lemma store_wf_ownership (w : World) :
  store_wf w ->
  (forall d1 d2 s, In d1 (devices w) -> In d2 (devices w) ->
                   In s (services_of w d1) -> In s (services_of w d2) -> d1 = d2)
  /\ (forall d1 d2 c, In d1 (devices w) -> In d2 (devices w) ->
                      In c (characteristics_of w d1) ->
                      In c (characteristics_of w d2) -> d1 = d2)
  /\ (forall d, In d (devices w) ->
                NoDup (services_of w d) /\ NoDup (characteristics_of w d)).
Proof.
  intros (_ & Hd & _ & Hs & _ & Hc).
  rewrite all_characteristics_by_device in Hc.
  split; [|split].
  - intros d1 d2 s. exact (NoDup_flat_map_owner (services_of w) _ d1 d2 s Hd Hs).
  - intros d1 d2 c. exact (NoDup_flat_map_owner (characteristics_of w) _ d1 d2 c Hd Hc).
  - intros d Hin. split.
    + exact (NoDup_flat_map_part (services_of w) _ d Hs Hin).
    + exact (NoDup_flat_map_part (characteristics_of w) _ d Hc Hin).
Qed.

(** X7. The entity model stays a forest.  In every state the controller
    reaches from its initial one, through any events and public operations
    with any arguments, the devices of the collection are distinct allocated
    objects, every listed service is an allocated object listed once, under
    one device, and every listed characteristic is an allocated object
    listed once, under one service.  So two devices of the collection never
    share a service or a characteristic, and no list holds an object twice.
    Every event and operation keeps this so from any state in which it
    holds. *)
Theorem collection_is_a_forest :
  (forall (w : World) (a : Action), store_wf w -> store_wf (world (perform a w)))
  /\ forall (l : BGLib) (actions : list Action),
       let w := perform_all actions (init l) in
       store_wf w
       /\ (forall d1 d2 s, In d1 (devices w) -> In d2 (devices w) ->
                           In s (services_of w d1) -> In s (services_of w d2) ->
                           d1 = d2)
       /\ (forall d1 d2 c, In d1 (devices w) -> In d2 (devices w) ->
                           In c (characteristics_of w d1) ->
                           In c (characteristics_of w d2) -> d1 = d2)
       /\ (forall d, In d (devices w) ->
                     NoDup (services_of w d) /\ NoDup (characteristics_of w d)).
Proof.
  split; [intros w a; apply perform_store_wf|].
  intros l actions w.
  assert (Hwf : store_wf w) by (apply perform_all_store_wf, init_store_wf).
  split; [exact Hwf | exact (store_wf_ownership w Hwf)].
Qed.

Lemma collection_is_a_forest_witness :
  let w := perform_all
             [Deliver (bt_evt_scanner_legacy_advertisement_report
                         "00:11:22:33:44:55" [x12; x34] 1 1 (-100));
              ConnectDevice 0 1;
              Deliver (bt_evt_connection_opened "00:11:22:33:44:55" 1);
              Deliver (bt_evt_gatt_service 1 [x00; x18] 1);
              Deliver (bt_evt_gatt_service 1 [x0a; x18] 2)] (init example_lib) in
  store_wf w
  /\ store_wf (world (perform (Deliver (bt_evt_gatt_characteristic 1 [x29; x2a] 3 2)) w)).
Proof.
  intros w.
  assert (H : store_wf w) by exact (proj1 (proj2 collection_is_a_forest _ _)).
  split; [exact H|].
  exact (proj1 collection_is_a_forest w _ H).
Defined.

(** ** Counting the pending markers *)

Lemma existsb_filter {A : Type} (p : A -> bool) (l : list A) :
  existsb p l = negb (Nat.eqb (List.length (filter p l)) 0).
Proof.
  induction l as [|a l IH]; [reflexivity|].
  cbn [existsb filter]. destruct (p a); [reflexivity | exact IH].
Qed.

Lemma filter_all_false {A : Type} (p : A -> bool) (l : list A) :
  (forall a, In a l -> p a = false) -> filter p l = [].
Proof.
  induction l as [|a l IH]; intros H; [reflexivity|].
  cbn [filter]. rewrite (H a (or_introl eq_refl)).
  apply IH. intros b Hb. apply H. now right.
Qed.

Lemma filter_one_less {A : Type} (p p' : A -> bool) (l : list A) (a : A) :
  NoDup l -> In a l -> p a = true -> p' a = false ->
  (forall b, In b l -> b <> a -> p' b = p b) ->
  S (List.length (filter p' l)) = List.length (filter p l).
Proof.
  induction l as [|b l IH]; intros Hnd Hin Hpa Hpa' Hother; [contradiction|].
  apply NoDup_cons_iff in Hnd. destruct Hnd as [Hb Hnd].
  cbn [filter]. destruct Hin as [->|Hin].
  - rewrite Hpa, Hpa'. cbn [List.length]. f_equal. f_equal.
    apply filter_ext_in. intros b Hbin. apply Hother; [now right|].
    intros ->. contradiction.
  - assert (Hne : b <> a) by (intros ->; contradiction).
    rewrite (Hother b (or_introl eq_refl) Hne).
    assert (IH' : S (List.length (filter p' l)) = List.length (filter p l)).
    { apply IH; auto. intros b' Hb' Hne'. apply Hother; [now right | exact Hne']. }
    destruct (p b); cbn [List.length]; lia.
Qed.

Lemma filter_one_more {A : Type} (p p' : A -> bool) (l : list A) (a : A) :
  NoDup l -> In a l -> p a = false -> p' a = true ->
  (forall b, In b l -> b <> a -> p' b = p b) ->
  List.length (filter p' l) = S (List.length (filter p l)).
Proof.
  intros Hnd Hin Hpa Hpa' Hother. symmetry.
  apply (filter_one_less p' p l a); auto.
  intros b Hb Hne. symmetry. now apply Hother.
Qed.

Lemma in_scan_order (w : World) (d : DeviceRef) :
  (forall s, In (ServiceMarker s) (scan_order w d) -> In s (services_of w d))
  /\ (forall c, In (CharacteristicMarker c) (scan_order w d) ->
                In c (characteristics_of w d))
  /\ (forall s, In s (services_of w d) -> In (ServiceMarker s) (scan_order w d))
  /\ (forall c, In c (characteristics_of w d) ->
                In (CharacteristicMarker c) (scan_order w d)).
Proof.
  unfold scan_order, characteristics_of.
  induction (services_of w d) as [|s0 ss (IH1 & IH2 & IH3 & IH4)].
  - repeat split; intros x H; exact H.
  - cbn [flat_map markers_of]. repeat split.
    + intros s [H|H]; [left; now injection H|].
      apply in_app_or in H. destruct H as [H|H].
      * apply in_map_iff in H. destruct H as (c & Hc & _). discriminate.
      * right. now apply IH1.
    + intros c [H|H]; [discriminate|].
      apply in_or_app. apply in_app_or in H. destruct H as [H|H].
      * left. apply in_map_iff in H. destruct H as (c' & Hc & Hin).
        injection Hc as <-. exact Hin.
      * right. now apply IH2.
    + intros s [->|H]; [now left|].
      right. apply in_or_app. right. now apply IH3.
    + intros c H. right. apply in_or_app. apply in_app_or in H.
      destruct H as [H|H]; [left; now apply in_map | right; now apply IH4].
Qed.

Lemma busy_iff_pending (w : World) (d : DeviceRef) :
  is_using_gatt_command w d = negb (Nat.eqb (pending w d) 0).
Proof.
  unfold is_using_gatt_command, pending. rewrite !existsb_filter.
  destruct (List.length (filter (service_pending w) (services_of w d)));
    destruct (List.length (filter (characteristic_pending w) (characteristics_of w d)));
    reflexivity.
Qed.

Lemma no_marker_no_pending (w : World) (d : DeviceRef) :
  first_pending_marker w d = None -> pending w d = 0.
Proof.
  intros Hnone. unfold pending.
  destruct (in_scan_order w d) as (_ & _ & Hs & Hc).
  assert (H1 : filter (service_pending w) (services_of w d) = []).
  { apply filter_all_false. intros s Hin.
    exact (find_none _ _ Hnone (ServiceMarker s) (Hs s Hin)). }
  assert (H2 : filter (characteristic_pending w) (characteristics_of w d) = []).
  { apply filter_all_false. intros c Hin.
    exact (find_none _ _ Hnone (CharacteristicMarker c) (Hc c Hin)). }
  now rewrite H1, H2.
Qed.

Lemma advance_pending (w : World) (d : DeviceRef) (m : Marker) :
  store_wf w -> In d (devices w) ->
  first_pending_marker w d = Some m ->
  S (pending (world (advance m w)) d) = pending w d
  /\ forall d', In d' (devices w) -> d' <> d ->
                pending (world (advance m w)) d' = pending w d'.
Proof.
  intros Hwf Hin Hm.
  destruct (store_wf_ownership w Hwf) as (Hown_s & Hown_c & Hnodup).
  destruct (Hnodup d Hin) as [Hnd_s Hnd_c].
  apply find_some in Hm. destruct Hm as [Hinm Hp].
  destruct (in_scan_order w d) as (Hs & Hc & _ & _).
  destruct (same_shape_lists w _ (advance_same_shape m w)) as (_ & _ & Hlists).
  destruct m as [s|c]; cbn [marker_pending] in Hp.
  - specialize (Hs s Hinm).
    assert (Hs_after : service_pending (world (advance (ServiceMarker s) w)) s = false).
    { unfold service_pending. cbn. now rewrite update_same. }
    assert (Hs_other : forall s', s' <> s ->
              service_pending (world (advance (ServiceMarker s) w)) s'
              = service_pending w s').
    { intros s' Hne. unfold service_pending. cbn. now rewrite update_other. }
    assert (Hc_same : forall c,
              characteristic_pending (world (advance (ServiceMarker s) w)) c
              = characteristic_pending w c) by reflexivity.
    split.
    + unfold pending. destruct (Hlists d) as [-> ->].
      rewrite <- (filter_one_less (service_pending w)
                    (service_pending (world (advance (ServiceMarker s) w)))
                    (services_of w d) s Hnd_s Hs Hp Hs_after)
        by (intros s' _ Hne; now apply Hs_other).
      rewrite (filter_ext _ _ Hc_same). reflexivity.
    + intros d' Hin' Hne. unfold pending. destruct (Hlists d') as [-> ->].
      rewrite (filter_ext _ _ Hc_same). f_equal. f_equal.
      apply filter_ext_in. intros s' Hs'. apply Hs_other.
      intros ->. apply Hne. exact (Hown_s d' d s Hin' Hin Hs' Hs).
  - specialize (Hc c Hinm).
    assert (Hc_after : characteristic_pending
                         (world (advance (CharacteristicMarker c) w)) c = false).
    { unfold characteristic_pending. cbn. now rewrite update_same. }
    assert (Hc_other : forall c', c' <> c ->
              characteristic_pending (world (advance (CharacteristicMarker c) w)) c'
              = characteristic_pending w c').
    { intros c' Hne. unfold characteristic_pending. cbn. now rewrite update_other. }
    assert (Hs_same : forall s,
              service_pending (world (advance (CharacteristicMarker c) w)) s
              = service_pending w s) by reflexivity.
    split.
    + unfold pending. destruct (Hlists d) as [-> ->].
      rewrite <- (filter_one_less (characteristic_pending w)
                    (characteristic_pending
                       (world (advance (CharacteristicMarker c) w)))
                    (characteristics_of w d) c Hnd_c Hc Hp Hc_after)
        by (intros c' _ Hne; now apply Hc_other).
      rewrite (filter_ext _ _ Hs_same). lia.
    + intros d' Hin' Hne. unfold pending. destruct (Hlists d') as [-> ->].
      rewrite (filter_ext _ _ Hs_same). f_equal. f_equal.
      apply filter_ext_in. intros c' Hc'. apply Hc_other.
      intros ->. apply Hne. exact (Hown_c d' d c Hin' Hin Hc' Hc).
Qed.

Lemma on_procedure_completed_pending (w : World) (connection : Z) (d : DeviceRef) :
  store_wf w ->
  get_device_by_handle w connection = Some d ->
  let w' := world (on_procedure_completed connection w) in
  pending w' d = pending w d - 1
  /\ (forall d', In d' (devices w) -> d' <> d -> pending w' d' = pending w d')
  /\ store_wf w'
  /\ get_device_by_handle w' connection = Some d.
Proof.
  intros Hwf Hdev w'.
  assert (Hin : In d (devices w)) by (apply find_some in Hdev; tauto).
  assert (Hwf' : store_wf w')
    by exact (dispatch_store_wf (bt_evt_gatt_procedure_completed connection) w Hwf).
  subst w'. rewrite (on_procedure_completed_resolved w connection d Hdev) in *.
  destruct (first_pending_marker w d) as [m|] eqn:Hm; cbn [world fst snd] in *.
  - destruct (advance_pending w d m Hwf Hin Hm) as [Hdec Hother].
    split; [lia|]. split; [exact Hother|]. split; [exact Hwf'|].
    rewrite <- Hdev. apply get_device_by_handle_ext.
    + apply advance_devices.
    + intros d'. now rewrite (proj2 (advance_devices m w)).
  - rewrite (no_marker_no_pending w d Hm).
    split; [reflexivity|]. split; [reflexivity|]. split; assumption.
Qed.

Lemma completions_pending (n : nat) :
  forall (w : World) (connection : Z) (d : DeviceRef),
    store_wf w ->
    get_device_by_handle w connection = Some d ->
    pending (world (completions n connection w)) d = pending w d - n
    /\ result (completions n connection w) = Ok tt.
Proof.
  induction n as [|n IH]; intros w connection d Hwf Hdev.
  - cbn. split; [lia | reflexivity].
  - cbn [completions]. unfold bind.
    destruct (on_procedure_completed_pending w connection d Hwf Hdev)
      as (Hp & _ & Hwf' & Hdev').
    assert (Hr : result (on_procedure_completed connection w) = Ok tt).
    { rewrite (on_procedure_completed_resolved w connection d Hdev).
      destruct (first_pending_marker w d); reflexivity. }
    destruct (on_procedure_completed connection w) as [[r w1] t1].
    cbn [result world fst snd] in *. subst r.
    destruct (IH w1 connection d Hwf' Hdev') as [Hp2 Hr2].
    destruct (completions n connection w1) as [[r2 w2] t2].
    cbn [result world fst snd] in *. split; [lia | exact Hr2].
Qed.

(** X8. The pending markers of a device are counted down one by one.  A
    device is busy exactly when it has a pending marker (a service that is
    not Discovered or a characteristic that is not Idle).  In a state reached
    from the initial one, a ProcedureCompleted event that resolves to a device
    lowers the number of its pending markers by exactly one, or leaves it at
    zero, and does not change the number of any other device of the
    collection.  So after as many ProcedureCompleted events as the device has
    pending markers it is no longer busy, and after fewer it still is. *)
Theorem completions_count_down_pending :
  forall (l : BGLib) (actions : list Action) (connection : Z) (d : DeviceRef),
    let w := perform_all actions (init l) in
    get_device_by_handle w connection = Some d ->
    let w' := world (on_procedure_completed connection w) in
    is_using_gatt_command w d = negb (Nat.eqb (pending w d) 0)
    /\ pending w' d = pending w d - 1
    /\ (forall d', In d' (devices w) -> d' <> d -> pending w' d' = pending w d')
    /\ (forall n,
          is_using_gatt_command (world (completions n connection w)) d
          = negb (Nat.leb (pending w d) n)).
Proof.
  intros l actions connection d w Hdev w'.
  assert (Hwf : store_wf w) by (apply perform_all_store_wf, init_store_wf).
  destruct (on_procedure_completed_pending w connection d Hwf Hdev) as (Hp & Ho & _).
  split; [apply busy_iff_pending|]. split; [exact Hp|]. split; [exact Ho|].
  intros n. rewrite busy_iff_pending.
  rewrite (proj1 (completions_pending n w connection d Hwf Hdev)).
  destruct (Nat.leb_spec (pending w d) n) as [Hle|Hlt].
  - replace (pending w d - n) with 0 by lia. reflexivity.
  - destruct (pending w d - n) eqn:E; [lia | reflexivity].
Qed.

Lemma completions_count_down_pending_witness :
  let w := perform_all
             [Deliver (bt_evt_scanner_legacy_advertisement_report
                         "00:11:22:33:44:55" [x12; x34] 1 1 (-100));
              ConnectDevice 0 1;
              Deliver (bt_evt_connection_opened "00:11:22:33:44:55" 1);
              Deliver (bt_evt_gatt_service 1 [x00; x18] 1);
              Deliver (bt_evt_gatt_service 1 [x0a; x18] 2)] (init example_lib) in
  pending w 0 = 2
  /\ is_using_gatt_command (world (completions 1 1 w)) 0 = true
  /\ is_using_gatt_command (world (completions 2 1 w)) 0 = false.
Proof.
  intros w.
  destruct (completions_count_down_pending example_lib
              [Deliver (bt_evt_scanner_legacy_advertisement_report
                          "00:11:22:33:44:55" [x12; x34] 1 1 (-100));
               ConnectDevice 0 1;
               Deliver (bt_evt_connection_opened "00:11:22:33:44:55" 1);
               Deliver (bt_evt_gatt_service 1 [x00; x18] 1);
               Deliver (bt_evt_gatt_service 1 [x0a; x18] 2)] 1 0 eq_refl)
    as (_ & _ & _ & Hn).
  split; [reflexivity|].
  split; [exact (Hn 1) | exact (Hn 2)].
Defined.

(** ** Whose characteristic a request marks *)

Lemma busy_after_state_write (w : World) (device : DeviceRef) (c : CharRef)
    (st : CharacteristicState) (w1 : World) :
  is_using_gatt_command w device = false ->
  st <> NONE ->
  device_heap w1 = device_heap w ->
  service_heap w1 = service_heap w ->
  Characteristic.state (characteristic_heap w1 c) = st ->
  (forall c', c' <> c ->
     Characteristic.state (characteristic_heap w1 c')
     = Characteristic.state (characteristic_heap w c')) ->
  (In c (characteristics_of w device) -> is_using_gatt_command w1 device = true)
  /\ (~ In c (characteristics_of w device) -> is_using_gatt_command w1 device = false).
Proof.
  intros Hbusy Hst Hd Hs Hc Ho.
  unfold is_using_gatt_command in Hbusy. apply orb_false_elim in Hbusy.
  destruct Hbusy as [Hsv Hch].
  assert (Hsvs : services_of w1 device = services_of w device)
    by (unfold services_of; now rewrite Hd).
  assert (Hchs : characteristics_of w1 device = characteristics_of w device)
    by (unfold characteristics_of; now rewrite Hsvs, Hs).
  assert (Hsp : existsb (service_pending w1) (services_of w1 device) = false).
  { rewrite Hsvs. unfold service_pending. rewrite Hs. exact Hsv. }
  unfold is_using_gatt_command. rewrite Hsp, Hchs. cbn [orb]. split.
  - intros Hin. apply existsb_exists. exists c. split; [exact Hin|].
    unfold characteristic_pending. rewrite Hc. destruct st; [contradiction|..]; reflexivity.
  - intros Hnot. apply existsb_all_false. intros c' Hin'.
    assert (Hne : c' <> c) by (intros ->; contradiction).
    unfold characteristic_pending. rewrite (Ho c' Hne).
    exact (existsb_false_In _ _ _ Hch Hin').
Qed.

(** X9. The gate of a GATT operation looks at the device it is given, but
    the request is recorded on the characteristic it is given.  After a read,
    write or subscription that was sent for a connected, idle device, the
    device is busy, and further requests for it are dropped, exactly when
    the characteristic is one of its own.  A request made with a
    characteristic listed under no service of the device leaves the device
    idle, so the next request for the device is sent as well. *)
Theorem request_busies_the_owner_only :
  forall (w : World) (device : DeviceRef) (c : CharRef) (packet : string)
         (value : list byte),
    is_using_gatt_command w device = false ->
    Device.is_connected (device_heap w device) = true ->
    fromhex packet = Some value ->
    let owned := In c (characteristics_of w device) in
    let after (x : Result unit * World * list Effect) :=
      (owned ->
         is_using_gatt_command (world x) device = true
         /\ forall c', read_from_characteristic device c' (world x)
                       = (Ok tt, world x, []))
      /\ (~ owned ->
         is_using_gatt_command (world x) device = false
         /\ forall c', exists command,
              effects (read_from_characteristic device c' (world x))
              = [Call command; Mutate (CharacteristicObject c') "state"]) in
    after (read_from_characteristic device c w)
    /\ after (write_to_characteristic device c packet w)
    /\ after (subscribe_to_notification device c w)
    /\ after (subscribe_to_indication device c w).
Proof.
  intros w device c packet value Hbusy Hconn Hvalue owned after.
  assert (Hgen : forall (st : CharacteristicState) (w1 : World),
             st <> NONE ->
             device_heap w1 = device_heap w ->
             service_heap w1 = service_heap w ->
             Characteristic.state (characteristic_heap w1 c) = st ->
             (forall c', c' <> c ->
                Characteristic.state (characteristic_heap w1 c')
                = Characteristic.state (characteristic_heap w c')) ->
             forall (r : Result unit) (t : list Effect), after (r, w1, t)).
  { intros st w1 Hst Hd Hs Hc Ho r t.
    destruct (busy_after_state_write w device c st w1 Hbusy Hst Hd Hs Hc Ho)
      as [Hown Hnot].
    subst after. cbn [world fst snd]. split.
    - intros Hin. split; [now apply Hown|].
      intros c'. unfold read_from_characteristic, bind, gets.
      now rewrite (Hown Hin).
    - intros Hnin. split; [now apply Hnot|].
      intros c'. unfold read_from_characteristic, bind, gets.
      rewrite (Hnot Hnin), Hd, Hconn. eexists. reflexivity. }
  unfold read_from_characteristic, write_to_characteristic,
    subscribe_to_notification, subscribe_to_indication, bind, gets.
  rewrite Hbusy, Hconn, Hvalue. cbn -[after].
  split; [|split; [|split]].
  - apply (Hgen READING); try reflexivity; try discriminate.
    + cbn. now rewrite update_same.
    + intros c' Hne. cbn. now rewrite update_other.
  - apply (Hgen WRITING); try reflexivity; try discriminate.
    + cbn. now rewrite !update_same.
    + intros c' Hne. cbn. now rewrite !update_other.
  - apply (Hgen SUBSCRIBING_NOTIFICATION); try reflexivity; try discriminate.
    + cbn. now rewrite update_same.
    + intros c' Hne. cbn. now rewrite update_other.
  - apply (Hgen SUBSCRIBING_INDICATION); try reflexivity; try discriminate.
    + cbn. now rewrite update_same.
    + intros c' Hne. cbn. now rewrite update_other.
Qed.

Lemma request_busies_the_owner_only_witness :
  is_using_gatt_command (world (read_from_characteristic 0 0 discovered)) 0 = true
  /\ is_using_gatt_command (world (read_from_characteristic 0 7 discovered)) 0 = false.
Proof.
  destruct (request_busies_the_owner_only discovered 0 0 "" [] eq_refl eq_refl eq_refl)
    as ((Hown & _) & _).
  destruct (request_busies_the_owner_only discovered 0 7 "" [] eq_refl eq_refl eq_refl)
    as ((_ & Hnot) & _).
  split.
  - apply Hown. vm_compute. tauto.
  - apply Hnot. vm_compute. intros [H|[]]. discriminate H.
Defined.

(** ** The flags of the event loop *)

Lemma Device_on_advertisement_frame (d : DeviceRef) (packet : string)
    (event_flags address_type rssi : Z) (w : World) :
  let x := Device_on_advertisement d packet event_flags address_type rssi w in
  result x = Ok tt
  /\ is_running (world x) = is_running w
  /\ is_ready (world x) = is_ready w.
Proof. repeat split. Qed.

Lemma dispatch_frame (e : Event) (w : World) :
  result (dispatch e w) = Ok tt
  /\ is_running (world (dispatch e w)) = is_running w
  /\ is_ready (world (dispatch e w)) = (is_ready w || is_boot e)%bool.
Proof.
  assert (Hb : forall b : bool, b = (b || false)%bool) by (intros []; reflexivity).
  destruct e as [address data event_flags address_type rssi | | address connection
                | connection | connection uuid service
                | connection uuid characteristic properties
                | connection characteristic att_opcode value | connection | name];
    cbn [dispatch is_boot]; try rewrite <- Hb.
  - destruct (get_device_by_address w (upper address)) as [d|] eqn:Hfound.
    + rewrite (on_advertisement_known _ _ _ _ _ _ _ Hfound).
      apply Device_on_advertisement_frame.
    + rewrite (on_advertisement_unknown _ _ _ _ _ _ Hfound). cbn zeta.
      cbn [result world fst snd].
      apply (Device_on_advertisement_frame (next_device w) (upper (hex data))
               event_flags address_type rssi
               (world ((new_device (Device.init (upper address)) ;;
                        devices_append (next_device w)) w))).
  - cbn. rewrite orb_true_r. repeat split.
  - unfold on_connection_opened, bind, gets.
    destruct (get_device_by_address w (upper address)); repeat split.
  - unfold on_connection_closed, bind, gets.
    destruct (get_device_by_handle w connection); repeat split.
  - unfold on_service, bind, gets.
    destruct (get_device_by_handle w connection); repeat split.
  - destruct (get_device_by_handle w connection) as [d|] eqn:Hdev.
    + assert (Hx : on_characteristic connection uuid characteristic properties w
                   = on_characteristic_loop (services_of w d)
                       (upper (hex (rev uuid))) characteristic properties w).
      { unfold on_characteristic, bind, gets. rewrite Hdev.
        destruct (on_characteristic_loop _ _ _ _ w) as [[r w1] t1]. reflexivity. }
      rewrite Hx, on_characteristic_loop_first_discovering.
      destruct (find _ (services_of w d)); repeat split.
    + unfold on_characteristic, bind, gets. rewrite Hdev. repeat split.
  - unfold on_characteristic_value, bind, gets.
    destruct (att_opcode =? ATT_OPCODE_HANDLE_VALUE_INDICATION (lib w))%Z;
      cbn -[hex];
      (destruct (get_device_by_handle w connection) as [d|]; cbn -[hex];
       [destruct (Device_get_characteristic_by_handle w d characteristic);
        cbn -[hex]|]);
      repeat split.
  - destruct (get_device_by_handle w connection) as [d|] eqn:Hdev.
    + rewrite (on_procedure_completed_resolved w connection d Hdev).
      destruct (first_pending_marker w d) as [[s|c]|]; repeat split.
    + unfold on_procedure_completed, bind, gets. rewrite Hdev. repeat split.
  - repeat split.
Qed.

Lemma run_iteration_cases (i : Input) (w : World) :
  run_iteration i w =
  match i with
  | Interrupted => (Ok tt, world (stop w), [stop_effect])
  | Received None => (Ok tt, w, [])
  | Received (Some e) =>
      if (is_ready w || is_boot e)%bool then dispatch e w else (Ok tt, w, [])
  end.
Proof.
  unfold run_iteration, try_except_KeyboardInterrupt, bind, gets.
  destruct i as [[e|]|]; cbn; try reflexivity.
  destruct (is_ready w || is_boot e)%bool; cbn; [|reflexivity].
  destruct (dispatch_frame e w) as (Hr & _).
  destruct (dispatch e w) as [[r w1] t1]. cbn in Hr. subst r. reflexivity.
Qed.

Lemma run_iteration_frame (i : Input) (w : World) :
  result (run_iteration i w) = Ok tt
  /\ is_running (world (run_iteration i w))
     = match i with Interrupted => false | _ => is_running w end
  /\ (is_ready w = true -> is_ready (world (run_iteration i w)) = true).
Proof.
  rewrite run_iteration_cases.
  destruct i as [[e|]|]; try (repeat split; auto; fail).
  destruct (is_ready w || is_boot e)%bool eqn:E; [|repeat split; auto].
  destruct (dispatch_frame e w) as (Hr & Hrun & Hready).
  split; [exact Hr|]. split; [exact Hrun|].
  intros _. now rewrite Hready.
Qed.

Lemma run_loop_cons (s : Step) (rest : list Step) (t : WatchdogThread) (w : World) :
  run_loop (s :: rest) t w =
  match s with
  | Loop i =>
      if is_running w
      then preceded_by (effects (run_iteration i w))
             (run_loop rest t (world (run_iteration i w)))
      else (Ok t, w, [])
  | WatchdogWakes =>
      match t with
      | Returned => run_loop rest Returned w
      | Waiting retry =>
          if is_ready w then run_loop rest Returned w
          else if (retry <? MAX_RETRY_ATTEMPTS)%Z
               then preceded_by [Call bt_system_reboot]
                      (run_loop rest (Waiting (retry + 1)) w)
               else preceded_by [stop_effect] (run_loop rest Returned (world (stop w)))
      end
  | StopCalled => preceded_by [stop_effect] (run_loop rest t (world (stop w)))
  end.
Proof.
  destruct s as [i| |]; cbn [run_loop].
  - unfold bind, gets. destruct (is_running w); [|reflexivity].
    destruct (run_iteration_frame i w) as (Hr & _).
    destruct (run_iteration i w) as [[r w1] t1]. cbn in Hr. subst r.
    cbn [result world effects fst snd].
    destruct (run_loop rest t w1) as [[r2 w2] t2]. reflexivity.
  - unfold bind. rewrite watchdog_wakes_cases.
    destruct t as [retry|].
    + destruct (is_ready w);
        [destruct (run_loop rest Returned w) as [[r2 w2] t2]; reflexivity|].
      destruct (retry <? MAX_RETRY_ATTEMPTS)%Z.
      * destruct (run_loop rest (Waiting (retry + 1)) w) as [[r2 w2] t2]. reflexivity.
      * destruct (run_loop rest Returned (world (stop w))) as [[r2 w2] t2]. reflexivity.
    + destruct (run_loop rest Returned w) as [[r2 w2] t2]. reflexivity.
  - unfold bind. cbn [stop set_is_running].
    destruct (run_loop rest t _) as [[r2 w2] t2]. reflexivity.
Qed.

Lemma run_loop_frame (schedule : list Step) :
  forall (w : World) (t : WatchdogThread),
    (exists t', result (run_loop schedule t w) = Ok t')
    /\ (is_ready w = true -> is_ready (world (run_loop schedule t w)) = true)
    /\ (is_running w = false -> is_running (world (run_loop schedule t w)) = false).
Proof.
  induction schedule as [|s rest IH]; intros w t.
  - split; [now exists t|]. split; auto.
  - rewrite run_loop_cons. destruct s as [i| |].
    + destruct (is_running w) eqn:Hrun.
      * destruct (run_iteration_frame i w) as (_ & Hrun1 & Hready1).
        destruct (IH (world (run_iteration i w)) t) as (Hr2 & Hready2 & Hrun2).
        unfold preceded_by. cbn [result world effects fst snd].
        split; [exact Hr2|]. split; [auto|]. intros H. discriminate H.
      * split; [now exists t|]. split; auto.
    + destruct t as [retry|].
      * destruct (is_ready w) eqn:Hready.
        { destruct (IH w Returned) as (Hr2 & Hready2 & Hrun2).
          split; [exact Hr2|]. split; [intros _; exact (Hready2 Hready) | exact Hrun2]. }
        destruct (retry <? MAX_RETRY_ATTEMPTS)%Z;
          unfold preceded_by; cbn [result world effects fst snd].
        -- destruct (IH w (Waiting (retry + 1))) as (Hr2 & _ & Hrun2).
           split; [exact Hr2|]. split; [intros H; discriminate H | exact Hrun2].
        -- destruct (IH (world (stop w)) Returned) as (Hr2 & _ & Hrun2).
           split; [exact Hr2|]. split; [intros H; discriminate H|].
           intros _. now apply Hrun2.
      * apply IH.
    + unfold preceded_by. cbn [result world effects fst snd].
      destruct (IH (world (stop w)) t) as (Hr2 & Hready2 & Hrun2).
      split; [exact Hr2|]. split; [exact Hready2|]. intros _. now apply Hrun2.
Qed.



(** ** Leaving the event loop *)

Lemma stop_same_entities (w : World) : same_entities w (world (stop w)).
Proof. repeat split. Qed.

(** With the running flag cleared the event loop takes no step: what still
    happens up to its next test of the flag is what the other threads do. *)
Lemma run_loop_stopped (schedule : list Step) :
  forall (w : World) (t : WatchdogThread),
    is_running w = false ->
    run_loop schedule t w = run_loop (until_next_test schedule) t w
    /\ same_entities w (world (run_loop schedule t w))
    /\ Forall other_thread (effects (run_loop schedule t w)).
Proof.
  induction schedule as [|s rest IH]; intros w t Hrun.
  - split; [reflexivity|]. split; [repeat split | constructor].
  - destruct s as [i| |]; cbn [until_next_test]; rewrite !run_loop_cons.
    + rewrite Hrun. split; [reflexivity|]. split; [repeat split | constructor].
    + destruct t as [retry|]; [|now apply IH].
      destruct (is_ready w); [now apply IH|].
      destruct (retry <? MAX_RETRY_ATTEMPTS)%Z.
      * destruct (IH w (Waiting (retry + 1)) Hrun) as (He & Hs & Hf).
        rewrite <- He. unfold preceded_by. cbn [result world effects fst snd].
        split; [reflexivity|]. split; [exact Hs|].
        constructor; [now left | exact Hf].
      * destruct (IH (world (stop w)) Returned eq_refl) as (He & Hs & Hf).
        rewrite <- He. unfold preceded_by. cbn [result world effects fst snd].
        split; [reflexivity|].
        split; [exact (same_entities_trans _ _ _ (stop_same_entities w) Hs)|].
        constructor; [now right | exact Hf].
    + destruct (IH (world (stop w)) t eq_refl) as (He & Hs & Hf).
      rewrite <- He. unfold preceded_by. cbn [result world effects fst snd].
      split; [reflexivity|].
      split; [exact (same_entities_trans _ _ _ (stop_same_entities w) Hs)|].
      constructor; [now right | exact Hf].
Qed.

Lemma run_loop_cleared (schedule : list Step) :
  forall (w : World) (t : WatchdogThread),
    existsb clears_flag schedule = true ->
    is_running (world (run_loop schedule t w)) = false.
Proof.
  induction schedule as [|s rest IH]; intros w t Hc; [discriminate Hc|].
  cbn [existsb] in Hc. rewrite run_loop_cons.
  destruct s as [i| |].
  - destruct (is_running w) eqn:Hrun; [|exact Hrun].
    unfold preceded_by. cbn [world fst snd].
    destruct (run_iteration_frame i w) as (_ & Hrun1 & _).
    destruct i as [e|].
    + cbn in Hc. now apply IH.
    + now apply run_loop_frame.
  - cbn in Hc. destruct t as [retry|]; [|now apply IH].
    destruct (is_ready w); [now apply IH|].
    destruct (retry <? MAX_RETRY_ATTEMPTS)%Z; unfold preceded_by; cbn [world fst snd];
      now apply IH.
  - unfold preceded_by. cbn [world fst snd]. now apply run_loop_frame.
Qed.

Lemma wakes_cons (s : Step) (rest : list Step) :
  wakes (s :: rest) = match s with WatchdogWakes => S (wakes rest) | _ => wakes rest end.
Proof. destruct s as [i| |]; reflexivity. Qed.

Lemma run_loop_keeps_running (schedule : list Step) :
  forall (w : World) (t : WatchdogThread),
    existsb clears_flag schedule = false ->
    (is_ready w = true
     \/ match t with
        | Waiting retry => (Z.of_nat (wakes schedule) + retry <= MAX_RETRY_ATTEMPTS)%Z
        | Returned => True
        end) ->
    is_running (world (run_loop schedule t w)) = is_running w.
Proof.
  induction schedule as [|s rest IH]; intros w t Hc Hw; [reflexivity|].
  cbn [existsb] in Hc. apply orb_false_elim in Hc. destruct Hc as [Hs Hc].
  rewrite run_loop_cons. rewrite wakes_cons in Hw.
  destruct s as [i| |].
  - destruct (is_running w) eqn:Hrun; [|exact Hrun].
    unfold preceded_by. cbn [world fst snd].
    destruct (run_iteration_frame i w) as (_ & Hrun1 & Hready1).
    rewrite IH; [|exact Hc|].
    + rewrite Hrun1. destruct i as [e|]; [exact Hrun | discriminate Hs].
    + destruct Hw as [Hw|Hw]; [left; now apply Hready1 | right; exact Hw].
  - destruct t as [retry|]; [|apply IH; [exact Hc | now right]].
    destruct (is_ready w) eqn:Hready; [apply IH; [exact Hc | now right]|].
    destruct Hw as [Hw|Hw]; [discriminate Hw|].
    destruct (Z.ltb_spec retry MAX_RETRY_ATTEMPTS) as [Hlt|Hge]; [|lia].
    unfold preceded_by. cbn [world fst snd].
    apply IH; [exact Hc|]. right. lia.
  - discriminate Hs.
Qed.

Lemma run_loop_watchdog_gives_up (schedule : list Step) :
  forall (w : World) (retry : Z),
    is_ready w = false ->
    forallb not_boot schedule = true ->
    (retry <= MAX_RETRY_ATTEMPTS < Z.of_nat (wakes schedule) + retry)%Z ->
    is_running (world (run_loop schedule (Waiting retry) w)) = false.
Proof.
  induction schedule as [|s rest IH]; intros w retry Hready Hboot Hw.
  - change (wakes []) with 0 in Hw. lia.
  - cbn [forallb] in Hboot. apply andb_prop in Hboot. destruct Hboot as [Hs Hrest].
    rewrite run_loop_cons. rewrite wakes_cons in Hw.
    destruct s as [i| |].
    + destruct (is_running w) eqn:Hrun; [|exact Hrun].
      unfold preceded_by. cbn [world fst snd].
      destruct (run_iteration_not_ready w i Hready Hs) as (_ & _ & Hy & _).
      exact (IH (world (run_iteration i w)) retry Hy Hrest Hw).
    + rewrite Hready.
      destruct (Z.ltb_spec retry MAX_RETRY_ATTEMPTS) as [Hlt|Hge].
      * unfold preceded_by. cbn [world fst snd].
        apply (IH w (retry + 1)%Z Hready Hrest). lia.
      * unfold preceded_by. cbn [world fst snd]. now apply run_loop_frame.
    + unfold preceded_by. cbn [world fst snd]. now apply run_loop_frame.
Qed.

Lemma run_loop_after_clear (before : list Step) (s : Step) (after : list Step) :
  clears_flag s = true ->
  forall (w : World) (t : WatchdogThread),
    run_loop (before ++ s :: after) t w
    = run_loop (before ++ s :: until_next_test after) t w.
Proof.
  intros Hs. induction before as [|a before IH]; intros w t.
  - cbn [app]. rewrite !run_loop_cons.
    destruct s as [[e|]| |]; try discriminate Hs.
    + destruct (is_running w); [|reflexivity].
      destruct (run_iteration_frame Interrupted w) as (_ & Hrun1 & _).
      now rewrite (proj1 (run_loop_stopped after _ t Hrun1)).
    + now rewrite (proj1 (run_loop_stopped after (world (stop w)) t eq_refl)).
  - cbn [app]. rewrite !run_loop_cons.
    destruct a as [i| |].
    + destruct (is_running w); [now rewrite IH | reflexivity].
    + destruct t as [retry|]; [|apply IH].
      destruct (is_ready w); [apply IH|].
      destruct (retry <? MAX_RETRY_ATTEMPTS)%Z; now rewrite IH.
    + now rewrite IH.
Qed.

(** The watchdog thread on its own, in a state in which the ready flag does
    not change: its four waits, one after the other, do what [watchdog] does
    when every wait gives that flag. *)
Lemma watchdog_thread_alone (w : World) :
  let y := run_loop [WatchdogWakes; WatchdogWakes; WatchdogWakes; WatchdogWakes]
             (Waiting 0) w in
  let x := watchdog (fun _ => is_ready w) w in
  result y = Ok Returned /\ world y = world x /\ effects y = effects x.
Proof.
  intros y x. subst y x. rewrite watchdog_cases.
  destruct (is_ready w) eqn:Hready.
  - repeat (rewrite run_loop_cons; rewrite ?Hready; cbv beta iota).
    cbn. repeat split.
  - rewrite run_loop_cons, Hready.
    change (0 <? MAX_RETRY_ATTEMPTS)%Z with true. cbv beta iota.
    rewrite run_loop_cons, Hready.
    change (0 + 1 <? MAX_RETRY_ATTEMPTS)%Z with true. cbv beta iota.
    rewrite run_loop_cons, Hready.
    change (0 + 1 + 1 <? MAX_RETRY_ATTEMPTS)%Z with true. cbv beta iota.
    rewrite run_loop_cons, Hready.
    change (0 + 1 + 1 + 1 <? MAX_RETRY_ATTEMPTS)%Z with false. cbv beta iota.
    cbn. repeat split.
Qed.

Ltac no_transport :=
  let H := fresh "H" in
  intros ? H; cbn in H;
  repeat (destruct H as [H|H]; [discriminate H|]); try contradiction.

Lemma dispatch_no_transport (e : Event) (w : World) :
  forall operation, ~ In (Transport operation) (effects (dispatch e w)).
Proof.
  destruct e as [address data event_flags address_type rssi | | address connection
                | connection | connection uuid service
                | connection uuid characteristic properties
                | connection characteristic att_opcode value | connection | name];
    cbn [dispatch].
  - destruct (get_device_by_address w (upper address)) as [d|] eqn:Hfound.
    + rewrite (on_advertisement_known _ _ _ _ _ _ _ Hfound).
      destruct (Device_on_advertisement_fields d (upper (hex data)) event_flags
                  address_type rssi w) as (_ & He & _).
      rewrite He. no_transport.
    + rewrite (on_advertisement_unknown _ _ _ _ _ _ Hfound). cbn zeta.
      cbn [effects snd].
      destruct (Device_on_advertisement_fields (next_device w) (upper (hex data))
                  event_flags address_type rssi
                  (world ((new_device (Device.init (upper address)) ;;
                           devices_append (next_device w)) w))) as (_ & He & _).
      rewrite He. no_transport.
  - no_transport.
  - unfold on_connection_opened, bind, gets.
    destruct (get_device_by_address w (upper address)); no_transport.
  - unfold on_connection_closed, bind, gets.
    destruct (get_device_by_handle w connection); no_transport.
  - unfold on_service, bind, gets.
    destruct (get_device_by_handle w connection); no_transport.
  - destruct (get_device_by_handle w connection) as [d|] eqn:Hdev.
    + assert (Hx : on_characteristic connection uuid characteristic properties w
                   = on_characteristic_loop (services_of w d)
                       (upper (hex (rev uuid))) characteristic properties w).
      { unfold on_characteristic, bind, gets. rewrite Hdev.
        destruct (on_characteristic_loop _ _ _ _ w) as [[r w1] t1]. reflexivity. }
      rewrite Hx, on_characteristic_loop_first_discovering.
      destruct (find _ (services_of w d)); [unfold bind|]; no_transport.
    + unfold on_characteristic, bind, gets. rewrite Hdev. no_transport.
  - unfold on_characteristic_value, bind, gets.
    destruct (att_opcode =? ATT_OPCODE_HANDLE_VALUE_INDICATION (lib w))%Z;
      cbn -[hex];
      (destruct (get_device_by_handle w connection) as [d|]; cbn -[hex];
       [destruct (Device_get_characteristic_by_handle w d characteristic);
        cbn -[hex]|]);
      no_transport.
  - destruct (get_device_by_handle w connection) as [d|] eqn:Hdev.
    + rewrite (on_procedure_completed_resolved w connection d Hdev).
      unfold discovery_command.
      destruct (first_pending_marker w d) as [[s|c]|]; cbn [advance];
        match goal with
        | |- context [find ?f ?l] => destruct (find f l)
        end; no_transport.
    + unfold on_procedure_completed, bind, gets. rewrite Hdev. no_transport.
  - no_transport.
Qed.

Lemma run_loop_no_transport (schedule : list Step) :
  forall (w : World) (t : WatchdogThread) (operation : string),
    ~ In (Transport operation) (effects (run_loop schedule t w)).
Proof.
  induction schedule as [|s rest IH]; intros w t operation; [intros []|].
  rewrite run_loop_cons. destruct s as [i| |].
  - destruct (is_running w); [|intros []].
    unfold preceded_by. cbn [effects snd]. intros Hin.
    apply in_app_or in Hin. destruct Hin as [Hin|Hin]; [|exact (IH _ _ _ Hin)].
    rewrite run_iteration_cases in Hin.
    destruct i as [[e|]|].
    + destruct (is_ready w || is_boot e)%bool; [|destruct Hin].
      exact (dispatch_no_transport e w _ Hin).
    + destruct Hin.
    + destruct Hin as [Hin|[]]. discriminate Hin.
  - destruct t as [retry|]; [|apply IH].
    destruct (is_ready w); [apply IH|].
    destruct (retry <? MAX_RETRY_ATTEMPTS)%Z; unfold preceded_by; cbn [effects snd];
      (intros [Hin|Hin]; [discriminate Hin | exact (IH _ _ _ Hin)]).
  - unfold preceded_by. cbn [effects snd].
    intros [Hin|Hin]; [discriminate Hin | exact (IH _ _ _ Hin)].
Qed.

(** X11. The event loop ends when its running flag is cleared, which three
    things do: a keyboard interrupt raised in the loop, a call of stop by the
    window's closeEvent, and the watchdog thread, when its wait has timed out
    once more than MAX_RETRY_ATTEMPTS times before a Boot event was handled.
    A run in which one of these happens ends with the flag cleared and, as
    its last effect, the transport closed; after an interrupt or a call of
    stop the loop takes no further input, so that the run is what it would
    be if the steps after the loop's next test of the flag were not there,
    and meanwhile only the other threads act, on no entity.  A run with no
    interrupt and no call of stop in which the watchdog's wait ends at most
    MAX_RETRY_ATTEMPTS times, or only after the ready flag is set, keeps the
    flag set and does not close the transport.  The watchdog thread taken
    alone does what the watchdog function does. *)
Theorem running_flag_ends_the_event_loop :
  forall (l : BGLib) (schedule : list Step),
    let x := run schedule (init l) in
    result x = Ok tt
    /\ (is_running (world x) = false ->
        exists t, effects x = Transport "open" :: Mutate ScannerAppObject "is_running"
                              :: t ++ [Transport "close"])
    /\ (is_running (world x) = true -> ~ In (Transport "close") (effects x))
    /\ (existsb clears_flag schedule = true -> is_running (world x) = false)
    /\ (forallb not_boot schedule = true ->
        (MAX_RETRY_ATTEMPTS < Z.of_nat (wakes schedule))%Z ->
        is_running (world x) = false)
    /\ (existsb clears_flag schedule = false ->
        (Z.of_nat (wakes schedule) <= MAX_RETRY_ATTEMPTS)%Z ->
        is_running (world x) = true)
    /\ (forall (before after : list Step) (s : Step),
          clears_flag s = true ->
          run (before ++ s :: after) (init l)
          = run (before ++ s :: until_next_test after) (init l))
    /\ (forall (w : World) (t : WatchdogThread) (rest : list Step),
          (is_running w = false ->
           let y := run_loop rest t w in
           y = run_loop (until_next_test rest) t w
           /\ is_running (world y) = false
           /\ same_entities w (world y)
           /\ Forall other_thread (effects y))
          /\ (is_ready w = true ->
              existsb clears_flag rest = false ->
              is_running (world (run_loop rest t w)) = is_running w))
    /\ (forall w : World,
          let y := run_loop [WatchdogWakes; WatchdogWakes; WatchdogWakes; WatchdogWakes]
                     (Waiting 0) w in
          world y = world (watchdog (fun _ => is_ready w) w)
          /\ effects y = effects (watchdog (fun _ => is_ready w) w)).
Proof.
  intros l schedule x.
  set (w0 := world ((transport "open" ;; set_is_running true) (init l))).
  assert (Hrun : forall sch,
             run sch (init l) =
             (Ok tt, world (run_loop sch (Waiting 0) w0),
              Transport "open" :: Mutate ScannerAppObject "is_running"
              :: effects (run_loop sch (Waiting 0) w0)
              ++ (if is_running (world (run_loop sch (Waiting 0) w0))
                  then [] else [Transport "close"]))).
  { intros sch. apply run_after_loop. apply run_loop_frame. }
  subst x. rewrite (Hrun schedule). cbn [result world effects fst snd].
  set (y := run_loop schedule (Waiting 0) w0).
  split; [reflexivity|].
  split; [intros H; rewrite H; now exists (effects y)|].
  split.
  { intros H. rewrite H, app_nil_r. intros [Hin|[Hin|Hin]]; try discriminate.
    exact (run_loop_no_transport schedule w0 (Waiting 0) _ Hin). }
  split; [intros Hc; now apply run_loop_cleared|].
  split.
  { intros Hboot Hw. apply run_loop_watchdog_gives_up; [reflexivity | exact Hboot|].
    unfold MAX_RETRY_ATTEMPTS in *. lia. }
  split.
  { intros Hc Hw. subst y. rewrite run_loop_keeps_running; [reflexivity | exact Hc|].
    right. lia. }
  split.
  { intros before after s Hs. rewrite !Hrun.
    now rewrite (run_loop_after_clear before s after Hs). }
  split.
  { intros w t rest. split.
    - intros Hstopped. cbn zeta.
      destruct (run_loop_stopped rest w t Hstopped) as (He & Hs & Hf).
      split; [exact He|]. split; [now apply run_loop_frame|].
      split; [exact Hs | exact Hf].
    - intros Hready Hc. apply run_loop_keeps_running; [exact Hc | now left]. }
  intros w. destruct (watchdog_thread_alone w) as (_ & Hw & He).
  split; [exact Hw | exact He].
Qed.

Lemma running_flag_ends_the_event_loop_witness :
  let schedule :=
    [WatchdogWakes;
     Loop (Received (Some (bt_evt_scanner_legacy_advertisement_report
                             "00:11:22:33:44:55" [] 1 1 (-100))));
     WatchdogWakes; WatchdogWakes; Loop (Received None); WatchdogWakes;
     Loop (Received (Some (bt_evt_connection_closed 1)))] in
  let x := run schedule (init example_lib) in
  is_running (world x) = false
  /\ effects x = [Transport "open"; Mutate ScannerAppObject "is_running";
                  Call bt_system_reboot; Call bt_system_reboot; Call bt_system_reboot;
                  stop_effect; Transport "close"].
Proof.
  intros schedule x.
  destruct (running_flag_ends_the_event_loop example_lib schedule)
    as (_ & _ & _ & _ & H & _).
  split; [|vm_compute; reflexivity].
  apply H; [reflexivity|]. vm_compute. reflexivity.
Defined.

(** ** Lookups *)

Lemma find_flat_map_first_hit {A B : Type} (p : B -> bool) (f : A -> list B) (l : list A) :
  find p (flat_map f l) = first_hit (map (fun a => find p (f a)) l).
Proof.
  induction l as [|a l IH]; [reflexivity|].
  cbn [flat_map map first_hit]. rewrite find_app.
  destruct (find p (f a)); [reflexivity | exact IH].
Qed.

Lemma find_first {A : Type} (p : A -> bool) (l : list A) (a : A) :
  find p l = Some a ->
  exists before after,
    l = before ++ a :: after /\ p a = true /\ forall b, In b before -> p b = false.
Proof.
  induction l as [|b l IH]; intros H; [discriminate|].
  cbn [find] in H. destruct (p b) eqn:Hb.
  - injection H as <-. exists [], l. repeat split; [exact Hb | intros b' []].
  - destruct (IH H) as (before & after & -> & Ha & Hbefore).
    exists (b :: before), after. repeat split; [exact Ha|].
    intros b' [<-|Hin]; [exact Hb | now apply Hbefore].
Qed.

Lemma find_first_with {A K : Type} (key : A -> K) (eqb : K -> K -> bool)
    (k : K) (l : list A) :
  (forall x y, eqb x y = true <-> x = y) ->
  first_with key k l (find (fun a => eqb (key a) k) l).
Proof.
  intros Heqb.
  assert (Hneq : forall x y, eqb x y = false <-> x <> y).
  { intros x y. split.
    - intros H Hxy. apply Heqb in Hxy. congruence.
    - intros H. destruct (eqb x y) eqn:E; [|reflexivity].
      apply Heqb in E. contradiction. }
  split.
  - intros a H. destruct (find_first _ _ _ H) as (before & after & Hl & Ha & Hb).
    exists before, after. split; [exact Hl|]. split; [now apply Heqb|].
    intros b Hin. apply Hneq. now apply Hb.
  - split.
    + intros H b Hin. apply Hneq. exact (find_none _ _ H b Hin).
    + intros H. apply find_all_false. intros b Hin. apply Hneq. now apply H.
Qed.

(** X12. The six lookups of the entity model each return the first exact
    match in list order, and nothing exactly when nothing matches.  A
    service is looked up among the services of the device, by handle or by
    UUID; a characteristic is looked up among the characteristics of a
    service, by handle or by UUID, and in the device among the
    characteristics of its services, service after service.  The lookup in
    the device is the first result that is not empty among the lookups in its
    services, in order, and what it returns is listed under the device. *)
Theorem lookups_return_the_first_match :
  forall (w : World) (d : DeviceRef) (s : ServiceRef),
    (forall handle,
        first_with (fun s' => Service.handle (service_heap w s')) handle
          (services_of w d) (Device_get_service_by_handle w d handle))
    /\ (forall uuid,
          first_with (fun s' => Service.uuid (service_heap w s')) uuid
            (services_of w d) (Device_get_service_by_uuid w d uuid))
    /\ (forall handle,
          first_with (fun c => Characteristic.handle (characteristic_heap w c)) handle
            (Service.characteristics (service_heap w s))
            (Service_get_characteristic_by_handle w s handle))
    /\ (forall uuid,
          first_with (fun c => Characteristic.uuid (characteristic_heap w c)) uuid
            (Service.characteristics (service_heap w s))
            (Service_get_characteristic_by_uuid w s uuid))
    /\ (forall handle,
          first_with (fun c => Characteristic.handle (characteristic_heap w c)) handle
            (characteristics_of w d) (Device_get_characteristic_by_handle w d handle))
    /\ (forall uuid,
          first_with (fun c => Characteristic.uuid (characteristic_heap w c)) uuid
            (characteristics_of w d) (Device_get_characteristic_by_uuid w d uuid))
    /\ (forall handle,
          Device_get_characteristic_by_handle w d handle
          = first_hit (map (fun s' => Service_get_characteristic_by_handle w s' handle)
                           (services_of w d)))
    /\ (forall uuid,
          Device_get_characteristic_by_uuid w d uuid
          = first_hit (map (fun s' => Service_get_characteristic_by_uuid w s' uuid)
                           (services_of w d)))
    /\ (forall handle c,
          Device_get_characteristic_by_handle w d handle = Some c ->
          In c (characteristics_of w d)
          /\ Characteristic.handle (characteristic_heap w c) = handle)
    /\ (forall uuid c,
          Device_get_characteristic_by_uuid w d uuid = Some c ->
          In c (characteristics_of w d)
          /\ Characteristic.uuid (characteristic_heap w c) = uuid).
Proof.
  intros w d s.
  split; [intros handle; exact (find_first_with _ Z.eqb handle _ Z.eqb_eq)|].
  split; [intros uuid; exact (find_first_with _ String.eqb uuid _ String.eqb_eq)|].
  split; [intros handle; exact (find_first_with _ Z.eqb handle _ Z.eqb_eq)|].
  split; [intros uuid; exact (find_first_with _ String.eqb uuid _ String.eqb_eq)|].
  split; [intros handle; exact (find_first_with _ Z.eqb handle _ Z.eqb_eq)|].
  split; [intros uuid; exact (find_first_with _ String.eqb uuid _ String.eqb_eq)|].
  split; [intros handle; apply find_flat_map_first_hit|].
  split; [intros uuid; apply find_flat_map_first_hit|].
  split.
  - intros handle c H. apply find_some in H. destruct H as [Hin Hh].
    split; [exact Hin | now apply Z.eqb_eq].
  - intros uuid c H. apply find_some in H. destruct H as [Hin Hu].
    split; [exact Hin | now apply String.eqb_eq].
Qed.

Lemma lookups_return_the_first_match_witness :
  Device_get_characteristic_by_handle discovered 0 3 = Some 0
  /\ Characteristic.handle (characteristic_heap discovered 0) = 3%Z
  /\ Service_get_characteristic_by_handle discovered 0 3 = None
  /\ Service_get_characteristic_by_handle discovered 1 3 = Some 0.
Proof.
  assert (H : Device_get_characteristic_by_handle discovered 0 3 = Some 0) by reflexivity.
  split; [exact H|].
  destruct (lookups_return_the_first_match discovered 0 0)
    as (_ & _ & Hs & _ & _ & _ & _ & _ & Hc & _).
  split; [exact (proj2 (Hc 3%Z 0 H))|].
  split; [|reflexivity].
  apply (proj2 (Hs 3%Z)). intros b Hb. vm_compute in Hb. destruct Hb.
Defined.

Lemma first_hit_app {A : Type} (l1 l2 : list (option A)) :
  first_hit (l1 ++ l2) =
  match first_hit l1 with
  | Some a => Some a
  | None => first_hit l2
  end.
Proof.
  induction l1 as [|[a|] l1 IH]; [reflexivity | reflexivity | exact IH].
Qed.

Lemma on_characteristic_world (w : World) (connection : Z) (uuid : list byte)
    (characteristic properties : Z) (d : DeviceRef) (s : ServiceRef) :
  get_device_by_handle w connection = Some d ->
  find (fun s => ServiceState_eqb (Service.state (service_heap w s)) DISCOVERING)
       (services_of w d) = Some s ->
  let c := next_characteristic w in
  let w' := world (on_characteristic connection uuid characteristic properties w) in
  devices w' = devices w
  /\ device_heap w' = device_heap w
  /\ Service.characteristics (service_heap w' s)
     = Service.characteristics (service_heap w s) ++ [c]
  /\ (forall s', s' <> s -> service_heap w' s' = service_heap w s')
  /\ Characteristic.handle (characteristic_heap w' c) = characteristic
  /\ Characteristic.uuid (characteristic_heap w' c) = uppercase_hex (rev uuid)
  /\ (forall c', c' <> c -> characteristic_heap w' c' = characteristic_heap w c').
Proof.
  intros Hdev Hfind c w'.
  assert (Hx : on_characteristic connection uuid characteristic properties w
               = on_characteristic_loop (services_of w d)
                   (upper (hex (rev uuid))) characteristic properties w).
  { unfold on_characteristic, bind, gets. rewrite Hdev.
    destruct (on_characteristic_loop _ _ _ _ w) as [[r w1] t1]. reflexivity. }
  subst w'. rewrite Hx, on_characteristic_loop_first_discovering, Hfind.
  unfold bind. cbn -[upper hex rev]. rewrite !update_same. cbn -[upper hex rev].
  rewrite upper_hex.
  repeat (split; [reflexivity|]).
  split; [intros s' Hne; now apply update_other|].
  split; [reflexivity|]. split; [reflexivity|].
  intros c' Hne. now apply update_other.
Qed.

(** X13. What is recorded first is what the lookups keep finding.  In a
    state reached from the initial one, after a ServiceDiscovered event the
    device's service lookup by that handle returns the service already listed
    with the handle, if there is one, and the new service otherwise.  After a
    CharacteristicDiscovered event the new characteristic is found by its
    handle within its service unless the service already lists that handle;
    a value report for the handle reaches the new characteristic when the
    device had none with that handle, but when a service listed before the
    one being discovered already has a characteristic with the handle (as
    after a reconnection, the services never being cleared), value reports
    keep going to that earlier characteristic. *)
Theorem first_recorded_entity_is_found :
  forall (l : BGLib) (actions : list Action) (connection : Z) (d : DeviceRef),
    let w := perform_all actions (init l) in
    get_device_by_handle w connection = Some d ->
    (forall (uuid : list byte) (service : Z),
        let w' := world (on_service connection uuid service w) in
        Device_get_service_by_handle w' d service
        = match Device_get_service_by_handle w d service with
          | Some s0 => Some s0
          | None => Some (next_service w)
          end)
    /\ (forall (uuid : list byte) (characteristic properties : Z)
               (s : ServiceRef) (before after : list ServiceRef),
          find (fun s => ServiceState_eqb (Service.state (service_heap w s)) DISCOVERING)
               (services_of w d) = Some s ->
          services_of w d = before ++ s :: after ->
          let w' := world (on_characteristic connection uuid characteristic properties w) in
          Service_get_characteristic_by_handle w' s characteristic
          = match Service_get_characteristic_by_handle w s characteristic with
            | Some c0 => Some c0
            | None => Some (next_characteristic w)
            end
          /\ (Device_get_characteristic_by_handle w d characteristic = None ->
              value_target w' connection characteristic = Some (next_characteristic w))
          /\ (forall c0,
                first_hit (map (fun s' => Service_get_characteristic_by_handle w s'
                                            characteristic) before) = Some c0 ->
                value_target w' connection characteristic = Some c0)).
Proof.
  intros l actions connection d w Hdev.
  assert (Hwf : store_wf w) by (apply perform_all_store_wf, init_store_wf).
  assert (Hin : In d (devices w)) by (apply find_some in Hdev; tauto).
  destruct (store_wf_ownership w Hwf) as (_ & _ & Hnodup).
  destruct (Hnodup d Hin) as [Hnd_s _].
  destruct Hwf as (_ & _ & Hs_alloc & _ & Hc_alloc & _).
  rewrite Forall_forall in Hs_alloc, Hc_alloc.
  assert (Hs_old : forall s, In s (services_of w d) -> s <> next_service w).
  { intros s Hs. assert (In s (all_services w))
      by (unfold all_services; apply in_flat_map; exists d; now split).
    specialize (Hs_alloc s H). lia. }
  assert (Hc_old : forall s c, In s (services_of w d) ->
                     In c (Service.characteristics (service_heap w s)) ->
                     c <> next_characteristic w).
  { intros s c Hs Hc.
    assert (In c (all_characteristics w)).
    { unfold all_characteristics. apply in_flat_map. exists s. split; [|exact Hc].
      unfold all_services. apply in_flat_map. exists d. now split. }
    specialize (Hc_alloc c H). lia. }
  split.
  - intros uuid service w'.
    assert (Hsv : services_of w' d = services_of w d ++ [next_service w]).
    { subst w'. unfold on_service, bind, gets, services_of. rewrite Hdev.
      cbn -[upper hex rev]. now rewrite update_same. }
    assert (Hnew : Service.handle (service_heap w' (next_service w)) = service).
    { subst w'. unfold on_service, bind, gets. rewrite Hdev.
      cbn -[upper hex rev]. now rewrite update_same. }
    assert (Hold : forall s, s <> next_service w -> service_heap w' s = service_heap w s).
    { intros s Hne. subst w'. unfold on_service, bind, gets. rewrite Hdev.
      cbn -[upper hex rev]. now rewrite update_other. }
    unfold Device_get_service_by_handle. rewrite Hsv, find_app.
    rewrite (find_ext_in _ (fun s => (Service.handle (service_heap w s) =? service)%Z)
               (services_of w d))
      by (intros s Hs; now rewrite (Hold s (Hs_old s Hs))).
    destruct (find _ (services_of w d)); [reflexivity|].
    cbn [find]. now rewrite Hnew, Z.eqb_refl.
  - intros uuid characteristic properties s before after Hfind Hsplit w'.
    destruct (on_characteristic_world w connection uuid characteristic properties
                d s Hdev Hfind) as (Hd & Hh & Hcs & Hso & Hch & _ & Hco).
    fold w' in Hd, Hh, Hcs, Hso, Hch, Hco.
    set (c := next_characteristic w) in *.
    assert (Hs_in : In s (services_of w d)) by (apply find_some in Hfind; tauto).
    assert (Hsv : services_of w' d = services_of w d)
      by (unfold services_of; now rewrite Hh).
    assert (Hp_old : forall s' c', In s' (services_of w d) ->
              In c' (Service.characteristics (service_heap w s')) ->
              (Characteristic.handle (characteristic_heap w' c') =? characteristic)%Z
              = (Characteristic.handle (characteristic_heap w c') =? characteristic)%Z).
    { intros s' c' Hs' Hc'. now rewrite (Hco c' (Hc_old s' c' Hs' Hc')). }
    assert (Hdev' : get_device_by_handle w' connection = Some d).
    { rewrite <- Hdev. apply get_device_by_handle_ext; [exact Hd|].
      intros d'. now rewrite Hh. }
    assert (Hservice : forall s', In s' (services_of w d) ->
              Service_get_characteristic_by_handle w' s' characteristic
              = if Nat.eqb s' s
                then match Service_get_characteristic_by_handle w s characteristic with
                     | Some c0 => Some c0
                     | None => Some c
                     end
                else Service_get_characteristic_by_handle w s' characteristic).
    { intros s' Hs'. unfold Service_get_characteristic_by_handle.
      destruct (Nat.eqb_spec s' s) as [->|Hne].
      - rewrite Hcs, find_app.
        rewrite (find_ext_in _ (fun c' => (Characteristic.handle (characteristic_heap w c')
                                            =? characteristic)%Z)
                   (Service.characteristics (service_heap w s)))
          by (intros c' Hc'; now apply (Hp_old s)).
        destruct (find _ (Service.characteristics (service_heap w s))); [reflexivity|].
        cbn [find]. now rewrite Hch, Z.eqb_refl.
      - rewrite (Hso s' Hne). apply find_ext_in. intros c' Hc'. now apply (Hp_old s'). }
    assert (Hdevice : Device_get_characteristic_by_handle w' d characteristic
                      = first_hit (map (fun s' => Service_get_characteristic_by_handle
                                                    w' s' characteristic)
                                       (services_of w d))).
    { unfold Device_get_characteristic_by_handle, characteristics_of. rewrite Hsv.
      apply find_flat_map_first_hit. }
    assert (Hnotin : ~ In s before).
    { rewrite Hsplit in Hnd_s. apply NoDup_remove_2 in Hnd_s.
      intros H. apply Hnd_s. apply in_or_app. now left. }
    assert (Hbefore : map (fun s' => Service_get_characteristic_by_handle w' s'
                                       characteristic) before
                      = map (fun s' => Service_get_characteristic_by_handle w s'
                                         characteristic) before).
    { apply map_ext_in. intros s' Hs'.
      rewrite Hservice by (rewrite Hsplit; apply in_or_app; now left).
      destruct (Nat.eqb_spec s' s) as [->|Hne]; [contradiction | reflexivity]. }
    split; [|split].
    + rewrite (Hservice s Hs_in), Nat.eqb_refl. reflexivity.
    + intros Hnone. unfold value_target. rewrite Hdev', Hdevice, Hsplit.
      assert (Hall : forall s', In s' (services_of w d) ->
                Service_get_characteristic_by_handle w s' characteristic = None).
      { intros s' Hs'. apply find_all_false. intros c' Hc'.
        apply (find_none _ _ Hnone). unfold characteristics_of.
        apply in_flat_map. exists s'. now split. }
      rewrite map_app, first_hit_app, Hbefore.
      assert (Hb : first_hit (map (fun s' => Service_get_characteristic_by_handle w s'
                                               characteristic) before) = None).
      { clear - Hall Hsplit. assert (H : forall s', In s' before ->
            Service_get_characteristic_by_handle w s' characteristic = None)
          by (intros s' Hs'; apply Hall; rewrite Hsplit; apply in_or_app; now left).
        clear Hall Hsplit. induction before as [|b before IH]; [reflexivity|].
        cbn [map first_hit]. rewrite (H b (or_introl eq_refl)).
        apply IH. intros s' Hs'. apply H. now right. }
      rewrite Hb. cbn [map first_hit].
      rewrite (Hservice s Hs_in), Nat.eqb_refl, (Hall s Hs_in). reflexivity.
    + intros c0 Hc0. unfold value_target. rewrite Hdev', Hdevice, Hsplit.
      now rewrite map_app, first_hit_app, Hbefore, Hc0.
Qed.

Lemma first_recorded_entity_is_found_witness :
  let w := perform_all
             [Deliver (bt_evt_scanner_legacy_advertisement_report
                         "00:11:22:33:44:55" [x12; x34] 1 1 (-100));
              ConnectDevice 0 1;
              Deliver (bt_evt_connection_opened "00:11:22:33:44:55" 1);
              Deliver (bt_evt_gatt_service 1 [x00; x18] 1);
              Deliver (bt_evt_gatt_characteristic 1 [x29; x2a] 3 2);
              Deliver (bt_evt_gatt_procedure_completed 1);
              Deliver (bt_evt_connection_closed 1);
              ConnectDevice 0 1;
              Deliver (bt_evt_connection_opened "00:11:22:33:44:55" 1);
              Deliver (bt_evt_gatt_service 1 [x00; x18] 1)] (init example_lib) in
  let w' := world (on_characteristic 1 [x29; x2a] 3 2 w) in
  services_of w 0 = [0; 1]
  /\ Service.characteristics (service_heap w' 1) = [1]
  /\ value_target w' 1 3 = Some 0.
Proof.
  intros w w'.
  assert (Hdev : get_device_by_handle w 1 = Some 0) by (vm_compute; reflexivity).
  destruct (first_recorded_entity_is_found example_lib _ 1 0 Hdev) as (_ & H).
  assert (Hfind : find (fun s => ServiceState_eqb (Service.state (service_heap w s))
                                   DISCOVERING) (services_of w 0) = Some 1)
    by (vm_compute; reflexivity).
  assert (Hsplit : services_of w 0 = [0] ++ 1 :: []) by (vm_compute; reflexivity).
  destruct (H [x29; x2a] 3%Z 2%Z 1 [0] [] Hfind Hsplit) as (_ & _ & Hshadow).
  split; [vm_compute; reflexivity|].
  split; [vm_compute; reflexivity|].
  apply Hshadow. vm_compute. reflexivity.
Defined.

(** ** Addresses *)

Lemma get_device_by_address_existsb (w : World) (a : string) :
  existsb (String.eqb a) (addresses w)
  = match get_device_by_address w a with
    | Some _ => true
    | None => false
    end.
Proof.
  unfold addresses, get_device_by_address.
  induction (devices w) as [|d ds IH]; [reflexivity|].
  cbn [map existsb find]. rewrite String.eqb_sym.
  destruct (String.eqb (Device.address (device_heap w d)) a); [reflexivity | exact IH].
Qed.

Lemma perform_same_addresses (a : Action) (w : World) :
  match a with
  | Deliver (bt_evt_scanner_legacy_advertisement_report _ _ _ _ _) => True
  | _ => same_addresses w (world (perform a w))
  end.
Proof.
  destruct a as [e | device response | device | device c | device c packet
                | device c | device c]; cbn [perform].
  - destruct e as [address data event_flags address_type rssi | | address connection
                  | connection | connection uuid service
                  | connection uuid characteristic properties
                  | connection characteristic att_opcode value | connection | name];
      cbn [dispatch].
    + exact I.
    + apply same_addresses_same; reflexivity.
    + unfold on_connection_opened, bind, gets.
      destruct (get_device_by_address w (upper address)) as [d|];
        [|apply same_addresses_same; reflexivity].
      apply (write_device_same_addresses d "is_connected"
               (Device.set_is_connected true) w). intros x; reflexivity.
    + unfold on_connection_closed, bind, gets.
      destruct (get_device_by_handle w connection) as [d|];
        [|apply same_addresses_same; reflexivity].
      split; [reflexivity|]. split; [reflexivity|].
      intros d'. cbn. rewrite update_same. unfold update.
      destruct (Nat.eqb_spec d' d) as [->|Hne]; reflexivity.
    + unfold on_service, bind, gets.
      destruct (get_device_by_handle w connection) as [d|];
        [|apply same_addresses_same; reflexivity].
      apply (write_device_same_addresses d "services"
               (Device.append_service (next_service w))
               (world (new_service (Service.init (upper (hex (rev uuid))) service) w))).
      intros x; reflexivity.
    + unfold on_characteristic, bind at 1 2, gets.
      destruct (get_device_by_handle w connection) as [d|];
        [|apply same_addresses_same; reflexivity].
      destruct (on_characteristic_loop_devices (services_of w d)
                  (upper (hex (rev uuid))) characteristic properties w) as [Hd Hh].
      assert (Hn := on_characteristic_loop_next_device (services_of w d)
                      (upper (hex (rev uuid))) characteristic properties w).
      destruct (on_characteristic_loop _ _ _ _ w) as [[r w1] t1].
      apply same_addresses_same; assumption.
    + unfold on_characteristic_value, bind, gets.
      destruct (att_opcode =? ATT_OPCODE_HANDLE_VALUE_INDICATION (lib w))%Z;
        cbn -[hex];
        (destruct (get_device_by_handle w connection) as [d|]; cbn -[hex];
         [destruct (Device_get_characteristic_by_handle w d characteristic); cbn -[hex]|]);
        apply same_addresses_same; reflexivity.
    + destruct (get_device_by_handle w connection) as [d|] eqn:Hd.
      * rewrite (on_procedure_completed_resolved w connection d Hd).
        destruct (first_pending_marker w d) as [[s|c]|];
          apply same_addresses_same; reflexivity.
      * unfold on_procedure_completed, bind, gets. rewrite Hd.
        apply same_addresses_same; reflexivity.
    + apply same_addresses_same; reflexivity.
  - unfold connect_device, bind, gets.
    destruct (existsb (is_connecting w) (devices w));
      [apply same_addresses_same; reflexivity|].
    apply (write_device_same_addresses device "handle"
             (Device.set_handle (Some response)) w). intros x; reflexivity.
  - unfold disconnect_device, bind, gets.
    destruct (Device.handle (device_heap w device));
      apply same_addresses_same; reflexivity.
  - unfold read_from_characteristic, bind, gets.
    destruct (is_using_gatt_command w device);
      [|destruct (Device.is_connected (device_heap w device))];
      apply same_addresses_same; reflexivity.
  - unfold write_to_characteristic, bind, gets.
    destruct (is_using_gatt_command w device);
      [|destruct (Device.is_connected (device_heap w device));
        [destruct (fromhex packet)|]];
      apply same_addresses_same; reflexivity.
  - unfold subscribe_to_notification, bind, gets.
    destruct (is_using_gatt_command w device);
      [|destruct (Device.is_connected (device_heap w device))];
      apply same_addresses_same; reflexivity.
  - unfold subscribe_to_indication, bind, gets.
    destruct (is_using_gatt_command w device);
      [|destruct (Device.is_connected (device_heap w device))];
      apply same_addresses_same; reflexivity.
Qed.

Lemma on_advertisement_next_device (address : string) (data : list byte)
    (event_flags address_type rssi : Z) (w : World) :
  next_device (world (on_advertisement address data event_flags address_type rssi w))
  = match get_device_by_address w (upper address) with
    | Some _ => next_device w
    | None => S (next_device w)
    end.
Proof.
  destruct (get_device_by_address w (upper address)) as [d|] eqn:Hfound.
  - rewrite (on_advertisement_known _ _ _ _ _ _ _ Hfound).
    now rewrite Device_on_advertisement_next_device.
  - rewrite (on_advertisement_unknown _ _ _ _ _ _ Hfound). cbn zeta.
    cbn [world fst snd]. rewrite Device_on_advertisement_next_device. reflexivity.
Qed.

Lemma perform_addresses (a : Action) (w : World) :
  devices w = seq 0 (next_device w) ->
  let w' := world (perform a w) in
  devices w' = seq 0 (next_device w')
  /\ addresses w' = record_address (addresses w) a.
Proof.
  intros Hseq w'.
  assert (Hsame : same_addresses w w' ->
                  devices w' = seq 0 (next_device w')
                  /\ addresses w' = addresses w).
  { intros (Hd & Hn & Ha). split; [now rewrite Hd, Hn|].
    apply addresses_ext; [exact Hd | intros d _; apply Ha]. }
  assert (H := perform_same_addresses a w). fold w' in H.
  destruct a as [e | device response | device | device c | device c packet
                | device c | device c]; try (exact (Hsame H)).
  destruct e as [address data event_flags address_type rssi | | address connection
                | connection | connection uuid service
                | connection uuid characteristic properties
                | connection characteristic att_opcode value | connection | name];
    try (exact (Hsame H)).
  clear H Hsame. subst w'. cbn [perform dispatch record_address].
  rewrite get_device_by_address_existsb, on_advertisement_next_device.
  destruct (get_device_by_address w (upper address)) as [d|] eqn:Hfound.
  - destruct (on_advertisement_known_device address data event_flags address_type
                rssi w d Hfound) as (_ & _ & Hd & Ha & _).
    split; [now rewrite Hd | exact Ha].
  - assert (Halloc : devices_allocated w).
    { unfold devices_allocated. rewrite Hseq. apply Forall_forall.
      intros d Hd. apply in_seq in Hd. lia. }
    destruct (on_advertisement_new_device address data event_flags address_type
                rssi w Hfound Halloc) as (_ & Hd & Ha & _).
    split; [|exact Ha]. rewrite Hd, Hseq, seq_S. reflexivity.
Qed.

Lemma perform_all_addresses (actions : list Action) :
  forall w : World,
    devices w = seq 0 (next_device w) ->
    devices (perform_all actions w) = seq 0 (next_device (perform_all actions w))
    /\ addresses (perform_all actions w) = fold_left record_address actions (addresses w).
Proof.
  induction actions as [|a rest IH]; intros w Hseq; [now split|].
  cbn [perform_all fold_left].
  destruct (perform_addresses a w Hseq) as [Hseq' Ha].
  destruct (IH _ Hseq') as [Hs Hr]. split; [exact Hs|]. now rewrite Hr, Ha.
Qed.

Lemma record_address_keeps (seen : list string) (a : Action) (x : string) :
  In x seen -> In x (record_address seen a).
Proof.
  intros Hin. destruct a as [[address data event_flags address_type rssi | | | | | | | | ]
                            | | | | | | ]; cbn [record_address]; try exact Hin.
  destruct (existsb _ seen); [exact Hin | apply in_or_app; now left].
Qed.

Lemma fold_record_address_keeps (actions : list Action) :
  forall (seen : list string) (x : string),
    In x seen -> In x (fold_left record_address actions seen).
Proof.
  induction actions as [|a rest IH]; intros seen x Hin; [exact Hin|].
  cbn [fold_left]. apply IH. now apply record_address_keeps.
Qed.

Lemma fold_record_address_upper (actions : list Action) :
  forall seen : list string,
    Forall (fun a => upper a = a) seen ->
    Forall (fun a => upper a = a) (fold_left record_address actions seen).
Proof.
  induction actions as [|a rest IH]; intros seen H; [exact H|].
  cbn [fold_left]. apply IH.
  destruct a as [[address data event_flags address_type rssi | | | | | | | | ]
                | | | | | | ]; cbn [record_address]; try exact H.
  destruct (existsb _ seen); [exact H|].
  apply Forall_app. split; [exact H|].
  constructor; [apply upper_idempotent | constructor].
Qed.

Lemma fold_record_address_heard (actions : list Action) (address : string)
    (data : list byte) (event_flags address_type rssi : Z) :
  forall seen : list string,
    In (Deliver (bt_evt_scanner_legacy_advertisement_report
                   address data event_flags address_type rssi)) actions ->
    In (upper address) (fold_left record_address actions seen).
Proof.
  induction actions as [|a rest IH]; intros seen Hin; [destruct Hin|].
  cbn [fold_left]. destruct Hin as [->|Hin]; [|now apply IH].
  apply fold_record_address_keeps. cbn [record_address].
  destruct (existsb (String.eqb (upper address)) seen) eqn:He.
  - apply existsb_exists in He. destruct He as (x & Hx & Heq).
    apply String.eqb_eq in Heq. now subst x.
  - apply in_or_app. right. now left.
Qed.

(** X14. One device per address, whatever the letter case.  In every state
    reached from the initial one the addresses of the collection are the
    upper-cased addresses of the advertisement reports received, each kept
    once in the order of first hearing; the devices are the objects allocated
    so far, in allocation order; every stored address is its own upper-case
    form and no two devices share one.  Hence a device that was heard is
    found under its address written in any letter case, and a
    connection-opened event reporting the address in any case marks that
    device connected. *)
Theorem one_device_per_upper_case_address :
  forall (l : BGLib) (actions : list Action),
    let w := perform_all actions (init l) in
    addresses w = fold_left record_address actions []
    /\ devices w = seq 0 (List.length (addresses w))
    /\ NoDup (addresses w)
    /\ Forall (fun a => upper a = a) (addresses w)
    /\ (forall (address : string) (data : list byte)
               (event_flags address_type rssi : Z) (address' : string),
          In (Deliver (bt_evt_scanner_legacy_advertisement_report
                         address data event_flags address_type rssi)) actions ->
          upper address' = upper address ->
          exists d : DeviceRef,
            get_device_by_address w (upper address') = Some d
            /\ In d (devices w)
            /\ Device.address (device_heap w d) = upper address
            /\ forall connection : Z,
                 Device.is_connected
                   (device_heap (world (on_connection_opened address' connection w)) d)
                 = true).
Proof.
  intros l actions w.
  destruct (perform_all_addresses actions (init l) eq_refl) as [Hseq Ha].
  fold w in Hseq, Ha. change (addresses (init l)) with (@nil string) in Ha.
  split; [exact Ha|].
  split.
  { rewrite Hseq at 1. f_equal. unfold addresses.
    rewrite length_map, Hseq at 1. now rewrite length_seq. }
  split.
  { apply (perform_all_unique_addresses actions (init l)). split; constructor. }
  split.
  { rewrite Ha. apply fold_record_address_upper. constructor. }
  intros address data event_flags address_type rssi address' Hin Hup.
  assert (Hheard : In (upper address) (addresses w))
    by (rewrite Ha; eapply fold_record_address_heard; exact Hin).
  destruct (get_device_by_address w (upper address)) as [d|] eqn:Hfound;
    [|exfalso; exact (get_device_by_address_not_In _ _ Hfound Hheard)].
  destruct (get_device_by_address_In _ _ _ Hfound) as (Hd & Haddr & _).
  exists d. rewrite Hup.
  split; [exact Hfound|]. split; [exact Hd|]. split; [exact Haddr|].
  intros connection. unfold on_connection_opened, bind, gets.
  rewrite Hup, Hfound. cbn. now rewrite update_same.
Qed.

Lemma one_device_per_upper_case_address_witness :
  let actions :=
    [Deliver (bt_evt_scanner_legacy_advertisement_report
                "aa:bb:cc:dd:ee:ff" [x12; x34] 1 1 (-100));
     Deliver (bt_evt_scanner_legacy_advertisement_report
                "00:11:22:33:44:55" [] 0 0 (-60));
     Deliver (bt_evt_scanner_legacy_advertisement_report
                "AA:BB:CC:DD:EE:FF" [x56] 1 1 (-90))] in
  let w := perform_all actions (init example_lib) in
  addresses w = ["AA:BB:CC:DD:EE:FF"; "00:11:22:33:44:55"]%string
  /\ exists d : DeviceRef,
       get_device_by_address w (upper "Aa:Bb:Cc:Dd:Ee:Ff") = Some d
       /\ Device.address (device_heap w d) = upper "aa:bb:cc:dd:ee:ff".
Proof.
  intros actions w.
  destruct (one_device_per_upper_case_address example_lib actions)
    as (_ & _ & _ & _ & H).
  split; [vm_compute; reflexivity|].
  destruct (H "aa:bb:cc:dd:ee:ff"%string [x12; x34] 1%Z 1%Z (-100)%Z
              "Aa:Bb:Cc:Dd:Ee:Ff"%string) as (d & Hf & _ & Haddr & _).
  - left. reflexivity.
  - vm_compute. reflexivity.
  - exists d. split; [exact Hf | exact Haddr].
Defined.

(** ** Discovery rounds *)

Lemma bind_ok {A B : Type} (m : M A) (k : A -> M B) (w : World) (a : A) :
  result (m w) = Ok a ->
  bind m k w
  = (result (k a (world (m w))), world (k a (world (m w))),
     effects (m w) ++ effects (k a (world (m w)))).
Proof.
  unfold bind, result, world, effects.
  destruct (m w) as [[r w1] t1]. cbn. intros ->.
  destruct (k a w1) as [[r2 w2] t2]. reflexivity.
Qed.

Lemma calls_app (t1 t2 : list Effect) : calls (t1 ++ t2) = calls t1 ++ calls t2.
Proof. apply flat_map_app. Qed.

Lemma find_after_prefix {A : Type} (f : A -> bool) (l1 l2 : list A) (a : A) :
  (forall b, In b l1 -> f b = false) -> f a = true ->
  find f (l1 ++ a :: l2) = Some a.
Proof.
  intros H1 Ha. rewrite find_app, (find_all_false f l1 H1). cbn [find].
  now rewrite Ha.
Qed.

Lemma discovering_first (w : World) (connection : Z) (d : DeviceRef)
    (done todo : list ServiceRef) (s : ServiceRef) :
  discovering w connection d done (s :: todo) ->
  find (fun s => ServiceState_eqb (Service.state (service_heap w s)) DISCOVERING)
       (services_of w d) = Some s
  /\ first_pending_marker w d = Some (ServiceMarker s)
  /\ ~ In s done /\ ~ In s todo.
Proof.
  intros (Hdev & Hsv & Hnd & Hdone & Htodo & Hidle).
  split; [|split; [|split]].
  - rewrite Hsv. apply find_after_prefix.
    + intros b Hb. now rewrite (Hdone b Hb).
    + now rewrite (Htodo s (or_introl eq_refl)).
  - rewrite first_pending_marker_all_idle.
    + rewrite Hsv, (find_after_prefix (service_pending w) done todo s); [reflexivity | |].
      * intros b Hb. unfold service_pending. now rewrite (Hdone b Hb).
      * unfold service_pending. now rewrite (Htodo s (or_introl eq_refl)).
    + apply existsb_all_false. intros c Hc. unfold characteristic_pending.
      now rewrite (Hidle c Hc).
  - apply NoDup_remove_2 in Hnd. intros H. apply Hnd. apply in_or_app. now left.
  - apply NoDup_remove_2 in Hnd. intros H. apply Hnd. apply in_or_app. now right.
Qed.

(** A characteristic report during a round: the new object is appended to the
    first service of [todo]. *)
Lemma on_characteristic_discovering (w : World) (connection : Z) (d : DeviceRef)
    (done todo : list ServiceRef) (s : ServiceRef)
    (uuid : list byte) (characteristic properties : Z) :
  discovering w connection d done (s :: todo) ->
  let x := on_characteristic connection uuid characteristic properties w in
  result x = Ok tt
  /\ calls (effects x) = []
  /\ discovering (world x) connection d done (s :: todo)
  /\ device_heap (world x) = device_heap w
  /\ service_heap (world x)
     = update (service_heap w) s
         (Service.append_characteristic (next_characteristic w) (service_heap w s)).
Proof.
  intros Hshape x.
  destruct (discovering_first _ _ _ _ _ _ Hshape) as (Hfind & _).
  destruct Hshape as (Hdev & Hsv & Hnd & Hdone & Htodo & Hidle).
  assert (Hx : x = (c <- new_characteristic
                          (Characteristic.init (upper (hex (rev uuid)))
                             characteristic properties) ;;
                    write_service s "characteristics"
                      (Service.append_characteristic c)) w).
  { subst x. unfold on_characteristic, bind at 1 2, gets. rewrite Hdev.
    destruct (on_characteristic_loop _ _ _ _ w) as [[r w1] t1] eqn:Hloop.
    rewrite on_characteristic_loop_first_discovering, Hfind in Hloop.
    now rewrite Hloop. }
  rewrite Hx. unfold bind. cbn -[upper hex rev].
  split; [reflexivity|]. split; [reflexivity|].
  split; [|split; reflexivity].
  set (c := next_characteristic w).
  assert (Hstate : forall s', Service.state
                     (update (service_heap w) s
                        (Service.append_characteristic c (service_heap w s)) s')
                   = Service.state (service_heap w s')).
  { intros s'. unfold update. destruct (Nat.eqb_spec s' s) as [->|Hne]; reflexivity. }
  split; [exact Hdev|]. split; [exact Hsv|]. split; [exact Hnd|].
  cbn -[upper hex rev].
  split; [intros s' Hs'; rewrite Hstate; now apply Hdone|].
  split; [intros s' Hs'; rewrite Hstate; now apply Htodo|].
  intros c' Hc'. unfold update at 1.
  destruct (Nat.eqb_spec c' c) as [->|Hne]; [reflexivity|].
  apply Hidle. unfold characteristics_of in *. cbn -[upper hex rev] in Hc'.
  apply in_flat_map in Hc'. destruct Hc' as (s' & Hs' & Hin).
  apply in_flat_map. exists s'. split; [exact Hs'|].
  unfold update in Hin. destruct (Nat.eqb_spec s' s) as [->|Hne'];
    [|exact Hin].
  cbn in Hin. apply in_app_or in Hin. destruct Hin as [Hin|[Heq|[]]];
    [exact Hin | now subst c'].
Qed.

Lemma characteristic_reports_discovering (connection : Z) (d : DeviceRef)
    (done todo : list ServiceRef) (s : ServiceRef)
    (reports : list (list byte * Z * Z)) :
  forall w : World,
    discovering w connection d done (s :: todo) ->
    let x := characteristic_reports connection reports w in
    result x = Ok tt
    /\ calls (effects x) = []
    /\ discovering (world x) connection d done (s :: todo)
    /\ device_heap (world x) = device_heap w
    /\ (forall s', s' <> s -> service_heap (world x) s' = service_heap w s')
    /\ Service.handle (service_heap (world x) s) = Service.handle (service_heap w s)
    /\ List.length (Service.characteristics (service_heap (world x) s))
       = List.length (Service.characteristics (service_heap w s)) + List.length reports.
Proof.
  induction reports as [|[[uuid characteristic] properties] rest IH]; intros w Hshape.
  - cbn. repeat (split; [reflexivity || exact Hshape|]). lia.
  - cbn [characteristic_reports].
    destruct (on_characteristic_discovering w connection d done todo s uuid
                characteristic properties Hshape) as (Hr & Hc & Hshape1 & Hd1 & Hs1).
    rewrite (bind_ok _ _ w tt Hr).
    set (w1 := world (on_characteristic connection uuid characteristic properties w)) in *.
    destruct (IH w1 Hshape1) as (Hr2 & Hc2 & Hshape2 & Hd2 & Hs2 & Hh2 & Hl2).
    cbn [result world effects fst snd].
    split; [exact Hr2|].
    split; [now rewrite calls_app, Hc, Hc2|].
    split; [exact Hshape2|].
    split; [now rewrite Hd2, Hd1|].
    split; [intros s' Hne; rewrite (Hs2 s' Hne), Hs1; now apply update_other|].
    split; [rewrite Hh2, Hs1, update_same; reflexivity|].
    rewrite Hl2, Hs1, update_same. cbn. rewrite length_app. cbn. lia.
Qed.

(** The completion of a procedure during a round: the first service of
    [todo] becomes Discovered and the characteristics of the next one are
    asked for. *)
Lemma on_procedure_completed_discovering (w : World) (connection : Z) (d : DeviceRef)
    (done todo : list ServiceRef) (s : ServiceRef) :
  discovering w connection d done (s :: todo) ->
  let x := on_procedure_completed connection w in
  result x = Ok tt
  /\ calls (effects x)
     = match todo with
       | [] => []
       | s' :: _ => [bt_gatt_discover_characteristics
                       (Device.handle (device_heap w d))
                       (Service.handle (service_heap w s'))]
       end
  /\ discovering (world x) connection d (done ++ [s]) todo
  /\ device_heap (world x) = device_heap w
  /\ service_heap (world x)
     = update (service_heap w) s (Service.set_state DISCOVERED (service_heap w s)).
Proof.
  intros Hshape x.
  destruct (discovering_first _ _ _ _ _ _ Hshape) as (_ & Hmarker & Hnot_done & Hnot_todo).
  destruct Hshape as (Hdev & Hsv & Hnd & Hdone & Htodo & Hidle).
  subst x. rewrite (on_procedure_completed_resolved w connection d Hdev), Hmarker.
  cbn [result world effects fst snd advance write_service].
  set (w' := mkWorld _ _ _ _ _ _ _ _ _ _).
  assert (Hstate : forall s', s' <> s ->
            Service.state (service_heap w' s') = Service.state (service_heap w s')).
  { intros s' Hne. subst w'. cbn. now rewrite update_other. }
  assert (Hdone' : forall s', In s' (done ++ [s]) ->
            Service.state (service_heap w' s') = DISCOVERED).
  { intros s' Hs'. apply in_app_or in Hs'. destruct Hs' as [Hs'|[<-|[]]].
    - rewrite Hstate; [now apply Hdone | intros ->; contradiction].
    - subst w'. cbn. now rewrite update_same. }
  assert (Htodo' : forall s', In s' todo ->
            Service.state (service_heap w' s') = DISCOVERING).
  { intros s' Hs'. rewrite Hstate; [apply Htodo; now right | intros ->; contradiction]. }
  split; [reflexivity|].
  split.
  { rewrite calls_app. cbn [calls flat_map app]. unfold discovery_command.
    change (services_of w' d) with (services_of w d).
    rewrite Hsv. change (done ++ s :: todo) with (done ++ [s] ++ todo).
    rewrite app_assoc. destruct todo as [|s' todo'].
    - rewrite find_all_false; [reflexivity|].
      intros b Hb. rewrite app_nil_r in Hb. now rewrite (Hdone' b Hb).
    - rewrite (find_after_prefix _ (done ++ [s]) todo' s').
      + cbn [calls flat_map app]. subst w'. cbn.
        rewrite update_other; [reflexivity|].
        intros ->. apply Hnot_todo. now left.
      + intros b Hb. now rewrite (Hdone' b Hb).
      + now rewrite (Htodo' s' (or_introl eq_refl)). }
  split; [|split; reflexivity].
  split; [exact Hdev|].
  split; [change (services_of w' d) with (services_of w d);
          rewrite Hsv, <- app_assoc; reflexivity|].
  split; [rewrite <- app_assoc; exact Hnd|].
  split; [exact Hdone'|]. split; [exact Htodo'|].
  intros c Hc. change (characteristic_heap w' c) with (characteristic_heap w c).
  apply Hidle. unfold characteristics_of in *.
  change (services_of w' d) with (services_of w d) in Hc.
  apply in_flat_map in Hc. destruct Hc as (s' & Hs' & Hin).
  apply in_flat_map. exists s'. split; [exact Hs'|].
  subst w'. cbn in Hin. unfold update in Hin.
  destruct (Nat.eqb_spec s' s) as [->|Hne]; exact Hin.
Qed.

Lemma discovery_round_discovering (connection : Z) (d : DeviceRef)
    (procedures : list (list (list byte * Z * Z))) :
  forall (w : World) (done todo : list ServiceRef),
    discovering w connection d done todo ->
    List.length procedures = List.length todo ->
    let x := discovery_round connection procedures w in
    result x = Ok tt
    /\ calls (effects x)
       = map (fun s => bt_gatt_discover_characteristics
                         (Device.handle (device_heap w d))
                         (Service.handle (service_heap w s))) (tl todo)
    /\ discovering (world x) connection d (done ++ todo) []
    /\ device_heap (world x) = device_heap w
    /\ (forall s, ~ In s todo -> service_heap (world x) s = service_heap w s)
    /\ (forall s, Service.handle (service_heap (world x) s)
                  = Service.handle (service_heap w s))
    /\ map (fun s => List.length (Service.characteristics (service_heap (world x) s))) todo
       = map (fun p => List.length (Service.characteristics (service_heap w (fst p)))
                       + List.length (snd p))
             (combine todo procedures).
Proof.
  induction procedures as [|reports rest IH]; intros w done todo Hshape Hlen.
  - destruct todo as [|s todo]; [|discriminate Hlen].
    cbn. rewrite app_nil_r. repeat (split; [reflexivity || exact Hshape|]).
    reflexivity.
  - destruct todo as [|s todo]; [discriminate Hlen|].
    injection Hlen as Hlen. cbn [discovery_round].
    destruct (characteristic_reports_discovering connection d done todo s reports
                w Hshape) as (Hr1 & Hc1 & Hshape1 & Hd1 & Hs1 & Hh1 & Hl1).
    rewrite (bind_ok _ _ w tt Hr1).
    set (w1 := world (characteristic_reports connection reports w)) in *.
    destruct (on_procedure_completed_discovering w1 connection d done todo s Hshape1)
      as (Hr2 & Hc2 & Hshape2 & Hd2 & Hs2).
    rewrite (bind_ok _ _ w1 tt Hr2).
    set (w2 := world (on_procedure_completed connection w1)) in *.
    destruct (IH w2 (done ++ [s]) todo Hshape2 Hlen)
      as (Hr3 & Hc3 & Hshape3 & Hd3 & Hs3 & Hh3 & Hl3).
    set (x3 := discovery_round connection rest w2) in *.
    destruct (discovering_first _ _ _ _ _ _ Hshape) as (_ & _ & _ & Hnot_todo).
    assert (Hframe : forall s', s' <> s -> service_heap w2 s' = service_heap w s').
    { intros s' Hne. rewrite Hs2, update_other by exact Hne. now apply Hs1. }
    assert (Hhandle : forall s', Service.handle (service_heap w2 s')
                                 = Service.handle (service_heap w s')).
    { intros s'. destruct (Nat.eq_dec s' s) as [->|Hne].
      - rewrite Hs2, update_same. cbn. exact Hh1.
      - now rewrite Hframe. }
    cbn [result world effects fst snd].
    split; [exact Hr3|].
    split.
    { rewrite !calls_app, Hc1, Hc2, Hc3, Hd2, Hd1. cbn [app tl].
      destruct todo as [|s' todo']; [reflexivity|].
      cbn [tl map app]. f_equal.
      - f_equal. apply (f_equal Service.handle).
        apply Hs1. intros ->. apply Hnot_todo. now left.
      - apply map_ext. intros a. now rewrite Hhandle. }
    split; [rewrite <- app_assoc in Hshape3; exact Hshape3|].
    split; [now rewrite Hd3, Hd2, Hd1|].
    split.
    { intros s' Hs'. rewrite Hs3 by (intros H; apply Hs'; now right).
      apply Hframe. intros ->. apply Hs'. now left. }
    split; [intros s'; now rewrite Hh3, Hhandle|].
    cbn [map combine fst snd]. f_equal.
    + rewrite (Hs3 s Hnot_todo), Hs2, update_same. cbn. exact Hl1.
    + rewrite Hl3. apply map_ext_in. intros [s' p] Hin.
      apply in_combine_l in Hin. cbn [fst snd].
      rewrite Hframe; [reflexivity|]. intros ->. contradiction.
Qed.

(** X15. A discovery round asks for the characteristics of every new service
    but the first.  Take a connection that resolves to a device whose
    services are [old] followed by [new], all different, those of [old]
    Discovered and those of [new] Discovering, with no characteristic command
    outstanding, and deliver one procedure per new service: the
    characteristics it reports and then its ProcedureCompleted event.  The
    commands sent are exactly one characteristic discovery for the second,
    third, ... service of [new], in order, and none for the first; the
    characteristics reported before the k-th completion are appended to the
    k-th new service; in the end every service is Discovered, the services
    of [old] are untouched and the device is not busy. *)
Theorem discovery_round_skips_the_first_service :
  forall (w : World) (connection : Z) (d : DeviceRef)
         (old new : list ServiceRef)
         (procedures : list (list (list byte * Z * Z))),
    discovering w connection d old new ->
    List.length procedures = List.length new ->
    let x := discovery_round connection procedures w in
    result x = Ok tt
    /\ calls (effects x)
       = map (fun s => bt_gatt_discover_characteristics
                         (Device.handle (device_heap w d))
                         (Service.handle (service_heap w s))) (tl new)
    /\ services_of (world x) d = old ++ new
    /\ (forall s, In s (old ++ new) ->
                  Service.state (service_heap (world x) s) = DISCOVERED)
    /\ (forall s, In s old -> service_heap (world x) s = service_heap w s)
    /\ map (fun s => List.length (Service.characteristics (service_heap (world x) s))) new
       = map (fun p => List.length (Service.characteristics (service_heap w (fst p)))
                       + List.length (snd p))
             (combine new procedures)
    /\ is_using_gatt_command (world x) d = false.
Proof.
  intros w connection d old new procedures Hshape Hlen x.
  destruct (discovery_round_discovering connection d procedures w old new Hshape Hlen)
    as (Hr & Hc & Hshape' & Hd & Hs & _ & Hl).
  fold x in Hr, Hc, Hshape', Hd, Hs, Hl.
  destruct Hshape as (_ & _ & Hnd & _).
  destruct Hshape' as (_ & Hsv & _ & Hdone & _ & Hidle).
  rewrite app_nil_r in Hsv.
  split; [exact Hr|]. split; [exact Hc|]. split; [exact Hsv|].
  split; [exact Hdone|].
  split.
  { intros s Hs'. apply Hs. intros Hin.
    clear - Hnd Hs' Hin. induction old as [|a old IH]; [destruct Hs'|].
    cbn in Hnd. inversion Hnd as [|? ? Hna Hnd']; subst.
    destruct Hs' as [->|Hs']; [apply Hna; apply in_or_app; now right | now apply IH]. }
  split; [exact Hl|].
  unfold is_using_gatt_command. apply orb_false_intro.
  - apply existsb_all_false. intros s Hs'. rewrite Hsv in Hs'.
    unfold service_pending. now rewrite (Hdone s Hs').
  - apply existsb_all_false. intros c Hc'.
    unfold characteristic_pending. now rewrite (Hidle c Hc').
Qed.

Lemma discovery_round_skips_the_first_service_witness :
  let w := perform_all
             [Deliver (bt_evt_scanner_legacy_advertisement_report
                         "00:11:22:33:44:55" [x12; x34] 1 1 (-100));
              ConnectDevice 0 7;
              Deliver (bt_evt_connection_opened "00:11:22:33:44:55" 7);
              Deliver (bt_evt_gatt_service 7 [x00; x18] 1);
              Deliver (bt_evt_gatt_service 7 [x0a; x18] 5);
              Deliver (bt_evt_gatt_service 7 [x0f; x18] 9)] (init example_lib) in
  let x := discovery_round 7 [[]; [([x29; x2a], 6, 2); ([x24; x2a], 8, 2)];
                              [([x19; x2a], 11, 18)]]%Z w in
  calls (effects x) = [bt_gatt_discover_characteristics (Some 7%Z) 5;
                       bt_gatt_discover_characteristics (Some 7%Z) 9]
  /\ map (fun s => List.length (Service.characteristics (service_heap (world x) s)))
         [0; 1; 2] = [0; 2; 1]
  /\ is_using_gatt_command (world x) 0 = false.
Proof.
  intros w x.
  assert (Hshape : discovering w 7 0 [] [0; 1; 2]).
  { split; [vm_compute; reflexivity|].
    split; [vm_compute; reflexivity|].
    split.
    { cbn [app]. constructor; [intros [H|[H|[]]]; discriminate H|].
      constructor; [intros [H|[]]; discriminate H|].
      constructor; [intros []|constructor]. }
    split; [intros s []|].
    split; [intros s [<-|[<-|[<-|[]]]]; vm_compute; reflexivity|].
    intros c Hc. vm_compute in Hc. destruct Hc. }
  destruct (discovery_round_skips_the_first_service w 7 0 [] [0; 1; 2]
              [[]; [([x29; x2a], 6, 2); ([x24; x2a], 8, 2)]; [([x19; x2a], 11, 18)]]%Z
              Hshape eq_refl) as (_ & Hc & _ & _ & _ & Hl & Hbusy).
  fold x in Hc, Hl, Hbusy.
  split; [rewrite Hc; vm_compute; reflexivity|].
  split; [rewrite Hl; vm_compute; reflexivity | exact Hbusy].
Defined.

(** ** A connection that was not asked for *)

Lemma perform_keeps_connected_without_handle (a : Action) (w : World) (d : DeviceRef) :
  In d (devices w) ->
  devices_allocated w ->
  connected_without_handle w d ->
  ~ connects a d ->
  In d (devices (world (perform a w)))
  /\ connected_without_handle (world (perform a w)) d.
Proof.
  intros Hin Halloc [Hc Hh] Hnot.
  assert (Hsame : forall w', devices w' = devices w -> device_heap w' = device_heap w ->
                             In d (devices w') /\ connected_without_handle w' d).
  { intros w' Hd Hheap. rewrite Hd. split; [exact Hin|].
    unfold connected_without_handle. now rewrite Hheap. }
  destruct a as [e | device response | device | device c | device c packet
                | device c | device c]; cbn [perform].
  - destruct e as [address data event_flags address_type rssi | | address connection
                  | connection | connection uuid service
                  | connection uuid characteristic properties
                  | connection characteristic att_opcode value | connection | name];
      cbn [dispatch].
    + destruct (get_device_by_address w (upper address)) as [d'|] eqn:Hfound.
      * destruct (on_advertisement_known_device address data event_flags address_type
                    rssi w d' Hfound) as (_ & _ & Hd & _ & _ & _ & _ & Hh' & Hi & _ & Ho).
        rewrite Hd. split; [exact Hin|]. unfold connected_without_handle.
        destruct (Nat.eq_dec d d') as [->|Hne]; [now rewrite Hh', Hi | now rewrite Ho].
      * destruct (on_advertisement_new_device address data event_flags address_type
                    rssi w Hfound Halloc) as (_ & Hd & _ & _ & _ & Ho).
        rewrite Hd. split; [apply in_or_app; now left|].
        unfold connected_without_handle. rewrite Ho; [now split|].
        unfold devices_allocated in Halloc. rewrite Forall_forall in Halloc.
        specialize (Halloc d Hin). lia.
    + apply Hsame; reflexivity.
    + unfold on_connection_opened, bind, gets.
      destruct (get_device_by_address w (upper address)) as [d'|];
        [|apply Hsame; reflexivity].
      split; [exact Hin|]. unfold connected_without_handle. cbn. unfold update.
      destruct (Nat.eqb_spec d d') as [->|Hne]; cbn; now split.
    + unfold on_connection_closed, bind, gets.
      destruct (get_device_by_handle w connection) as [d'|] eqn:Hfound;
        [|apply Hsame; reflexivity].
      assert (Hne : d <> d').
      { intros ->. apply find_some in Hfound. destruct Hfound as [_ Hf].
        rewrite Hh in Hf. discriminate Hf. }
      split; [exact Hin|]. unfold connected_without_handle. cbn.
      rewrite !update_other by exact Hne. now split.
    + unfold on_service, bind, gets.
      destruct (get_device_by_handle w connection) as [d'|];
        [|apply Hsame; reflexivity].
      split; [exact Hin|]. unfold connected_without_handle.
      cbn -[upper hex rev]. unfold update.
      destruct (Nat.eqb_spec d d') as [->|Hne]; now split.
    + unfold on_characteristic, bind, gets.
      destruct (get_device_by_handle w connection) as [d'|];
        [|apply Hsame; reflexivity].
      destruct (on_characteristic_loop_devices (services_of w d')
                  (upper (hex (rev uuid))) characteristic properties w) as [Hd Hheap].
      destruct (on_characteristic_loop _ _ _ _ w) as [[r w1] t1].
      apply Hsame; assumption.
    + unfold on_characteristic_value, bind, gets.
      destruct (att_opcode =? ATT_OPCODE_HANDLE_VALUE_INDICATION (lib w))%Z;
        cbn -[hex];
        (destruct (get_device_by_handle w connection) as [d'|]; cbn -[hex];
         [destruct (Device_get_characteristic_by_handle w d' characteristic);
          cbn -[hex]|]);
        (split; [exact Hin | now split]).
    + destruct (get_device_by_handle w connection) as [d'|] eqn:Hd.
      * rewrite (on_procedure_completed_resolved w connection d' Hd).
        destruct (first_pending_marker w d') as [[s|c]|]; apply Hsame; reflexivity.
      * unfold on_procedure_completed, bind, gets. rewrite Hd.
        apply Hsame; reflexivity.
    + apply Hsame; reflexivity.
  - cbn in Hnot. unfold connect_device, bind, gets.
    destruct (existsb (is_connecting w) (devices w)); [apply Hsame; reflexivity|].
    split; [exact Hin|]. unfold connected_without_handle. cbn.
    rewrite update_other by (intros ->; now apply Hnot). now split.
  - unfold disconnect_device, bind, gets.
    destruct (Device.handle (device_heap w device)); apply Hsame; reflexivity.
  - unfold read_from_characteristic, bind, gets.
    destruct (is_using_gatt_command w device);
      [|destruct (Device.is_connected (device_heap w device))];
      apply Hsame; reflexivity.
  - unfold write_to_characteristic, bind, gets.
    destruct (is_using_gatt_command w device);
      [|destruct (Device.is_connected (device_heap w device));
        [destruct (fromhex packet)|]];
      apply Hsame; reflexivity.
  - unfold subscribe_to_notification, bind, gets.
    destruct (is_using_gatt_command w device);
      [|destruct (Device.is_connected (device_heap w device))];
      apply Hsame; reflexivity.
  - unfold subscribe_to_indication, bind, gets.
    destruct (is_using_gatt_command w device);
      [|destruct (Device.is_connected (device_heap w device))];
      apply Hsame; reflexivity.
Qed.

(** X16. A connection that was opened without a handle cannot be closed.  A
    ConnectionOpened event marks the device with its address connected but
    records no handle; the handle is only written by [connect_device].  Once a
    device of the collection is marked connected while it has no handle, every
    event and every operation other than a direct [connect_device] for that
    device leaves it so: no connection handle resolves to it, so no
    ConnectionClosed event reaches it; its button reads Disconnect, and
    clicking it calls [disconnect_device], which sends nothing. *)
Theorem connection_without_handle_is_never_closed :
  forall (actions : list Action) (w : World) (d : DeviceRef),
    unique_addresses w ->
    In d (devices w) ->
    connected_without_handle w d ->
    (forall a, In a actions -> ~ connects a d) ->
    let w' := perform_all actions w in
    In d (devices w')
    /\ connected_without_handle w' d
    /\ (forall connection : Z, get_device_by_handle w' connection <> Some d)
    /\ DeviceWidget_button_text w' d = "Disconnect"%string
    /\ (forall response_connection : Z,
          on_connect_button d response_connection w' = (Ok tt, w', []))
    /\ (forall connection : Z,
          connected_without_handle
            (world (dispatch (bt_evt_connection_closed connection) w')) d).
Proof.
  assert (Hkeep : forall actions w d,
            unique_addresses w -> In d (devices w) -> connected_without_handle w d ->
            (forall a, In a actions -> ~ connects a d) ->
            unique_addresses (perform_all actions w)
            /\ In d (devices (perform_all actions w))
            /\ connected_without_handle (perform_all actions w) d).
  { induction actions as [|a rest IH]; intros w d Hinv Hin Hstuck Hnot; [now split|].
    cbn [perform_all].
    destruct (perform_keeps_connected_without_handle a w d Hin (proj1 Hinv) Hstuck
                (Hnot a (or_introl eq_refl))) as [Hin' Hstuck'].
    apply IH; [now apply perform_unique_addresses | exact Hin' | exact Hstuck' |].
    intros a' Ha'. apply Hnot. now right. }
  intros actions w d Hinv Hin Hstuck Hnot w'.
  destruct (Hkeep actions w d Hinv Hin Hstuck Hnot) as (Hinv' & Hin' & Hstuck').
  fold w' in Hinv', Hin', Hstuck'.
  split; [exact Hin'|]. split; [exact Hstuck'|].
  destruct Hstuck' as [Hc Hh].
  split.
  { intros connection Hfound. apply find_some in Hfound. destruct Hfound as [_ Hf].
    rewrite Hh in Hf. discriminate Hf. }
  split; [unfold DeviceWidget_button_text; now rewrite Hc|].
  split.
  { intros response_connection.
    unfold on_connect_button, bind, gets. rewrite Hc.
    unfold disconnect_device, bind, gets. now rewrite Hh. }
  intros connection.
  apply (perform_keeps_connected_without_handle
           (Deliver (bt_evt_connection_closed connection)) w' d Hin' (proj1 Hinv')
           (conj Hc Hh)).
  intros H. exact H.
Qed.

Lemma connection_without_handle_is_never_closed_witness :
  let w := perform_all
             [Deliver (bt_evt_scanner_legacy_advertisement_report
                         "00:11:22:33:44:55" [x12; x34] 1 1 (-100));
              Deliver (bt_evt_connection_opened "00:11:22:33:44:55" 4)]
             (init example_lib) in
  let w' := perform_all
              [DisconnectDevice 0; Deliver (bt_evt_connection_closed 4);
               Deliver (bt_evt_gatt_procedure_completed 4)] w in
  connected_without_handle w' 0
  /\ on_connect_button 0 4 w' = (Ok tt, w', []).
Proof.
  intros w w'.
  assert (Hinv : unique_addresses w).
  { apply perform_all_unique_addresses. split; constructor. }
  assert (Hin : In 0 (devices w)) by (vm_compute; left; reflexivity).
  assert (Hstuck : connected_without_handle w 0)
    by (split; vm_compute; reflexivity).
  destruct (connection_without_handle_is_never_closed
              [DisconnectDevice 0; Deliver (bt_evt_connection_closed 4);
               Deliver (bt_evt_gatt_procedure_completed 4)] w 0 Hinv Hin Hstuck)
    as (_ & Hs & _ & _ & Hb & _).
  - intros a [<-|[<-|[<-|[]]]]; intros H; exact H.
  - split; [exact Hs | exact (Hb 4%Z)].
Defined.
